(** * The postmaster: connection dispatch and child supervision

    A shallow embedding of the supervisor code of [postmaster.c]
    (startup-packet processing, admission control, backend start,
    cancel requests, the shutdown signal handler and the reaper),
    followed by the properties established about it.

    The embedding follows the fork-based build (neither [EXEC_BACKEND]
    nor [WIN32] defined).  Operating-system answers (results of [fork],
    [random], [malloc], [set_noblock], the value of [errno] after a
    failed [fork]) are read from an explicit oracle
    kept in the state, and every externally visible action ([kill],
    [ereport], [send], calls into other modules) is appended to a trace,
    as the call that was made, whatever became of it.  A process that
    finds itself on the child side of a [fork] is followed no further by
    the postmaster's functions; what the backend child does with the
    startup packet is modelled on its own ([BackendRun]). *)

From Stdlib Require Import ZArith List Bool String Lia.
From Stdlib Require Import Strings.Byte.
Import ListNotations.
Local Open Scope Z_scope.

(** ** Machine integers *)

(** Reinterpretation of an integer in a two's complement type of
    [bits] bits (the conversion C applies on the supported platforms). *)
Definition wrap_signed (bits x : Z) : Z :=
  (x + 2 ^ (bits - 1)) mod 2 ^ bits - 2 ^ (bits - 1).

Definition to_int (x : Z) : Z := wrap_signed 32 x.

Definition INT_MAX : Z := 2147483647.

(** [ntohl] applied to four bytes in wire order. *)
Definition ntohl (b0 b1 b2 b3 : byte) : Z :=
  Z.lor (Z.shiftl (Z.of_N (Byte.to_N b0)) 24)
   (Z.lor (Z.shiftl (Z.of_N (Byte.to_N b1)) 16)
    (Z.lor (Z.shiftl (Z.of_N (Byte.to_N b2)) 8)
           (Z.of_N (Byte.to_N b3)))).

(** ** Status codes, signals, message levels *)

(** Return codes of [c.h]. *)
Definition STATUS_OK : Z := 0.
Definition STATUS_ERROR : Z := -1.

Inductive signal : Type :=
| SIGHUP | SIGINT | SIGQUIT | SIGTERM | SIGUSR1 | SIGUSR2 | SIGSTOP | SIGCHLD.

Inductive elevel : Type :=
| DEBUG4 | DEBUG3 | DEBUG2 | LOG | COMMERROR | WARNING | FATAL.

Inductive sqlstate : Type :=
| ERRCODE_PROTOCOL_VIOLATION
| ERRCODE_FEATURE_NOT_SUPPORTED
| ERRCODE_INVALID_AUTHORIZATION_SPECIFICATION
| ERRCODE_CANNOT_CONNECT_NOW
| ERRCODE_TOO_MANY_CONNECTIONS
| ERRCODE_OUT_OF_MEMORY.

Inductive CAC_state : Type :=
| CAC_OK | CAC_STARTUP | CAC_SHUTDOWN | CAC_RECOVERY | CAC_TOOMANY.

(** Startup/shutdown state ([#define]s of the source). *)
Definition NoShutdown : Z := 0.
Definition SmartShutdown : Z := 1.
Definition FastShutdown : Z := 2.

(** Kinds of special child started through [StartChildProcess]. *)
Inductive xlop_kind : Type := BS_XLOG_STARTUP | BS_XLOG_BGWRITER.

(** ** Configuration

    Run-time settings of the postmaster, and the constants and macros it
    takes from headers that are not part of the sources at hand
    ([libpq/pqcomm.h], [pg_config_manual.h]): these are parameters of
    everything below.  They are fixed for the life of a postmaster. *)
Record config : Type := mkConfig {
  MaxBackends : Z;
  USE_SSL : bool;                 (* compiled with SSL support *)
  EnableSSL : bool;
  Db_user_namespace : bool;
  SendStop : bool;
  Redirect_stderr : bool;
  XLogArchivingActive : bool;
  PG_PROTOCOL_MAJOR : Z -> Z;     (* the macros that take a version apart *)
  PG_PROTOCOL_MINOR : Z -> Z;
  PG_PROTOCOL_EARLIEST : Z;
  PG_PROTOCOL_LATEST : Z;
  CANCEL_REQUEST_CODE : Z;
  NEGOTIATE_SSL_CODE : Z;
  MAX_STARTUP_PACKET_LENGTH : Z;
  SM_DATABASE : Z;
  SM_USER : Z;
  SM_OPTIONS : Z;
  sizeof_StartupPacket : Z;
  NAMEDATALEN : Z;
  LONG_BITS : Z;                  (* width of the C type long *)
  WIFEXITED : Z -> bool;          (* the wait-status macros *)
  WIFSIGNALED : Z -> bool;
  strerror : Z -> list byte       (* text of an error number *)
}.


(** ** Data *)

Record Backend : Type := mkBackend {
  pid : Z;            (* process id of backend *)
  cancel_key : Z      (* cancel key for cancels for this backend *)
}.

(** The family of the local address of a connection, as far as the
    postmaster tells families apart: Unix-domain socket or network. *)
Inductive addr_family : Type := AF_UNIX | AF_INET | AF_INET6.

(** Modelled from the spec: the macro [IS_AF_UNIX] of [libpq/pqcomm.h],
    which is not among the sources; it singles out the local
    (Unix-domain) endpoints, all others being network endpoints. *)
Definition IS_AF_UNIX (fam : addr_family) : bool :=
  match fam with AF_UNIX => true | _ => false end.

Record Port : Type := mkPort {
  sock : Z;
  laddr_family : addr_family;
  proto : Z;
  database_name : option (list byte);
  user_name : option (list byte);
  cmdline_options : option (list byte);
  guc_options : list (list byte);
  canAcceptConnections_of : CAC_state
}.

(** Externally visible actions. *)
Inductive effect : Type :=
| E_kill (p : Z) (sig : signal)
| E_ereport (lev : elevel) (msg : string)
| E_fork (result : Z)
| E_send (s : Z) (data : list byte)
| E_call (fn : string).

(** Answers of the operating system, in the order they are asked for. *)
Record os_env : Type := mkOs {
  os_fork : list Z;
  os_random : list Z;
  os_malloc : list bool;
  os_noblock : list bool;
  os_errno : list Z
}.

Record pmstate : Type := mkState {
  Shutdown : Z;
  FatalError : bool;
  StartupPID : Z;
  BgWriterPID : Z;
  PgArchPID : Z;
  PgStatPID : Z;
  SysLoggerPID : Z;
  BackendList : list Backend;
  MyCancelKey : Z;
  os : os_env;
  trace : list effect
}.

Definition set_Shutdown (v : Z) (s : pmstate) : pmstate :=
  mkState v (FatalError s) (StartupPID s) (BgWriterPID s) (PgArchPID s)
          (PgStatPID s) (SysLoggerPID s) (BackendList s) (MyCancelKey s)
          (os s) (trace s).
Definition set_FatalError (v : bool) (s : pmstate) : pmstate :=
  mkState (Shutdown s) v (StartupPID s) (BgWriterPID s) (PgArchPID s)
          (PgStatPID s) (SysLoggerPID s) (BackendList s) (MyCancelKey s)
          (os s) (trace s).
Definition set_StartupPID (v : Z) (s : pmstate) : pmstate :=
  mkState (Shutdown s) (FatalError s) v (BgWriterPID s) (PgArchPID s)
          (PgStatPID s) (SysLoggerPID s) (BackendList s) (MyCancelKey s)
          (os s) (trace s).
Definition set_BgWriterPID (v : Z) (s : pmstate) : pmstate :=
  mkState (Shutdown s) (FatalError s) (StartupPID s) v (PgArchPID s)
          (PgStatPID s) (SysLoggerPID s) (BackendList s) (MyCancelKey s)
          (os s) (trace s).
Definition set_PgArchPID (v : Z) (s : pmstate) : pmstate :=
  mkState (Shutdown s) (FatalError s) (StartupPID s) (BgWriterPID s) v
          (PgStatPID s) (SysLoggerPID s) (BackendList s) (MyCancelKey s)
          (os s) (trace s).
Definition set_PgStatPID (v : Z) (s : pmstate) : pmstate :=
  mkState (Shutdown s) (FatalError s) (StartupPID s) (BgWriterPID s)
          (PgArchPID s) v (SysLoggerPID s) (BackendList s) (MyCancelKey s)
          (os s) (trace s).
Definition set_SysLoggerPID (v : Z) (s : pmstate) : pmstate :=
  mkState (Shutdown s) (FatalError s) (StartupPID s) (BgWriterPID s)
          (PgArchPID s) (PgStatPID s) v (BackendList s) (MyCancelKey s)
          (os s) (trace s).
Definition set_BackendList (v : list Backend) (s : pmstate) : pmstate :=
  mkState (Shutdown s) (FatalError s) (StartupPID s) (BgWriterPID s)
          (PgArchPID s) (PgStatPID s) (SysLoggerPID s) v (MyCancelKey s)
          (os s) (trace s).
Definition set_MyCancelKey (v : Z) (s : pmstate) : pmstate :=
  mkState (Shutdown s) (FatalError s) (StartupPID s) (BgWriterPID s)
          (PgArchPID s) (PgStatPID s) (SysLoggerPID s) (BackendList s) v
          (os s) (trace s).
Definition set_os (v : os_env) (s : pmstate) : pmstate :=
  mkState (Shutdown s) (FatalError s) (StartupPID s) (BgWriterPID s)
          (PgArchPID s) (PgStatPID s) (SysLoggerPID s) (BackendList s)
          (MyCancelKey s) v (trace s).
Definition emit (e : effect) (s : pmstate) : pmstate :=
  mkState (Shutdown s) (FatalError s) (StartupPID s) (BgWriterPID s)
          (PgArchPID s) (PgStatPID s) (SysLoggerPID s) (BackendList s)
          (MyCancelKey s) (os s) (trace s ++ [e]).

(** ** The postmaster monad

    A computation either returns in the postmaster, ends the process
    through [ExitPostmaster], or finds itself on the child side of a
    [fork] (where it continues as that child and never returns to the
    postmaster code that called it). *)
Inductive child_role : Type :=
| SpecialChild (xlop : xlop_kind)       (* BootstrapMain *)
| HelperChild (name : string)           (* archiver, collector, logger *)
| BackendChild (port : Port).           (* BackendRun *)

Inductive outcome (A : Type) : Type :=
| Ret (a : A) (s : pmstate)
| Exit (status : Z) (s : pmstate)
| Child (role : child_role) (s : pmstate).
Arguments Ret {A} a s.
Arguments Exit {A} status s.
Arguments Child {A} role s.

Definition PM (A : Type) : Type := pmstate -> outcome A.

Definition ret {A} (a : A) : PM A := fun s => Ret a s.

Definition bind {A B} (m : PM A) (k : A -> PM B) : PM B :=
  fun s =>
    match m s with
    | Ret a s' => k a s'
    | Exit st s' => Exit st s'
    | Child r s' => Child r s'
    end.

Notation "x <- m ;; k" := (bind m (fun x => k))
  (at level 61, m at next level, right associativity).
Notation "m ;; k" := (bind m (fun _ => k))
  (at level 61, right associativity).

Definition final {A} (o : outcome A) : pmstate :=
  match o with Ret _ s => s | Exit _ s => s | Child _ s => s end.

Definition gets {A} (f : pmstate -> A) : PM A := fun s => Ret (f s) s.
Definition modify (f : pmstate -> pmstate) : PM unit := fun s => Ret tt (f s).
Definition when (b : bool) (m : PM unit) : PM unit := if b then m else ret tt.

Definition ereport (lev : elevel) (msg : string) : PM unit :=
  modify (emit (E_ereport lev msg)).
Definition kill (p : Z) (sig : signal) : PM unit :=
  modify (emit (E_kill p sig)).
Definition call (fn : string) : PM unit :=
  modify (emit (E_call fn)).
Definition ExitPostmaster (status : Z) : PM unit :=
  fun s => Exit status s.
Definition become (r : child_role) : PM Z :=
  fun s => Child r s.

(** [fork()]: the next answer of the oracle; no answer left means the
    system cannot create a process. *)
Definition fork : PM Z :=
  fun s =>
    let r := match os_fork (os s) with [] => -1 | r :: _ => r end in
    let o := os s in
    Ret r (emit (E_fork r)
            (set_os (mkOs (tl (os_fork o)) (os_random o) (os_malloc o)
                          (os_noblock o) (os_errno o)) s)).

Definition random : PM Z :=
  fun s =>
    let r := match os_random (os s) with [] => 0 | r :: _ => r end in
    let o := os s in
    Ret r (set_os (mkOs (os_fork o) (tl (os_random o)) (os_malloc o)
                        (os_noblock o) (os_errno o)) s).

Definition malloc : PM bool :=
  fun s =>
    let r := match os_malloc (os s) with [] => true | r :: _ => r end in
    let o := os s in
    Ret r (set_os (mkOs (os_fork o) (os_random o) (tl (os_malloc o))
                        (os_noblock o) (os_errno o)) s).

Definition set_noblock : PM bool :=
  fun s =>
    let r := match os_noblock (os s) with [] => true | r :: _ => r end in
    let o := os s in
    Ret r (set_os (mkOs (os_fork o) (os_random o) (os_malloc o)
                        (tl (os_noblock o)) (os_errno o)) s).

(** [errno] as read after a failed system call: the next answer of the
    oracle. *)
Definition errno : PM Z :=
  fun s =>
    let r := match os_errno (os s) with [] => 0 | r :: _ => r end in
    let o := os s in
    Ret r (set_os (mkOs (os_fork o) (os_random o) (os_malloc o)
                        (os_noblock o) (tl (os_errno o))) s).

Fixpoint for_each {A} (l : list A) (f : A -> PM unit) : PM unit :=
  match l with
  | [] => ret tt
  | x :: rest => f x ;; for_each rest f
  end.

(** [DLGetHead(BackendList)] used as a truth value. *)
Definition DLGetHead_nonnull (l : list Backend) : bool :=
  match l with [] => false | _ :: _ => true end.

(** ** Starting special children *)

Definition StartChildProcess (xlop : xlop_kind) : PM Z :=
  (* Flush stdio channels (see comments in BackendStartup) *)
  call "fflush(stdout)" ;;
  call "fflush(stderr)" ;;
  p <- fork ;;
  if p =? 0 then
    (* child: BootstrapMain(ac, av); ExitPostmaster(0) *)
    become (SpecialChild xlop)
  else if p <? 0 then
    ereport LOG
      match xlop with
      | BS_XLOG_STARTUP => "could not fork startup process: %m"
      | BS_XLOG_BGWRITER => "could not fork background writer process: %m"
      end ;;
    (* fork failure is fatal during startup *)
    match xlop with
    | BS_XLOG_STARTUP => ExitPostmaster 1 ;; ret 0
    | BS_XLOG_BGWRITER => ret 0
    end
  else ret p.

Definition StartupDataBase : PM Z := StartChildProcess BS_XLOG_STARTUP.
Definition StartBackgroundWriter : PM Z := StartChildProcess BS_XLOG_BGWRITER.

(** [pgarch_start], [pgstat_start] and [SysLogger_Start] live in other
    modules; each forks its process and hands back the child's pid, or 0
    when it could not be started. *)
Definition helper_start (name : string) : PM Z :=
  p <- fork ;;
  if p =? 0 then become (HelperChild name)
  else if p <? 0 then ret 0
  else ret p.

Definition pgarch_start : PM Z := helper_start "pgarch".
Definition pgstat_start : PM Z := helper_start "pgstat".
Definition SysLogger_Start : PM Z := helper_start "syslogger".

(** ** Admission control *)

(** Count up number of child processes (regular backends only). *)
Definition CountChildren (s : pmstate) : Z :=
  Z.of_nat (List.length (BackendList s)).

Definition canAcceptConnections (cfg : config) (s : pmstate) : CAC_state :=
  (* Can't start backends when in startup/shutdown/recovery state. *)
  if Shutdown s >? NoShutdown then CAC_SHUTDOWN
  else if negb (StartupPID s =? 0) then CAC_STARTUP
  else if FatalError s then CAC_RECOVERY
  else if CountChildren s >=? to_int (2 * MaxBackends cfg) then CAC_TOOMANY
  else CAC_OK.

(** ** Signalling *)

(** Send a signal to all backend children (but NOT special children). *)
Definition SignalChildren (sig : signal) : PM unit :=
  bl <- gets BackendList ;;
  for_each bl (fun bp =>
    ereport DEBUG4 "sending signal %d to process %d" ;;
    kill (pid bp) sig).

(** The block that appears three times in the source under the comment
    "Begin shutdown of data base system" (twice in [pmdie], once at the
    end of [reaper]). *)
Definition begin_database_shutdown : PM unit :=
  (* Start the bgwriter if not running *)
  bgw <- gets BgWriterPID ;;
  when (bgw =? 0)
    (p <- StartBackgroundWriter ;; modify (set_BgWriterPID p)) ;;
  (* And tell it to shut down *)
  bgw <- gets BgWriterPID ;;
  when (negb (bgw =? 0)) (kill bgw SIGUSR2) ;;
  (* Tell pgarch to shut down too; nothing left for it to do *)
  arch <- gets PgArchPID ;;
  when (negb (arch =? 0)) (kill arch SIGQUIT) ;;
  (* Tell pgstat to shut down too; nothing left for it to do *)
  stat <- gets PgStatPID ;;
  when (negb (stat =? 0)) (kill stat SIGQUIT).

(** pmdie -- signal handler for processing various postmaster signals. *)
Definition pmdie (postgres_signal_arg : signal) : PM unit :=
  ereport DEBUG2 "postmaster received signal %d" ;;
  match postgres_signal_arg with
  | SIGTERM =>
      (* Smart Shutdown *)
      sd <- gets Shutdown ;;
      if sd >=? SmartShutdown then ret tt
      else
        modify (set_Shutdown SmartShutdown) ;;
        ereport LOG "received smart shutdown request" ;;
        bl <- gets BackendList ;;
        if DLGetHead_nonnull bl then ret tt   (* let reaper() handle this *)
        else
          st <- gets StartupPID ;;
          fe <- gets FatalError ;;
          if negb (st =? 0) || fe then ret tt (* let reaper() handle this *)
          else begin_database_shutdown
  | SIGINT =>
      (* Fast Shutdown *)
      sd <- gets Shutdown ;;
      if sd >=? FastShutdown then ret tt
      else
        modify (set_Shutdown FastShutdown) ;;
        ereport LOG "received fast shutdown request" ;;
        bl <- gets BackendList ;;
        if DLGetHead_nonnull bl then
          fe <- gets FatalError ;;
          when (negb fe)
            (ereport LOG "aborting any active transactions" ;;
             SignalChildren SIGTERM)
        else
          st <- gets StartupPID ;;
          fe <- gets FatalError ;;
          if negb (st =? 0) || fe then ret tt (* let reaper() handle this *)
          else begin_database_shutdown
  | SIGQUIT =>
      (* Immediate Shutdown *)
      ereport LOG "received immediate shutdown request" ;;
      st <- gets StartupPID ;;
      when (negb (st =? 0)) (kill st SIGQUIT) ;;
      bgw <- gets BgWriterPID ;;
      when (negb (bgw =? 0)) (kill bgw SIGQUIT) ;;
      arch <- gets PgArchPID ;;
      when (negb (arch =? 0)) (kill arch SIGQUIT) ;;
      stat <- gets PgStatPID ;;
      when (negb (stat =? 0)) (kill stat SIGQUIT) ;;
      bl <- gets BackendList ;;
      when (DLGetHead_nonnull bl) (SignalChildren SIGQUIT) ;;
      ExitPostmaster 0
  | _ => ret tt
  end.

(** SIGHUP -- reread config files, and tell children to do same. *)
Definition SIGHUP_handler : PM unit :=
  sd <- gets Shutdown ;;
  when (sd <=? SmartShutdown)
    (ereport LOG "received SIGHUP, reloading configuration files" ;;
     call "ProcessConfigFile" ;;
     SignalChildren SIGHUP ;;
     bgw <- gets BgWriterPID ;;
     when (negb (bgw =? 0)) (kill bgw SIGHUP) ;;
     arch <- gets PgArchPID ;;
     when (negb (arch =? 0)) (kill arch SIGHUP) ;;
     lg <- gets SysLoggerPID ;;
     when (negb (lg =? 0)) (kill lg SIGHUP) ;;
     call "load_hba" ;;
     call "load_ident").

(** ** The reaper *)

(** Log the death of a child process.  The noun phrase describing the
    child is put into the message; the items for the pid and for the
    exit code or signal stay as the format has them. *)
Definition LogChildExit (cfg : config) (lev : elevel) (procname : string)
    (p exitstatus : Z) : PM unit :=
  if WIFEXITED cfg exitstatus then
    ereport lev
      (String.append procname " (PID %d) exited with exit code %d")
  else if WIFSIGNALED cfg exitstatus then
    ereport lev
      (String.append procname " (PID %d) was terminated by signal %d")
  else
    ereport lev
      (String.append procname " (PID %d) exited with unexpected status %d").

(** The line LogChildExit writes. *)
Definition LogChildExit_text (cfg : config) (procname : string)
    (exitstatus : Z) : string :=
  String.append procname
    (if WIFEXITED cfg exitstatus then " (PID %d) exited with exit code %d"
     else if WIFSIGNALED cfg exitstatus
          then " (PID %d) was terminated by signal %d"
          else " (PID %d) exited with unexpected status %d").

Definition quit_signal (cfg : config) : signal :=
  if SendStop cfg then SIGSTOP else SIGQUIT.

(** The loop of [HandleChildCrash] over the backend list: the entry of
    the dead backend is unlinked, every other backend is told to quit
    unless that was done already.  Returns the remaining list. *)
Fixpoint crash_scan (cfg : config) (dead : Z) (l : list Backend)
    : PM (list Backend) :=
  match l with
  | [] => ret []
  | bp :: rest =>
      if pid bp =? dead then
        call "pgstat_beterm" ;;
        crash_scan cfg dead rest
      else
        fe <- gets FatalError ;;
        when (negb fe)
          (ereport DEBUG2 "sending %s to process %d" ;;
           kill (pid bp) (quit_signal cfg)) ;;
        rest' <- crash_scan cfg dead rest ;;
        ret (bp :: rest')
  end.

(** HandleChildCrash -- cleanup after failed backend or bgwriter. *)
Definition HandleChildCrash (cfg : config) (p exitstatus : Z)
    (procname : string) : PM unit :=
  fe <- gets FatalError ;;
  when (negb fe)
    (LogChildExit cfg LOG procname p exitstatus ;;
     ereport LOG "terminating any other active server processes") ;;
  (* Process regular backends *)
  bl <- gets BackendList ;;
  bl' <- crash_scan cfg p bl ;;
  modify (set_BackendList bl') ;;
  (* Take care of the bgwriter too *)
  bgw <- gets BgWriterPID ;;
  (if p =? bgw then modify (set_BgWriterPID 0)
   else when (negb (bgw =? 0) && negb fe)
          (ereport DEBUG2 "sending %s to process %d" ;;
           kill bgw (quit_signal cfg))) ;;
  (* Force a power-cycle of the pgarch process too *)
  arch <- gets PgArchPID ;;
  when (negb (arch =? 0) && negb fe)
    (ereport DEBUG2 "sending %s to process %d" ;; kill arch SIGQUIT) ;;
  (* Force a power-cycle of the pgstat processes too *)
  stat <- gets PgStatPID ;;
  when (negb (stat =? 0) && negb fe)
    (ereport DEBUG2 "sending %s to process %d" ;; kill stat SIGQUIT) ;;
  (* We do NOT restart the syslogger *)
  modify (set_FatalError true).

(** Unlink the first entry whose pid is [p] (the loop of
    [CleanupBackend] leaves through [break] after the first match). *)
Fixpoint remove_first (p : Z) (l : list Backend) : option (list Backend) :=
  match l with
  | [] => None
  | bp :: rest =>
      if pid bp =? p then Some rest
      else match remove_first p rest with
           | Some rest' => Some (bp :: rest')
           | None => None
           end
  end.

(** CleanupBackend -- cleanup after terminated backend. *)
Definition CleanupBackend (cfg : config) (p exitstatus : Z) : PM unit :=
  LogChildExit cfg DEBUG2 "server process" p exitstatus ;;
  if negb (exitstatus =? 0) then
    HandleChildCrash cfg p exitstatus "server process"
  else
    bl <- gets BackendList ;;
    match remove_first p bl with
    | Some bl' =>
        modify (set_BackendList bl') ;;
        (* Tell the collector about backend termination *)
        call "pgstat_beterm"
    | None => ret tt
    end.

(** The body of the reaper's loop for one dead child. *)
Definition reap_one (cfg : config) (p exitstatus : Z) : PM unit :=
  st <- gets StartupPID ;;
  bgw <- gets BgWriterPID ;;
  arch <- gets PgArchPID ;;
  stat <- gets PgStatPID ;;
  lg <- gets SysLoggerPID ;;
  if negb (st =? 0) && (p =? st) then
    (* this child was a startup process *)
    modify (set_StartupPID 0) ;;
    when (negb (exitstatus =? 0))
      (LogChildExit cfg LOG "startup process" p exitstatus ;;
       ereport LOG "aborting startup due to startup process failure" ;;
       ExitPostmaster 1) ;;
    (* Startup succeeded - we are done with system startup or recovery. *)
    modify (set_FatalError false) ;;
    (* Crank up the background writer. *)
    w <- StartBackgroundWriter ;;
    modify (set_BgWriterPID w) ;;
    sd <- gets Shutdown ;;
    if (sd >? NoShutdown) && negb (w =? 0) then kill w SIGUSR2
    else if sd =? NoShutdown then
      when (XLogArchivingActive cfg && (arch =? 0))
        (a <- pgarch_start ;; modify (set_PgArchPID a)) ;;
      stat' <- gets PgStatPID ;;
      when (stat' =? 0)
        (c <- pgstat_start ;; modify (set_PgStatPID c))
    else ret tt
  else if negb (bgw =? 0) && (p =? bgw) then
    (* it was the bgwriter *)
    modify (set_BgWriterPID 0) ;;
    sd <- gets Shutdown ;;
    fe <- gets FatalError ;;
    bl <- gets BackendList ;;
    when ((exitstatus =? 0) && (sd >? NoShutdown) && negb fe
          && negb (DLGetHead_nonnull bl))
      (* Normal postmaster exit is here *)
      (ExitPostmaster 0) ;;
    (* Any unexpected exit of the bgwriter is treated as a crash. *)
    HandleChildCrash cfg p exitstatus "background writer process"
  else if negb (arch =? 0) && (p =? arch) then
    (* it was the archiver: just try to start a new one *)
    modify (set_PgArchPID 0) ;;
    when (negb (exitstatus =? 0))
      (LogChildExit cfg LOG "archiver process" p exitstatus) ;;
    sd <- gets Shutdown ;;
    fe <- gets FatalError ;;
    st' <- gets StartupPID ;;
    when (XLogArchivingActive cfg && (st' =? 0) && negb fe
          && (sd =? NoShutdown))
      (a <- pgarch_start ;; modify (set_PgArchPID a))
  else if negb (stat =? 0) && (p =? stat) then
    (* it was the statistics collector: just try to start a new one *)
    modify (set_PgStatPID 0) ;;
    when (negb (exitstatus =? 0))
      (LogChildExit cfg LOG "statistics collector process" p exitstatus) ;;
    sd <- gets Shutdown ;;
    fe <- gets FatalError ;;
    st' <- gets StartupPID ;;
    when ((st' =? 0) && negb fe && (sd =? NoShutdown))
      (c <- pgstat_start ;; modify (set_PgStatPID c))
  else if negb (lg =? 0) && (p =? lg) then
    (* it was the system logger: launch new logger first *)
    modify (set_SysLoggerPID 0) ;;
    l <- SysLogger_Start ;;
    modify (set_SysLoggerPID l) ;;
    when (negb (exitstatus =? 0))
      (LogChildExit cfg LOG "system logger process" p exitstatus)
  else
    (* Else do standard backend child cleanup. *)
    CleanupBackend cfg p exitstatus.

(** The loop over pending child-death reports: [dead] lists the
    successive answers [(pid, status)] of [waitpid(-1, &status, WNOHANG)];
    the loop ends at the first answer that is not positive. *)
Fixpoint reaper_loop (cfg : config) (dead : list (Z * Z)) : PM unit :=
  match dead with
  | [] => ret tt
  | (p, exitstatus) :: rest =>
      if p >? 0 then reap_one cfg p exitstatus ;; reaper_loop cfg rest
      else ret tt
  end.

(** Reaper -- signal handler to cleanup after a backend (child) dies. *)
Definition reaper (cfg : config) (dead : list (Z * Z)) : PM unit :=
  ereport DEBUG4 "reaping dead processes" ;;
  reaper_loop cfg dead ;;
  fe <- gets FatalError ;;
  bl <- gets BackendList ;;
  st <- gets StartupPID ;;
  bgw <- gets BgWriterPID ;;
  sd <- gets Shutdown ;;
  if fe then
    (* Wait for all important children to exit, then reset shmem and
       StartupDataBase. *)
    if DLGetHead_nonnull bl || negb (st =? 0) || negb (bgw =? 0) then ret tt
    else
      ereport LOG "all server processes terminated; reinitializing" ;;
      call "shmem_exit" ;;
      call "reset_shared" ;;
      p <- StartupDataBase ;;
      modify (set_StartupPID p)
  else if sd >? NoShutdown then
    if DLGetHead_nonnull bl || negb (st =? 0) then ret tt
    else begin_database_shutdown
  else ret tt.

(** ** Starting a backend *)

(** PostmasterRandom: the generator is seeded on first use; every call
    returns the next value of [random()]. *)
Definition PostmasterRandom : PM Z := random.

(** The bytes of a C string: those before the first NUL. *)
Definition is_nul (b : byte) : bool := Byte.eqb b x00.

Fixpoint cstring (l : list byte) : list byte :=
  match l with
  | [] => []
  | b :: rest => if is_nul b then [] else b :: cstring rest
  end.

(** The message of [report_fork_failure_to_client]: always V2 protocol.
    [snprintf] formats 'E', the message, the text of [strerror(errnum)]
    and a newline into a buffer of 1000 bytes, cutting after 999; the
    buffer is sent up to and including its terminating NUL. *)
Definition fork_failure_packet (cfg : config) (errnum : Z) : list byte :=
  firstn 999
    (list_byte_of_string "Ecould not fork new process for connection: "
     ++ cstring (strerror cfg errnum) ++ [x0a])
  ++ [x00].

(** Try to report backend fork() failure to client before we close the
    connection: the socket is set to non-blocking and [send] is called
    once.  [E_send] records the call, whatever it achieves. *)
Definition report_fork_failure_to_client (cfg : config) (port : Port)
    (errnum : Z) : PM unit :=
  ok <- set_noblock ;;
  (* Don't do send() if this fails *)
  if negb ok then ret tt
  else modify (emit (E_send (sock port) (fork_failure_packet cfg errnum))).

Definition with_canAcceptConnections (v : CAC_state) (port : Port) : Port :=
  mkPort (sock port) (laddr_family port) (proto port) (database_name port)
         (user_name port) (cmdline_options port) (guc_options port) v.

(** BackendStartup -- start backend process.
    Returns STATUS_ERROR if the fork failed, STATUS_OK otherwise. *)
Definition BackendStartup (cfg : config) (port : Port) : PM Z :=
  (* Compute the cancel key that will be assigned to this backend. *)
  k <- PostmasterRandom ;;
  modify (set_MyCancelKey k) ;;
  (* Make room for backend data structure. *)
  bn <- malloc ;;
  if negb bn then
    ereport LOG "out of memory" ;;
    ret STATUS_ERROR
  else
    (* Pass down canAcceptConnections state *)
    cac <- gets (canAcceptConnections cfg) ;;
    let port := with_canAcceptConnections cac port in
    (* Flush stdio channels just before fork *)
    call "fflush(stdout)" ;;
    call "fflush(stderr)" ;;
    p <- fork ;;
    if p =? 0 then
      (* child: proc_exit(BackendRun(port)) *)
      call "free(bn)" ;;
      become (BackendChild port)
    else if p <? 0 then
      (* in parent, fork failed *)
      save_errno <- errno ;;
      call "free(bn)" ;;
      ereport LOG "could not fork new process for connection: %m" ;;
      report_fork_failure_to_client cfg port save_errno ;;
      ret STATUS_ERROR
    else
      (* in parent, successful fork *)
      ereport DEBUG2 "forked new backend, pid=%d socket=%d" ;;
      (* Everything's been successful, it's safe to add this backend to
         our list of backends. *)
      key <- gets MyCancelKey ;;
      bl <- gets BackendList ;;
      modify (set_BackendList (mkBackend p key :: bl)) ;;
      ret STATUS_OK.

(** ** The main loop *)

(** RandomSalt draws four values from PostmasterRandom for the salts
    stored in the Port (the salts themselves are not part of the
    modelled Port). *)
Definition RandomSalt : PM unit :=
  _ <- PostmasterRandom ;; _ <- PostmasterRandom ;;
  _ <- PostmasterRandom ;; _ <- PostmasterRandom ;; ret tt.

(** ConnCreate -- create a local connection data structure.  [accepted]
    is what [StreamConnection] obtained from the listen socket: the new
    socket and the family of its local address, or nothing on failure. *)
Definition ConnCreate (accepted : option (Z * addr_family))
    : PM (option Port) :=
  ok <- malloc ;;
  if negb ok then
    ereport LOG "out of memory" ;;
    ExitPostmaster 1 ;;
    ret None
  else
    match accepted with
    | None => call "StreamClose" ;; ret None
    | Some (fd, fam) =>
        RandomSalt ;;
        ret (Some (mkPort fd fam 0 None None None [] CAC_OK))
    end.

(** One pass of the body of [ServerLoop] after [select] returned:
    [ready] holds one entry per listen socket found readable.  The
    choice of the random seed on the first request and the touching of
    the socket and lock files every ten minutes are left out; neither
    reads or writes the state modelled here. *)
Definition ServerLoop_pass (cfg : config)
    (ready : list (option (Z * addr_family))) : PM unit :=
  for_each ready (fun accepted =>
    port <- ConnCreate accepted ;;
    match port with
    | Some port =>
        _ <- BackendStartup cfg port ;;
        (* We no longer need the open socket or port structure in this
           process *)
        call "StreamClose"
    | None => ret tt
    end) ;;
  (* If we have lost the system logger, try to start a new one *)
  lg <- gets SysLoggerPID ;;
  when ((lg =? 0) && Redirect_stderr cfg)
    (l <- SysLogger_Start ;; modify (set_SysLoggerPID l)) ;;
  (* If no background writer process is running, and we are not in a
     state that prevents it, start one. *)
  bgw <- gets BgWriterPID ;;
  st <- gets StartupPID ;;
  fe <- gets FatalError ;;
  sd <- gets Shutdown ;;
  when ((bgw =? 0) && (st =? 0) && negb fe)
    (w <- StartBackgroundWriter ;;
     modify (set_BgWriterPID w) ;;
     (* If shutdown is pending, set it going *)
     when ((sd >? NoShutdown) && negb (w =? 0)) (kill w SIGUSR2)) ;;
  (* If we have lost the archiver, try to start a new one *)
  arch <- gets PgArchPID ;;
  when (XLogArchivingActive cfg && (arch =? 0) && (st =? 0) && negb fe
        && (sd =? NoShutdown))
    (a <- pgarch_start ;; modify (set_PgArchPID a)) ;;
  (* If we have lost the stats collector, try to start a new one *)
  stat <- gets PgStatPID ;;
  when ((stat =? 0) && (st =? 0) && negb fe && (sd =? NoShutdown))
    (c <- pgstat_start ;; modify (set_PgStatPID c)).

(** sigusr1_handler - handle signal conditions from child processes.
    The three flags are the answers of [CheckPostmasterSignal]. *)
Definition sigusr1_handler (password_change waken_children waken_archiver
    : bool) : PM unit :=
  when password_change (call "load_user" ;; call "load_group") ;;
  sd <- gets Shutdown ;;
  when (waken_children && (sd <=? SmartShutdown)) (SignalChildren SIGUSR1) ;;
  arch <- gets PgArchPID ;;
  when (negb (arch =? 0) && (sd =? NoShutdown) && waken_archiver)
    (kill arch SIGUSR1).

(** ** Runs of the supervisor

    Everything that happens to a running postmaster: a signal handled
    by [pmdie], [SIGHUP_handler], [sigusr1_handler] or [reaper], or a
    pass of the main loop. *)
Inductive event : Type :=
| Ev_pmdie (sig : signal)
| Ev_sighup
| Ev_sigusr1 (password_change waken_children waken_archiver : bool)
| Ev_sigchld (dead : list (Z * Z))
| Ev_loop (ready : list (option (Z * addr_family))).

Definition step (cfg : config) (ev : event) : PM unit :=
  match ev with
  | Ev_pmdie sig => pmdie sig
  | Ev_sighup => SIGHUP_handler
  | Ev_sigusr1 a b c => sigusr1_handler a b c
  | Ev_sigchld dead => reaper cfg dead
  | Ev_loop ready => ServerLoop_pass cfg ready
  end.

Definition run (cfg : config) (evs : list event) : PM unit :=
  for_each evs (step cfg).

(** The state in which [PostmasterMain] enters [ServerLoop]: an empty
    backend list and the startup process just launched. *)
Definition boot_state (o : os_env) : pmstate :=
  mkState NoShutdown false 0 0 0 0 0 [] 0 o [].

Definition PostmasterMain_launch : PM unit :=
  p <- StartupDataBase ;;
  modify (set_StartupPID p).

(** ** The child side: processing the startup packet *)

(** C strings inside a buffer. *)
Definition cstring_at (buf : list byte) (off : Z) : list byte :=
  cstring (skipn (Z.to_nat off) buf).

Definition strlen (str : list byte) : Z := Z.of_nat (List.length str).

Fixpoint bytes_eqb (a b : list byte) : bool :=
  match a, b with
  | [], [] => true
  | x :: a', y :: b' => Byte.eqb x y && bytes_eqb a' b'
  | _, _ => false
  end.

(** [strcmp(ptr, literal) == 0] *)
Definition streq (str : list byte) (literal : string) : bool :=
  bytes_eqb str (list_byte_of_string literal).

Definition byte_at (buf : list byte) (i : Z) : byte :=
  nth (Z.to_nat i) buf x00.

Definition ntohl_at (buf : list byte) (off : Z) : Z :=
  ntohl (byte_at buf off) (byte_at buf (off + 1))
        (byte_at buf (off + 2)) (byte_at buf (off + 3)).

(** What the forked child works with: its Port, the bytes the client
    will deliver to [pq_getbytes], the value ProcessStartupPacket has
    assigned to the global [FrontendProtocol] (if it has assigned one),
    and the trace of what the child does. *)
Record conn : Type := mkConn {
  c_port : Port;
  c_input : list byte;
  FrontendProtocol : option Z;
  c_trace : list effect
}.

(** What the child's surroundings answer: the backend list it
    inherited through fork, whether the one-byte [send] of the SSL
    answer returned 1, whether [secure_open_server] succeeded. *)
Record child_env : Type := mkChildEnv {
  inherited_BackendList : list Backend;
  send_ok : bool;
  secure_open_ok : bool
}.

Inductive psp_result : Type :=
| PSP_return (status : Z)
| PSP_fatal (code : sqlstate) (msg : string).   (* ereport(FATAL, ...) *)

Definition c_emit (e : effect) (c : conn) : conn :=
  mkConn (c_port c) (c_input c) (FrontendProtocol c) (c_trace c ++ [e]).
Definition c_set_port (p : Port) (c : conn) : conn :=
  mkConn p (c_input c) (FrontendProtocol c) (c_trace c).
Definition c_set_FrontendProtocol (v : Z) (c : conn) : conn :=
  mkConn (c_port c) (c_input c) (Some v) (c_trace c).

(** [pq_getbytes(dst, n)]: the next [n] bytes, or EOF. *)
Definition pq_getbytes (n : Z) (c : conn) : option (list byte * conn) :=
  if Z.of_nat (List.length (c_input c)) <? n then None
  else Some (firstn (Z.to_nat n) (c_input c),
             mkConn (c_port c) (skipn (Z.to_nat n) (c_input c))
                    (FrontendProtocol c) (c_trace c)).

Definition with_proto (v : Z) (p : Port) : Port :=
  mkPort (sock p) (laddr_family p) v (database_name p) (user_name p)
         (cmdline_options p) (guc_options p) (canAcceptConnections_of p).
Definition with_database_name (v : option (list byte)) (p : Port) : Port :=
  mkPort (sock p) (laddr_family p) (proto p) v (user_name p)
         (cmdline_options p) (guc_options p) (canAcceptConnections_of p).
Definition with_user_name (v : option (list byte)) (p : Port) : Port :=
  mkPort (sock p) (laddr_family p) (proto p) (database_name p) v
         (cmdline_options p) (guc_options p) (canAcceptConnections_of p).
Definition with_cmdline_options (v : option (list byte)) (p : Port) : Port :=
  mkPort (sock p) (laddr_family p) (proto p) (database_name p) (user_name p)
         v (guc_options p) (canAcceptConnections_of p).
Definition with_guc_options (v : list (list byte)) (p : Port) : Port :=
  mkPort (sock p) (laddr_family p) (proto p) (database_name p) (user_name p)
         (cmdline_options p) v (canAcceptConnections_of p).

(** *** Cancel requests *)

(** The search of [processCancelRequest] through the backend list. *)
Fixpoint cancel_scan (bl : list Backend) (backendPID cancelAuthCode : Z)
    : list effect :=
  match bl with
  | [] =>
      (* No matching backend *)
      [E_ereport DEBUG2 "bad pid in cancel request for process %d"]
  | bp :: rest =>
      if pid bp =? backendPID then
        if cancel_key bp =? cancelAuthCode then
          (* Found a match; signal that backend to cancel current op *)
          [E_ereport DEBUG2
             "processing cancel request: sending SIGINT to process %d";
           E_kill (pid bp) SIGINT]
        else
          (* Right PID, wrong key: no way, Jose *)
          [E_ereport DEBUG2 "bad key in cancel request for process %d"]
      else cancel_scan rest backendPID cancelAuthCode
  end.

(** The two fields of a CancelRequestPacket, after the request code. *)
Definition cancel_backendPID (pkt : list byte) : Z :=
  to_int (ntohl_at pkt 4).
Definition cancel_cancelAuthCode (cfg : config) (pkt : list byte) : Z :=
  wrap_signed (LONG_BITS cfg) (ntohl_at pkt 8).

(** The client has sent a cancel request packet, not a normal
    start-a-new-connection packet.  Nothing is sent back to the client. *)
Definition processCancelRequest (cfg : config) (bl : list Backend)
    (pkt : list byte) : list effect :=
  cancel_scan bl (cancel_backendPID pkt) (cancel_cancelAuthCode cfg pkt).

(** *** Name/value pairs of a version 3 packet *)

Definition store_option (name val : list byte) (p : Port) : Port :=
  if streq name "database" then with_database_name (Some val) p
  else if streq name "user" then with_user_name (Some val) p
  else if streq name "options" then with_cmdline_options (Some val) p
  else
    (* Assume it's a generic GUC option *)
    with_guc_options (guc_options p ++ [name; val]) p.

(** The [while (offset < len)] loop; the result is the offset at which
    it stops and the Port filled so far.  Every iteration that goes on
    advances [offset], so [fuel] beyond [len - offset] is never used up
    (see [scan_options_fuel]).  The offsets are [int32] in the source;
    they stay below [len + 2], with [len] at most
    MAX_STARTUP_PACKET_LENGTH, so no wrap-around is written out. *)
Fixpoint scan_options (fuel : nat) (buf : list byte) (len offset : Z)
    (p : Port) : option (Z * Port) :=
  match fuel with
  | O => None
  | S fuel' =>
      if offset <? len then
        let nameptr := cstring_at buf offset in
        if is_nul (byte_at buf offset) then
          Some (offset, p)             (* found packet terminator *)
        else
          let valoffset := offset + strlen nameptr + 1 in
          if valoffset >=? len then
            Some (offset, p)           (* missing value, will complain below *)
          else
            let valptr := cstring_at buf valoffset in
            scan_options fuel' buf len (valoffset + strlen valptr + 1)
                         (store_option nameptr valptr p)
      else Some (offset, p)
  end.

(** *** Old-style fixed-width packet *)

Definition truncate_to (n : Z) (str : list byte) : list byte :=
  if strlen str >? n then firstn (Z.to_nat n) str else str.

Definition fixed_width_fields (cfg : config) (buf : list byte) (p : Port)
    : Port :=
  let database_off := 4 in
  let user_off := database_off + SM_DATABASE cfg in
  let options_off := user_off + SM_USER cfg in
  with_guc_options []
   (with_cmdline_options
      (Some (truncate_to (SM_OPTIONS cfg) (cstring_at buf options_off)))
    (with_user_name
      (Some (truncate_to (SM_USER cfg) (cstring_at buf user_off)))
     (with_database_name
      (Some (truncate_to (SM_DATABASE cfg) (cstring_at buf database_off)))
      p))).

(** *** Names *)

Definition at_sign : byte := x40.

Fixpoint strchr (str : list byte) (ch : byte) : option nat :=
  match str with
  | [] => None
  | b :: rest =>
      if Byte.eqb b ch then Some O
      else match strchr rest ch with
           | Some i => Some (S i)
           | None => None
           end
  end.

(** The treatment of the user name under [Db_user_namespace]. *)
Definition db_user_namespace_name (user db : list byte) : list byte :=
  match strchr user at_sign with
  | Some i =>
      if Nat.eqb i (List.length user - 1)%nat then firstn i user
      else user ++ [at_sign] ++ db
  | None => user ++ [at_sign] ++ db
  end.

Definition truncate_name (cfg : config) (str : list byte) : list byte :=
  if strlen str >=? NAMEDATALEN cfg
  then firstn (Z.to_nat (NAMEDATALEN cfg - 1)) str else str.

Definition is_empty_name (o : option (list byte)) : bool :=
  match o with None => true | Some [] => true | Some (_ :: _) => false end.

(** *** ProcessStartupPacket *)

(** The version test of ProcessStartupPacket: can we handle the protocol
    the frontend is using? *)
Definition unsupported_protocol (cfg : config) (proto : Z) : bool :=
  let major := PG_PROTOCOL_MAJOR cfg in
  let minor := PG_PROTOCOL_MINOR cfg in
  (major proto <? major (PG_PROTOCOL_EARLIEST cfg))
  || (major proto >? major (PG_PROTOCOL_LATEST cfg))
  || ((major proto =? major (PG_PROTOCOL_LATEST cfg))
      && (minor proto >? minor (PG_PROTOCOL_LATEST cfg))).

(** The answer to an SSL negotiation request. *)
Definition SSLok (cfg : config) (port : Port) : byte :=
  if USE_SSL cfg then
    (* No SSL when disabled or on Unix sockets *)
    if negb (EnableSSL cfg) || IS_AF_UNIX (laddr_family port)
    then x4e (* 'N' *)
    else x53 (* 'S': Support for SSL *)
  else x4e (* 'N': No support for SSL *).

(** The part of ProcessStartupPacket after the parameters have been
    fetched: user and database names, and the rejection due to database
    state. *)
Definition startup_names_and_state (cfg : config) (c : conn)
    : psp_result * conn :=
  let p := c_port c in
  if is_empty_name (user_name p) then
    (PSP_fatal ERRCODE_INVALID_AUTHORIZATION_SPECIFICATION
       "no PostgreSQL user name specified in startup packet", c)
  else
    let user := match user_name p with Some u => u | None => [] end in
    (* The database defaults to the user name. *)
    let db := if is_empty_name (database_name p) then user
              else match database_name p with Some d => d | None => [] end in
    let user := if Db_user_namespace cfg
                then db_user_namespace_name user db else user in
    (* Truncate given database and user names to length of a Postgres
       name. *)
    let db := truncate_name cfg db in
    let user := truncate_name cfg user in
    let c := c_set_port
               (with_user_name (Some user) (with_database_name (Some db) p))
               c in
    (* If we're going to reject the connection due to database state,
       say so now. *)
    match canAcceptConnections_of p with
    | CAC_STARTUP =>
        (PSP_fatal ERRCODE_CANNOT_CONNECT_NOW
           "the database system is starting up", c)
    | CAC_SHUTDOWN =>
        (PSP_fatal ERRCODE_CANNOT_CONNECT_NOW
           "the database system is shutting down", c)
    | CAC_RECOVERY =>
        (PSP_fatal ERRCODE_CANNOT_CONNECT_NOW
           "the database system is in recovery mode", c)
    | CAC_TOOMANY =>
        (PSP_fatal ERRCODE_TOO_MANY_CONNECTIONS
           "sorry, too many clients already", c)
    | CAC_OK => (PSP_return STATUS_OK, c)
    end.

(** The buffer ProcessStartupPacket reads the packet into: at least the
    size of an old-style startup packet, plus one extra byte, all zeroes
    beyond the [len] bytes received. *)
Definition startup_buffer (cfg : config) (len : Z) (body : list byte)
    : list byte :=
  body ++ repeat x00
            (Z.to_nat (Z.max len (sizeof_StartupPacket cfg) + 1 - len)).

(** The part of ProcessStartupPacket that follows the two reads: [len]
    is the length announced (less the length word itself) and [body]
    the [len] bytes received; [again] stands for the one recursive
    call, [ProcessStartupPacket(port, true)]. *)
Definition handle_packet (cfg : config) (env : child_env)
    (again : conn -> psp_result * conn) (SSLdone : bool)
    (len : Z) (body : list byte) (c : conn) : psp_result * conn :=
  let buf := startup_buffer cfg len body in
  (* The first field is either a protocol version number or a special
     request code. *)
  let proto := ntohl_at buf 0 in
  let c := c_set_port (with_proto proto (c_port c)) c in
  if proto =? CANCEL_REQUEST_CODE cfg then
    (PSP_return 127,
     mkConn (c_port c) (c_input c) (FrontendProtocol c)
       (c_trace c ++
        processCancelRequest cfg (inherited_BackendList env) buf))
  else if (proto =? NEGOTIATE_SSL_CODE cfg) && negb SSLdone then
    let answer := SSLok cfg (c_port c) in
    let c := c_emit (E_send (sock (c_port c)) [answer]) c in
    if negb (send_ok env) then
      (PSP_return STATUS_ERROR,
       c_emit (E_ereport COMMERROR
                 "failed to send SSL negotiation response: %m") c)
    else if USE_SSL cfg && Byte.eqb answer x53
            && negb (secure_open_ok env) then
      (PSP_return STATUS_ERROR, c)
    else
      (* regular startup packet, cancel, etc packet should follow, but
         not another SSL negotiation request *)
      again c
  else
    (* Set FrontendProtocol now so that ereport() knows what format to
       send if we fail during startup. *)
    let c := c_set_FrontendProtocol proto c in
    if unsupported_protocol cfg proto then
      (PSP_fatal ERRCODE_FEATURE_NOT_SUPPORTED
         "unsupported frontend protocol %u.%u: server supports %u.0 to %u.%u",
       c)
    else if PG_PROTOCOL_MAJOR cfg proto >=? 3 then
      match scan_options (S (Z.to_nat len)) buf len 4
              (with_guc_options [] (c_port c)) with
      | None => (PSP_return STATUS_ERROR, c)
      | Some (offset, p) =>
          let c := c_set_port p c in
          (* If we didn't find a packet terminator exactly at the end of
             the given packet length, complain. *)
          if negb (offset =? len - 1) then
            (PSP_fatal ERRCODE_PROTOCOL_VIOLATION
               "invalid startup packet layout: expected terminator as last byte",
             c)
          else startup_names_and_state cfg c
      end
    else
      startup_names_and_state cfg
        (c_set_port (fixed_width_fields cfg buf (c_port c)) c).

(** The body of ProcessStartupPacket: the length word, the packet, and
    then [handle_packet]. *)
Definition ProcessStartupPacket_body (cfg : config) (env : child_env)
    (again : conn -> psp_result * conn) (SSLdone : bool) (c : conn)
    : psp_result * conn :=
  match pq_getbytes 4 c with
  | None =>
      (* EOF after SSLdone is not an error condition *)
      (PSP_return STATUS_ERROR,
       if negb SSLdone
       then c_emit (E_ereport COMMERROR "incomplete startup packet") c
       else c)
  | Some (lenbytes, c) =>
      let len := to_int (to_int (ntohl_at lenbytes 0) - 4) in
      if (len <? 4) || (len >? MAX_STARTUP_PACKET_LENGTH cfg) then
        (PSP_return STATUS_ERROR,
         c_emit (E_ereport COMMERROR "invalid length of startup packet") c)
      else
        match pq_getbytes len c with
        | None =>
            (PSP_return STATUS_ERROR,
             c_emit (E_ereport COMMERROR "incomplete startup packet") c)
        | Some (body, c) => handle_packet cfg env again SSLdone len body c
        end
  end.

(** The inner call runs with [SSLdone] true, where the recursive call is
    out of reach. *)
Definition ProcessStartupPacket_SSLdone (cfg : config) (env : child_env)
    (c : conn) : psp_result * conn :=
  ProcessStartupPacket_body cfg env
    (fun c => (PSP_return STATUS_ERROR, c)) true c.

Definition ProcessStartupPacket (cfg : config) (env : child_env)
    (SSLdone : bool) (c : conn) : psp_result * conn :=
  ProcessStartupPacket_body cfg env (ProcessStartupPacket_SSLdone cfg env)
    SSLdone c.

(** *** BackendRun *)

(** How the forked child goes on after the startup packet: it leaves
    through [proc_exit(0)], dies in [ereport(FATAL)], or goes on to
    client authentication and [PostgresMain].  Of BackendRun, the part
    from the call of ProcessStartupPacket to the test of its status is
    modelled; what comes before (closing the listen sockets, signal
    set-up, the lookup of the remote host, the authentication timer)
    reads nothing from the client and does not touch the backend list. *)
Inductive backend_fate : Type :=
| BE_proc_exit (status : Z)
| BE_fatal (code : sqlstate) (msg : string)
| BE_authenticate (port : Port).

Definition new_conn (port : Port) (input : list byte) : conn :=
  mkConn port input None [].

Definition BackendRun (cfg : config) (env : child_env) (port : Port)
    (input : list byte) : backend_fate * conn :=
  (* Receive the startup packet (which might turn out to be a cancel
     request packet). *)
  match ProcessStartupPacket cfg env false (new_conn port input) with
  | (PSP_return status, c) =>
      if negb (status =? STATUS_OK) then (BE_proc_exit 0, c)
      else (BE_authenticate (c_port c), c)
  | (PSP_fatal code msg, c) => (BE_fatal code msg, c)
  end.

(** ** Concrete settings used in examples

    The values of the headers of the release the source belongs to: a
    version holds its major number in the upper sixteen bits and its
    minor number in the lower; protocol versions 1.0 to 3.0 are served;
    the request codes are 1234.5678 and 1234.5679. *)
Definition PG_PROTOCOL (m n : Z) : Z := Z.lor (Z.shiftl m 16) n.
Definition version_major (v : Z) : Z := Z.shiftr v 16.
Definition version_minor (v : Z) : Z := Z.land v 65535.

(** The wait status as the usual Unix systems encode it (low seven bits:
    0 for a normal exit, 127 for a stopped child, else the terminating
    signal), and error texts for the two ways [fork] fails. *)
Definition wait_exited (status : Z) : bool := Z.land status 127 =? 0.
Definition wait_signaled (status : Z) : bool :=
  negb (Z.land status 127 =? 0) && negb (Z.land status 127 =? 127).
Definition errno_text (errnum : Z) : list byte :=
  if errnum =? 11 then
    list_byte_of_string "Resource temporarily unavailable"
  else if errnum =? 12 then list_byte_of_string "Cannot allocate memory"
  else list_byte_of_string "Unknown error".

Definition stock_config : config :=
  mkConfig 100 true true false false false false
           version_major version_minor
           (PG_PROTOCOL 1 0) (PG_PROTOCOL 3 0)
           (PG_PROTOCOL 1234 5678) (PG_PROTOCOL 1234 5679)
           10000 64 32 64 292 64 64
           wait_exited wait_signaled errno_text.

(** ** What the operating system answers next *)

Definition next_fork (s : pmstate) : Z := hd (-1) (os_fork (os s)).
Definition next_random (s : pmstate) : Z := hd 0 (os_random (os s)).
Definition next_malloc (s : pmstate) : bool := hd true (os_malloc (os s)).
Definition next_noblock (s : pmstate) : bool := hd true (os_noblock (os s)).
Definition next_errno (s : pmstate) : Z := hd 0 (os_errno (os s)).

(** ** Predicates used in the statements *)

(** [always P m]: whatever way [m] ends (return, exit, or fork child),
    a property of the state that held before holds after. *)
Definition always {A} (P : pmstate -> Prop) (m : PM A) : Prop :=
  forall s, P s -> P (final (m s)).

(** A property of the two parts of the state that the properties below are about:
    the shutdown level and the backend list. *)
Definition core (Q : Z -> list Backend -> Prop) (s : pmstate) : Prop :=
  Q (Shutdown s) (BackendList s).

(** [at_least n]: the shutdown level is [n] or above. *)
Definition at_least (n : Z) : pmstate -> Prop := core (fun sd _ => n <= sd).

(** [level_is m]: the shutdown level is [m]. *)
Definition level_is (m : Z) : pmstate -> Prop := core (fun sd _ => sd = m).

(** [registry_ok]: no pid occurs twice in the backend list. *)
Definition registry_ok : pmstate -> Prop :=
  core (fun _ bl => NoDup (map pid bl)).

(** The calls to [send] in a trace: socket and bytes. *)
Fixpoint sends (tr : list effect) : list (Z * list byte) :=
  match tr with
  | [] => []
  | E_send k data :: rest => (k, data) :: sends rest
  | _ :: rest => sends rest
  end.

(** The client's next message on connection [c] is a length word
    announcing [body] (within the accepted bounds), followed by [body]
    itself and then by [rest]. *)
Definition incoming_packet (cfg : config) (c : conn)
    (body rest : list byte) : Prop :=
  exists lenbytes,
    c_input c = lenbytes ++ body ++ rest
    /\ List.length lenbytes = 4%nat
    /\ to_int (to_int (ntohl_at lenbytes 0) - 4) = strlen body
    /\ 4 <= strlen body <= MAX_STARTUP_PACKET_LENGTH cfg.

(** The connection once that message has been read. *)
Definition after_packet (c : conn) (rest : list byte) : conn :=
  mkConn (c_port c) rest (FrontendProtocol c) (c_trace c).

(** A discriminator that is taken for a protocol version: not the
    cancel request code and, unless SSL negotiation is over, not the
    SSL negotiation code. *)
Definition is_version (cfg : config) (SSLdone : bool) (proto : Z) : Prop :=
  proto <> CANCEL_REQUEST_CODE cfg
  /\ (proto = NEGOTIATE_SSL_CODE cfg -> SSLdone = true).

(** ** Concrete scenarios *)

(** A postmaster that boots, takes one connection, sees that backend
    die on a signal, and so enters crash recovery: the pids handed out
    by [fork] are 100 (startup), 101 (background writer), 102
    (statistics collector), 200 (the backend), 300 (the startup process
    of the recovery). *)
Definition recovery_os : os_env :=
  mkOs [100; 101; 102; 200; 300] [11; 12; 13; 14; 3735928559] [] [] [].

Definition recovery_events : list event :=
  [ Ev_sigchld [(100, 0)];
    Ev_loop [Some (7, AF_INET)];
    Ev_sigchld [(200, 11)];
    Ev_sigchld [(101, 3)] ].

Definition recovery_run : outcome unit :=
  (PostmasterMain_launch ;; run stock_config recovery_events)
    (boot_state recovery_os).

(** A backend list with the worker of the cancel scenario. *)
Definition two_backends : list Backend :=
  [mkBackend 42 3735928559; mkBackend 43 7].

(** Cancel request for pid 42 with key 0xDEADBEEF: request code
    1234.5678, then the two fields. *)
Definition cancel_42 : list byte :=
  [x04; xd2; x16; x2e;  x00; x00; x00; x2a;  xde; xad; xbe; xef].
Definition cancel_42_packet : list byte := [x00; x00; x00; x10] ++ cancel_42.

(** A postmaster that has booted and is running normally, about to take
    a connection; [fork_answer] is what the [fork] of BackendStartup
    will return (the child's pid in the parent, 0 in the child). *)
Definition running_state (fork_answer : Z) : pmstate :=
  final ((PostmasterMain_launch ;; run stock_config [Ev_sigchld [(100, 0)]])
           (boot_state
              (mkOs [100; 101; 102; fork_answer] [11; 12; 13; 14; 555] [] [] [11]))).

(** The Port that ConnCreate hands to BackendStartup for a connection
    accepted on socket 7 of an IPv4 listener. *)
Definition tcp_port : Port := mkPort 7 AF_INET 0 None None None [] CAC_OK.
Definition unix_port : Port := mkPort 8 AF_UNIX 0 None None None [] CAC_OK.

Definition quiet_env : child_env := mkChildEnv [] true true.

(** Startup packets as they arrive: length word, then the body. *)

(** Version 4.0, nothing else. *)
Definition v4_body : list byte := [x00; x04; x00; x00].
Definition v4_packet : list byte := [x00; x00; x00; x08] ++ v4_body.

(** Version 3.0, user alice, terminated as the protocol requires. *)
Definition alice_body : list byte :=
  [x00; x03; x00; x00]
  ++ list_byte_of_string "user" ++ [x00]
  ++ list_byte_of_string "alice" ++ [x00]
  ++ [x00].
Definition alice_packet : list byte := [x00; x00; x00; x14] ++ alice_body.

(** The same with the terminator replaced by the letter X: the packet
    has no terminator at all. *)
Definition stray_body : list byte :=
  [x00; x03; x00; x00]
  ++ list_byte_of_string "user" ++ [x00]
  ++ list_byte_of_string "alice" ++ [x00]
  ++ [x58].
Definition stray_packet : list byte := [x00; x00; x00; x14] ++ stray_body.

(** The same cut short after the value: no terminator, no stray byte. *)
Definition cut_body : list byte :=
  [x00; x03; x00; x00]
  ++ list_byte_of_string "user" ++ [x00]
  ++ list_byte_of_string "alice" ++ [x00].
Definition cut_packet : list byte := [x00; x00; x00; x13] ++ cut_body.

(** The same with one more byte after the terminator. *)
Definition long_body : list byte :=
  [x00; x03; x00; x00]
  ++ list_byte_of_string "user" ++ [x00]
  ++ list_byte_of_string "alice" ++ [x00]
  ++ [x00; x00].
Definition long_packet : list byte := [x00; x00; x00; x15] ++ long_body.

(** SSL negotiation request: code 1234.5679. *)
Definition ssl_body : list byte := [x04; xd2; x16; x2f].
Definition ssl_packet : list byte := [x00; x00; x00; x08] ++ ssl_body.

(** A configuration with room for a single backend, and states of a
    postmaster running under it. *)
Definition small_config : config :=
  mkConfig 1 true true false false false false
           version_major version_minor
           (PG_PROTOCOL 1 0) (PG_PROTOCOL 3 0)
           (PG_PROTOCOL 1234 5678) (PG_PROTOCOL 1234 5679)
           10000 64 32 64 292 64 64
           wait_exited wait_signaled errno_text.

Definition no_os : os_env := mkOs [] [] [] [] [].

(** Running, two backends, background writer 500. *)
Definition state_at_cap : pmstate :=
  mkState NoShutdown false 0 500 0 0 0 two_backends 0 no_os [].

(** Smart shutdown requested while the startup process 100 is still
    running. *)
Definition state_shutdown_in_startup : pmstate :=
  mkState SmartShutdown false 100 0 0 0 0 [] 0 no_os [].

(** * Further parts of the postmaster

    Definitions for the properties of the second half of the
    development: observations on traces, and the functions of
    [postmaster.c] not needed so far. *)

(** ** Observations on traces *)

(** The signals sent in a trace: pid and signal of each [kill]. *)
Fixpoint signals (tr : list effect) : list (Z * signal) :=
  match tr with
  | [] => []
  | E_kill p sig :: rest => (p, sig) :: signals rest
  | _ :: rest => signals rest
  end.

(** The results of the calls to [fork] in a trace. *)
Fixpoint forks (tr : list effect) : list Z :=
  match tr with
  | [] => []
  | E_fork r :: rest => r :: forks rest
  | _ :: rest => forks rest
  end.

(** The messages reported at level [LOG] or above in a trace (those a
    default configuration writes to the server log). *)
Fixpoint log_lines (tr : list effect) : list string :=
  match tr with
  | [] => []
  | E_ereport lev msg :: rest =>
      match lev with
      | DEBUG4 | DEBUG3 | DEBUG2 => log_lines rest
      | _ => msg :: log_lines rest
      end
  | _ :: rest => log_lines rest
  end.

(** The state [s] with the effects [l] added to its trace. *)
Definition emits (l : list effect) (s : pmstate) : pmstate :=
  mkState (Shutdown s) (FatalError s) (StartupPID s) (BgWriterPID s)
          (PgArchPID s) (PgStatPID s) (SysLoggerPID s) (BackendList s)
          (MyCancelKey s) (os s) (trace s ++ l).

(** What a computation added to the trace of the state it started in. *)
Definition added (s s' : pmstate) : list effect :=
  skipn (List.length (trace s)) (trace s').

(** ** What a forked backend is told

    A computation that ends on the child side of the fork in
    [BackendStartup] hands the child its Port; [told cfg o] says that
    the verdict stored in that Port is the one [canAcceptConnections]
    gives for the state the child was forked in. *)
Definition told {A} (cfg : config) (o : outcome A) : Prop :=
  match o with
  | Child (BackendChild port) s' =>
      canAcceptConnections_of port = canAcceptConnections cfg s'
  | _ => True
  end.

Definition tells {A} (cfg : config) (m : PM A) : Prop :=
  forall s, told cfg (m s).

(** [only_adds ok s0 s]: the trace of [s] is the trace of [s0] followed
    by effects that all satisfy [ok]. *)
Definition only_adds (ok : effect -> Prop) (s0 s : pmstate) : Prop :=
  exists l, trace s = trace s0 ++ l /\ Forall ok l.

(** Any effect but the re-initialisation of shared memory. *)
Definition no_reset (e : effect) : Prop := e <> E_call "reset_shared".

(** ** Names in an accepted startup packet *)

(** The names a Port holds once the startup packet has been accepted:
    both are there and shorter than NAMEDATALEN; the user name is not
    empty unless Db_user_namespace is on. *)
Definition names_set (cfg : config) (p : Port) : Prop :=
  exists u d,
    user_name p = Some u /\ database_name p = Some d
    /\ strlen u < NAMEDATALEN cfg /\ strlen d < NAMEDATALEN cfg
    /\ (Db_user_namespace cfg = false -> 1 < NAMEDATALEN cfg -> u <> []).


(** ** The argument vector of the backend

    BackendRun hands PostgresMain an argument vector built from fixed
    switches, the postmaster's [-o] options and the options of the
    connection request.  Option strings are cut into arguments by
    [split_opts]. *)

Section SplitOpts.

(** [isspace] of <ctype.h>, which depends on the locale. *)
Variable isspace : byte -> bool.

(** The inner loop that passes over white space. *)
Fixpoint skip_spaces (s : list byte) : list byte :=
  match s with
  | [] => []
  | b :: rest => if isspace b then skip_spaces rest else s
  end.

(** The inner loop that passes over an argument: the characters passed
    over and what is left. *)
Fixpoint word (s : list byte) : list byte * list byte :=
  match s with
  | [] => ([], [])
  | b :: rest =>
      if isspace b then ([], s)
      else let (w, r) := word rest in (b :: w, r)
  end.

(** The outer loop of [split_opts] on the characters of [s] (a C
    string, given without its terminating NUL); the result lists the
    arguments stored into [argv].  Every round that stores an argument
    moves on by at least one character. *)
Fixpoint split_opts_loop (fuel : nat) (s : list byte) : list (list byte) :=
  match fuel with
  | O => []
  | S fuel' =>
      match s with
      | [] => []                                  (* end of string *)
      | _ :: _ =>
          match skip_spaces s with
          | [] => []                              (* break *)
          | s1 =>
              let (w, s2) := word s1 in
              (* a white space after the argument is overwritten by NUL
                 and passed over *)
              w :: split_opts_loop fuel'
                     (match s2 with [] => [] | _ :: r => r end)
          end
      end
  end.

Definition split_opts (s : list byte) : list (list byte) :=
  split_opts_loop (S (List.length s)) s.

(** An element of the argument vector. *)
Inductive arg : Type :=
| Arg_literal (s : string)
| Arg_debug (debug_flag : Z)               (* "-d%d" *)
| Arg_proto (proto : Z)                    (* "-v%u" *)
| Arg_database (name : option (list byte)) (* port->database_name *)
| Arg_option (s : list byte).              (* cut out by split_opts *)

(** The size BackendRun allocates for the vector. *)
Definition BackendRun_maxac (ExtraOptions : list byte) (port : Port) : Z :=
  10                            (* for fixed args supplied below *)
  + (strlen ExtraOptions + 1) / 2
  + match cmdline_options port with
    | Some o => (strlen o + 1) / 2
    | None => 0
    end.

(** The vector BackendRun fills in, before the closing NULL. *)
Definition BackendRun_argv (debug_flag : Z) (ExtraOptions : list byte)
    (port : Port) : list arg :=
  [Arg_literal "postgres"]
  ++ (if debug_flag >? 0 then [Arg_debug debug_flag] else [])
  ++ map Arg_option (split_opts ExtraOptions)
  ++ [Arg_proto (proto port); Arg_literal "-p";
      Arg_database (database_name port)]
  ++ match cmdline_options port with
     | Some o => map Arg_option (split_opts o)
     | None => []
     end.

End SplitOpts.

(** ** Salts *)

(** CharRemap: given an int in range 0..61, produce textual encoding of
    it per crypt(3) conventions.  The argument is a [long]; the
    characters are given by their codes. *)
Definition CharRemap (cfg : config) (ch : Z) : Z :=
  let ch := if ch <? 0 then wrap_signed (LONG_BITS cfg) (- ch) else ch in
  let ch := Z.rem ch 62 in
  if ch <? 26 then 65 + ch            (* 'A' + ch *)
  else
    let ch := ch - 26 in
    if ch <? 26 then 97 + ch          (* 'a' + ch *)
    else
      let ch := ch - 26 in
      48 + ch.                        (* '0' + ch *)

(** RandomSalt with the salts it stores: two characters for crypt and
    four bytes for MD5, each given as the value assigned. *)
Definition RandomSalt_salts (cfg : config) : PM (list Z * list Z) :=
  rand <- PostmasterRandom ;;
  let c0 := CharRemap cfg (Z.rem rand 62) in
  let c1 := CharRemap cfg (Z.quot rand 62) in
  let m0 := Z.rem rand 255 + 1 in
  rand <- PostmasterRandom ;;
  let m1 := Z.rem rand 255 + 1 in
  rand <- PostmasterRandom ;;
  let m2 := Z.rem rand 255 + 1 in
  rand <- PostmasterRandom ;;
  let m3 := Z.rem rand 255 + 1 in
  ret ([c0; c1], [m0; m1; m2; m3]).

(** A letter or a digit. *)
Definition alnum (c : Z) : Prop :=
  65 <= c <= 90 \/ 97 <= c <= 122 \/ 48 <= c <= 57.

(** ** Listen sockets *)

(** The loop of [initMasks] over the array [ListenSocket]: the
    descriptors put into the mask so far and the largest of them. *)
Fixpoint initMasks_loop (ListenSocket : list Z) (rmask : list Z)
    (nsocks : Z) : list Z * Z :=
  match ListenSocket with
  | [] => (rmask, nsocks)
  | fd :: rest =>
      if fd =? -1 then (rmask, nsocks)          (* break *)
      else initMasks_loop rest (rmask ++ [fd])
             (if fd >? nsocks then fd else nsocks)
  end.

(** Initialise the masks for select() for the ports we are listening
    on.  Return the number of sockets to listen on. *)
Definition initMasks (ListenSocket : list Z) : list Z * Z :=
  let (rmask, nsocks) := initMasks_loop ListenSocket [] (-1) in
  (rmask, nsocks + 1).

(** The loop of [ClosePostmasterPorts]: the descriptors handed to
    [StreamClose], in order, and the array afterwards. *)
Fixpoint close_listen_sockets (ListenSocket : list Z) : list Z * list Z :=
  match ListenSocket with
  | [] => ([], [])
  | fd :: rest =>
      let (closed, rest') := close_listen_sockets rest in
      if negb (fd =? -1) then (fd :: closed, -1 :: rest')
      else (closed, fd :: rest')
  end.

(** ClosePostmasterPorts -- close all the postmaster's open sockets
    (called during child process startup).  The result gives the
    descriptors closed (listen sockets, then the read side of the
    logger's pipe if it was closed) and the new values of [ListenSocket]
    and [syslogPipe[0]]. *)
Definition ClosePostmasterPorts (am_syslogger : bool)
    (ListenSocket : list Z) (syslogPipe0 : Z)
    : list Z * (list Z * Z) :=
  let (closed, ListenSocket') := close_listen_sockets ListenSocket in
  (* If using syslogger, close the read side of the pipe *)
  if negb am_syslogger then
    (closed ++ (if syslogPipe0 >=? 0 then [syslogPipe0] else []),
     (ListenSocket', -1))
  else (closed, (ListenSocket', syslogPipe0)).

(** ** The backend array of the EXEC_BACKEND build

    Where backends are started by fork and exec, a child cannot see the
    postmaster's backend list; the postmaster keeps a copy in an array
    in shared memory, in which a slot with pid 0 is empty, and
    [processCancelRequest] searches that array, slot by slot, as it
    searches the list otherwise ([cancel_scan]). *)

(** All slots empty: the array is cleared with [memset]. *)
Definition ShmemBackendArrayAllocation (cfg : config) : list Backend :=
  repeat (mkBackend 0 0) (Z.to_nat (to_int (2 * MaxBackends cfg))).

(** The new array, or nothing where the source reports FATAL "no free
    slots in shmem backend array". *)
Fixpoint ShmemBackendArrayAdd (bn : Backend) (arr : list Backend)
    : option (list Backend) :=
  match arr with
  | [] => None
  | b :: rest =>
      if pid b =? 0 then Some (bn :: rest)
      else match ShmemBackendArrayAdd bn rest with
           | Some rest' => Some (b :: rest')
           | None => None
           end
  end.

(** The new array and whether the pid was found (if not, the source
    reports WARNING "could not find backend entry with pid %d"). *)
Fixpoint ShmemBackendArrayRemove (p : Z) (arr : list Backend)
    : bool * list Backend :=
  match arr with
  | [] => (false, [])
  | b :: rest =>
      if pid b =? p then
        (* Mark the slot as empty *)
        (true, mkBackend 0 (cancel_key b) :: rest)
      else
        let (found, rest') := ShmemBackendArrayRemove p rest in
        (found, b :: rest')
  end.

(** The slots in use. *)
Definition occupied (arr : list Backend) : list Backend :=
  filter (fun b => negb (pid b =? 0)) arr.

(** ** Whom the postmaster signals *)

(** The pids the postmaster keeps are pids of children: those of the
    special children are positive or 0 (no such child), those on the
    backend list are positive. *)
Definition pids_ok (s : pmstate) : Prop :=
  0 <= StartupPID s /\ 0 <= BgWriterPID s /\ 0 <= PgArchPID s
  /\ 0 <= PgStatPID s /\ 0 <= SysLoggerPID s
  /\ Forall (fun bp => 0 < pid bp) (BackendList s).

(** A signal goes to one process: [kill] with pid 0 or a negative pid
    would signal a process group or every process. *)
Definition kill_ok (e : effect) : Prop :=
  match e with
  | E_kill p _ => 0 < p
  | _ => True
  end.

(** [safe_with R m]: started with pids of children, [m] signals single
    processes only and ends with pids of children; a value it returns
    satisfies [R]. *)
Definition safe_with {A} (R : A -> Prop) (m : PM A) : Prop :=
  forall s, pids_ok s ->
    pids_ok (final (m s))
    /\ (exists l, trace (final (m s)) = trace s ++ l /\ Forall kill_ok l)
    /\ match m s with Ret a _ => R a | _ => True end.

Definition safe {A} (m : PM A) : Prop := safe_with (fun _ => True) m.

(** ** Further concrete scenarios *)

(** A postmaster in normal operation: background writer 500, archiver
    501, statistics collector 502, system logger 503, and the two
    backends 42 and 43. *)
Definition serving_state : pmstate :=
  mkState NoShutdown false 0 500 501 502 503 two_backends 0 no_os [].

(** The same with no client connected. *)
Definition idle_state : pmstate :=
  mkState NoShutdown false 0 500 501 502 503 [] 0 no_os [].

(** Idle, a smart shutdown requested before. *)
Definition smart_idle_state : pmstate :=
  mkState SmartShutdown false 0 500 501 502 503 [] 0 no_os [].

(** A smart shutdown under way, with backend 42 the last one left. *)
Definition last_backend_state : pmstate :=
  mkState SmartShutdown false 0 500 501 502 503 [mkBackend 42 7] 0 no_os [].

(** A smart shutdown under way, the background writer 500 finishing. *)
Definition writer_finishing_state : pmstate :=
  mkState SmartShutdown false 0 500 0 0 503 [] 0 no_os [].

(** Crash recovery: FatalError set, the startup process 300 at work;
    the next pids [fork] hands out are 600 and 601. *)
Definition recovering_state : pmstate :=
  mkState NoShutdown true 300 0 0 0 503 [] 0 (mkOs [600; 601] [] [] [] []) [].

(** A crash being cleaned up: FatalError set, backend 42 the last child
    that has not been reaped; the next pid [fork] hands out is 300. *)
Definition draining_state : pmstate :=
  mkState NoShutdown true 0 0 0 0 503 [mkBackend 42 7] 0
          (mkOs [300] [] [] [] []) [].

(** A fast shutdown under way while a connection comes in; the process
    followed is the child of the fork in BackendStartup (answer 0). *)
Definition stopping_state : pmstate :=
  mkState FastShutdown false 0 500 0 0 503 [mkBackend 42 7] 0
          (mkOs [0] [5; 6; 7; 8; 9] [] [] []) [].

(** White space in the "C" locale. *)
Definition isspace_C (b : byte) : bool :=
  match b with
  | x20 | x09 | x0a | x0b | x0c | x0d => true
  | _ => false
  end.
(** * Properties *)

(** ** Reasoning about postmaster computations *)

(** LogChildExit writes one line, at the level it is given. *)
Lemma LogChildExit_eq cfg lev procname p exitstatus :
  LogChildExit cfg lev procname p exitstatus
  = ereport lev (LogChildExit_text cfg procname exitstatus).
Proof.
  unfold LogChildExit, LogChildExit_text.
  destruct (WIFEXITED cfg exitstatus); [reflexivity|].
  destruct (WIFSIGNALED cfg exitstatus); reflexivity.
Qed.

Section Always.
Variable P : pmstate -> Prop.

Lemma always_ret {A} (a : A) : always P (ret a).
Proof. intros s H. exact H. Qed.

Lemma always_bind {A B} (m : PM A) (k : A -> PM B) :
  always P m -> (forall a, always P (k a)) -> always P (bind m k).
Proof.
  intros Hm Hk s H. unfold bind.
  specialize (Hm s H). destruct (m s) as [a s'|st s'|r s']; simpl in *; auto.
  apply Hk; assumption.
Qed.

Lemma always_gets {A} (f : pmstate -> A) : always P (gets f).
Proof. intros s H. exact H. Qed.

Lemma always_modify (f : pmstate -> pmstate) :
  (forall s, P s -> P (f s)) -> always P (modify f).
Proof. intros Hf s H. simpl. auto. Qed.

Lemma always_when (b : bool) (m : PM unit) :
  always P m -> always P (when b m).
Proof. intros Hm. destruct b; simpl; [exact Hm | apply always_ret]. Qed.

Lemma always_exit (st : Z) : always P (ExitPostmaster st).
Proof. intros s H. exact H. Qed.

Lemma always_become (r : child_role) : always P (become r).
Proof. intros s H. exact H. Qed.

Lemma always_for_each {A} (l : list A) (f : A -> PM unit) :
  (forall x, always P (f x)) -> always P (for_each l f).
Proof.
  intros Hf. induction l as [|x l IH]; simpl.
  - apply always_ret.
  - apply always_bind; auto.
Qed.

End Always.

(** Takes a computation apart along its binds and branches.  Steps
    that touch neither the shutdown level nor the backend list are
    discharged; assignments to these two are left to the caller. *)
Ltac frame_leaf := intros ? H; exact H.

Ltac frame_step :=
  match goal with
  | |- always _ (bind _ _) => apply always_bind; [| intro]
  | |- always _ (ret _) => apply always_ret
  | |- always _ (gets _) => apply always_gets
  | |- always _ (when _ _) => apply always_when
  | |- always _ (ExitPostmaster _) => apply always_exit
  | |- always _ (become _) => apply always_become
  | |- always _ (for_each _ _) => apply always_for_each; intro
  | |- always _ fork => frame_leaf
  | |- always _ random => frame_leaf
  | |- always _ PostmasterRandom => frame_leaf
  | |- always _ malloc => frame_leaf
  | |- always _ set_noblock => frame_leaf
  | |- always _ errno => frame_leaf
  | |- always _ (ereport _ _) => frame_leaf
  | |- always _ (kill _ _) => frame_leaf
  | |- always _ (call _) => frame_leaf
  | |- always _ (modify _) => frame_leaf
  | |- always _ (if ?b then _ else _) => destruct b
  | |- always _ (match ?x with _ => _ end) => destruct x
  end.

(** *** Code that touches neither the level nor the list *)

Section Frame.
Variable Q : Z -> list Backend -> Prop.

Lemma frame_StartChildProcess x : always (core Q) (StartChildProcess x).
Proof. unfold StartChildProcess. repeat frame_step. Qed.

Lemma frame_helper_start name : always (core Q) (helper_start name).
Proof. unfold helper_start. repeat frame_step. Qed.

Lemma frame_SignalChildren sig : always (core Q) (SignalChildren sig).
Proof. unfold SignalChildren. repeat frame_step. Qed.

Lemma frame_begin_database_shutdown :
  always (core Q) begin_database_shutdown.
Proof.
  unfold begin_database_shutdown, StartBackgroundWriter.
  repeat (frame_step || apply frame_StartChildProcess).
Qed.

Lemma frame_crash_scan cfg dead l : always (core Q) (crash_scan cfg dead l).
Proof. induction l as [|bp l IH]; simpl; repeat (frame_step || apply IH). Qed.

Lemma frame_SIGHUP_handler : always (core Q) SIGHUP_handler.
Proof.
  unfold SIGHUP_handler. repeat (frame_step || apply frame_SignalChildren).
Qed.

Lemma frame_sigusr1_handler a b c : always (core Q) (sigusr1_handler a b c).
Proof.
  unfold sigusr1_handler. repeat (frame_step || apply frame_SignalChildren).
Qed.

End Frame.

Ltac frame :=
  repeat first
    [ frame_step
    | apply frame_StartChildProcess | apply frame_helper_start
    | apply frame_SignalChildren | apply frame_begin_database_shutdown
    | apply frame_crash_scan ].

(** *** Code that leaves the level alone *)

Section Level.
Variable R : Z -> Prop.
Let P : pmstate -> Prop := core (fun sd _ => R sd).

Lemma level_HandleChildCrash cfg p st name :
  always P (HandleChildCrash cfg p st name).
Proof. unfold P, HandleChildCrash, LogChildExit. frame. Qed.

Lemma level_CleanupBackend cfg p st : always P (CleanupBackend cfg p st).
Proof.
  unfold CleanupBackend, LogChildExit.
  repeat (frame_step || apply level_HandleChildCrash).
Qed.

Lemma level_reap_one cfg p st : always P (reap_one cfg p st).
Proof.
  unfold reap_one, LogChildExit, StartBackgroundWriter, pgarch_start,
    pgstat_start, SysLogger_Start.
  repeat first [ apply level_HandleChildCrash | apply level_CleanupBackend
               | progress frame ].
Qed.

Lemma level_reaper_loop cfg dead : always P (reaper_loop cfg dead).
Proof.
  induction dead as [|[p st] dead IH]; simpl;
    repeat (frame_step || apply level_reap_one || apply IH).
Qed.

Lemma level_reaper cfg dead : always P (reaper cfg dead).
Proof.
  unfold reaper, StartupDataBase.
  repeat first [ apply level_reaper_loop | progress frame ].
Qed.

Lemma level_BackendStartup cfg port : always P (BackendStartup cfg port).
Proof.
  unfold P, BackendStartup, report_fork_failure_to_client. frame.
Qed.

Lemma level_ServerLoop_pass cfg ready :
  always P (ServerLoop_pass cfg ready).
Proof.
  unfold ServerLoop_pass, ConnCreate, RandomSalt, StartBackgroundWriter,
    pgarch_start, pgstat_start, SysLogger_Start.
  repeat first [ apply level_BackendStartup | progress frame ].
Qed.

End Level.

(** *** The shutdown level along a run *)

(** What [pmdie] does once it has decided to raise the level to [v]:
    everything after the assignment leaves the level alone. *)
Lemma level_raise n v (rest : PM unit) :
  always (at_least v) rest ->
  forall s, at_least n s -> Shutdown s < v ->
    at_least n (final ((modify (set_Shutdown v) ;; rest) s)).
Proof.
  intros Hrest s Hn Hlt. unfold bind, modify.
  assert (Hv : at_least v (set_Shutdown v s))
    by (unfold at_least, core; simpl; lia).
  specialize (Hrest _ Hv). unfold at_least, core in *. lia.
Qed.

Lemma level_pmdie n sig : always (at_least n) (pmdie sig).
Proof.
  intros s Hn. unfold pmdie.
  unfold bind at 1. unfold ereport at 1, modify at 1.
  set (s1 := emit _ s).
  assert (Hn1 : at_least n s1) by exact Hn.
  clearbody s1. clear s Hn.
  destruct sig; try exact Hn1.
  - (* SIGINT *)
    unfold bind at 1, gets at 1.
    destruct (Shutdown s1 >=? FastShutdown) eqn:E; [exact Hn1|].
    apply level_raise; [| exact Hn1 | lia].
    unfold at_least. frame.
  - (* SIGQUIT *)
    revert s1 Hn1. change (always (at_least n)
      (ereport LOG "received immediate shutdown request" ;;
       st <- gets StartupPID ;;
       when (negb (st =? 0)) (kill st SIGQUIT) ;;
       bgw <- gets BgWriterPID ;;
       when (negb (bgw =? 0)) (kill bgw SIGQUIT) ;;
       arch <- gets PgArchPID ;;
       when (negb (arch =? 0)) (kill arch SIGQUIT) ;;
       stat <- gets PgStatPID ;;
       when (negb (stat =? 0)) (kill stat SIGQUIT) ;;
       bl <- gets BackendList ;;
       when (DLGetHead_nonnull bl) (SignalChildren SIGQUIT) ;;
       ExitPostmaster 0)).
    unfold at_least. frame.
  - (* SIGTERM *)
    unfold bind at 1, gets at 1.
    destruct (Shutdown s1 >=? SmartShutdown) eqn:E; [exact Hn1|].
    apply level_raise; [| exact Hn1 | lia].
    unfold at_least. frame.
Qed.

Lemma level_step_event n cfg ev : always (at_least n) (step cfg ev).
Proof.
  destruct ev; simpl.
  - apply level_pmdie.
  - apply frame_SIGHUP_handler.
  - apply frame_sigusr1_handler.
  - apply level_reaper.
  - apply level_ServerLoop_pass.
Qed.

Lemma level_run n cfg evs : always (at_least n) (run cfg evs).
Proof. apply always_for_each. intro ev. apply level_step_event. Qed.

(** A run over [evs1 ++ evs2] is the run over [evs1] followed, if the
    postmaster is still there, by the run over [evs2]. *)
Lemma run_app cfg evs1 evs2 s :
  run cfg (evs1 ++ evs2) s =
  match run cfg evs1 s with
  | Ret _ s' => run cfg evs2 s'
  | Exit st s' => Exit st s'
  | Child r s' => Child r s'
  end.
Proof.
  unfold run. revert s. induction evs1 as [|ev evs1 IH]; intro s; simpl.
  - reflexivity.
  - unfold bind. destruct (step cfg ev s) as [[] s'|st s'|r s']; auto.
Qed.

Lemma run_prefix_level cfg evs1 evs2 s :
  Shutdown (final (run cfg evs1 s))
  <= Shutdown (final (run cfg (evs1 ++ evs2) s)).
Proof.
  rewrite run_app.
  destruct (run cfg evs1 s) as [[] s'|st s'|r s']; simpl; try lia.
  apply (level_run (Shutdown s') cfg evs2 s'). unfold at_least, core. lia.
Qed.

Lemma pmdie_SIGTERM_level s :
  Shutdown (final (pmdie SIGTERM s)) = Z.max (Shutdown s) SmartShutdown.
Proof.
  unfold pmdie.
  unfold bind at 1. unfold ereport at 1, modify at 1.
  unfold bind at 1, gets at 1.
  change (Shutdown (emit (E_ereport DEBUG2 "postmaster received signal %d") s))
    with (Shutdown s).
  destruct (Shutdown s >=? SmartShutdown) eqn:E.
  - simpl. lia.
  - set (rest := (ereport LOG "received smart shutdown request" ;; _)).
    assert (Hrest : always (level_is SmartShutdown) rest)
      by (subst rest; unfold level_is; frame).
    unfold bind at 1, modify at 1.
    rewrite Hrest; [lia | reflexivity].
Qed.

Lemma pmdie_SIGINT_level s :
  Shutdown (final (pmdie SIGINT s)) = Z.max (Shutdown s) FastShutdown.
Proof.
  unfold pmdie.
  unfold bind at 1. unfold ereport at 1, modify at 1.
  unfold bind at 1, gets at 1.
  change (Shutdown (emit (E_ereport DEBUG2 "postmaster received signal %d") s))
    with (Shutdown s).
  destruct (Shutdown s >=? FastShutdown) eqn:E.
  - simpl. lia.
  - set (rest := (ereport LOG "received fast shutdown request" ;; _)).
    assert (Hrest : always (level_is FastShutdown) rest)
      by (subst rest; unfold level_is; frame).
    unfold bind at 1, modify at 1.
    rewrite Hrest; [lia | reflexivity].
Qed.

(** A stop request that comes too late only leaves a debug line. *)
Lemma pmdie_SIGTERM_ignored s :
  Shutdown s >= SmartShutdown ->
  pmdie SIGTERM s =
  Ret tt (emit (E_ereport DEBUG2 "postmaster received signal %d") s).
Proof.
  intro H. unfold pmdie.
  unfold bind at 1. unfold ereport at 1, modify at 1.
  unfold bind at 1, gets at 1.
  change (Shutdown (emit (E_ereport DEBUG2 "postmaster received signal %d") s))
    with (Shutdown s).
  destruct (Shutdown s >=? SmartShutdown) eqn:E; [reflexivity | lia].
Qed.

Lemma pmdie_SIGINT_ignored s :
  Shutdown s >= FastShutdown ->
  pmdie SIGINT s =
  Ret tt (emit (E_ereport DEBUG2 "postmaster received signal %d") s).
Proof.
  intro H. unfold pmdie.
  unfold bind at 1. unfold ereport at 1, modify at 1.
  unfold bind at 1, gets at 1.
  change (Shutdown (emit (E_ereport DEBUG2 "postmaster received signal %d") s))
    with (Shutdown s).
  destruct (Shutdown s >=? FastShutdown) eqn:E; [reflexivity | lia].
Qed.

(** *** The backend list along a run *)

Lemma always_bind_gets {A B} (P : pmstate -> Prop) (f : pmstate -> A)
    (k : A -> PM B) :
  (forall s, P s -> P (final (k (f s) s))) -> always P (bind (gets f) k).
Proof. intros H s Hs. unfold bind, gets. apply H. exact Hs. Qed.

Lemma NoDup_map_filter (keep : Backend -> bool) (l : list Backend) :
  NoDup (map pid l) -> NoDup (map pid (filter keep l)).
Proof.
  induction l as [|bp l IH]; simpl; intro H; [constructor|].
  inversion H as [|x xs Hnotin Hnd]. subst.
  destruct (keep bp); simpl; [|auto].
  constructor; [|auto].
  intro Hin. apply Hnotin. apply in_map_iff in Hin.
  destruct Hin as [b [Hb Hin]]. apply filter_In in Hin.
  apply in_map_iff. exists b. tauto.
Qed.

Lemma remove_first_incl p l l' :
  remove_first p l = Some l' -> forall b, In b l' -> In b l.
Proof.
  revert l'. induction l as [|bp l IH]; simpl; intros l' H b Hb;
    [discriminate|].
  destruct (pid bp =? p).
  - inversion H. subst. auto.
  - destruct (remove_first p l) as [r|]; [|discriminate].
    inversion H. subst. destruct Hb as [->|Hb];
      [left; reflexivity | right; apply (IH r eq_refl b Hb)].
Qed.

Lemma remove_first_NoDup p l l' :
  remove_first p l = Some l' -> NoDup (map pid l) -> NoDup (map pid l').
Proof.
  revert l'. induction l as [|bp l IH]; simpl; intros l' H Hnd;
    [discriminate|].
  inversion Hnd as [|x xs Hnotin Hnd']. subst.
  destruct (pid bp =? p).
  - inversion H. subst. exact Hnd'.
  - destruct (remove_first p l) as [r|] eqn:E; [|discriminate].
    inversion H. subst. simpl. constructor; [|auto].
    intro Hin. apply Hnotin. apply in_map_iff in Hin.
    destruct Hin as [b [Hb Hin]]. apply in_map_iff. exists b.
    split; [exact Hb|]. exact (remove_first_incl p l r E b Hin).
Qed.

(** The loop of HandleChildCrash returns the list without the entries
    of the dead pid, and leaves the list in the state as it is. *)
Lemma crash_scan_result cfg dead l : forall s,
  exists s',
    crash_scan cfg dead l s
    = Ret (filter (fun bp => negb (pid bp =? dead)) l) s'
    /\ BackendList s' = BackendList s /\ Shutdown s' = Shutdown s.
Proof.
  induction l as [|bp l IH]; intro s; simpl.
  - eexists. split; [reflexivity|]. split; reflexivity.
  - destruct (pid bp =? dead); simpl.
    + unfold bind at 1. unfold call at 1, modify at 1.
      destruct (IH (emit (E_call "pgstat_beterm") s)) as [s' [-> [H1 H2]]].
      exists s'. split; [reflexivity|]. split; assumption.
    + unfold bind at 1, gets at 1. unfold bind at 1.
      destruct (FatalError s); simpl when.
      * unfold ret at 1. unfold bind at 1.
        destruct (IH s) as [s' [-> [H1 H2]]].
        exists s'. split; [reflexivity|]. split; assumption.
      * unfold bind at 1. unfold ereport at 1, modify at 1.
        unfold kill at 1, modify at 1. unfold bind at 1.
        match goal with |- context [crash_scan cfg dead l ?x] =>
          destruct (IH x) as [s' [-> [H1 H2]]] end.
        exists s'. split; [reflexivity|]. split; assumption.
Qed.

Lemma registry_HandleChildCrash cfg p st name :
  always registry_ok (HandleChildCrash cfg p st name).
Proof.
  unfold HandleChildCrash, LogChildExit, registry_ok.
  apply always_bind; [frame|]. intro fe.
  apply always_bind; [frame|]. intros _.
  apply always_bind_gets. intros s Hs.
  unfold bind at 1.
  destruct (crash_scan_result cfg p (BackendList s) s) as [s' [-> [Hl _]]].
  unfold bind at 1, modify at 1.
  match goal with |- core _ (final (?rest ?x)) =>
    assert (Hrest : always (core (fun _ bl => NoDup (map pid bl))) rest)
      by frame;
    apply Hrest
  end.
  unfold core. simpl. apply NoDup_map_filter. exact Hs.
Qed.

Lemma registry_CleanupBackend cfg p st :
  always registry_ok (CleanupBackend cfg p st).
Proof.
  unfold CleanupBackend, LogChildExit.
  apply always_bind; [unfold registry_ok; frame|]. intros _.
  destruct (negb (st =? 0)); [apply registry_HandleChildCrash|].
  apply always_bind_gets. intros s Hs.
  destruct (remove_first p (BackendList s)) as [l'|] eqn:E; [|exact Hs].
  unfold bind, modify, call. simpl.
  unfold registry_ok, core in *. simpl.
  exact (remove_first_NoDup p _ l' E Hs).
Qed.

Lemma registry_reap_one cfg p st : always registry_ok (reap_one cfg p st).
Proof.
  unfold reap_one, LogChildExit, StartBackgroundWriter, pgarch_start,
    pgstat_start, SysLogger_Start.
  repeat first [ apply registry_HandleChildCrash
               | apply registry_CleanupBackend
               | progress (unfold registry_ok; frame) ].
Qed.

Lemma registry_reaper cfg dead : always registry_ok (reaper cfg dead).
Proof.
  assert (Hloop : always registry_ok (reaper_loop cfg dead)).
  { induction dead as [|[p st] dead IH]; simpl.
    - apply always_ret.
    - destruct (p >? 0); [|apply always_ret].
      apply always_bind; [apply registry_reap_one | intro; exact IH]. }
  unfold reaper, StartupDataBase.
  apply always_bind; [unfold registry_ok; frame|]. intros _.
  apply always_bind; [exact Hloop|]. intros _.
  unfold registry_ok. frame.
Qed.

Lemma registry_pmdie sig : always registry_ok (pmdie sig).
Proof. unfold pmdie, registry_ok. frame. Qed.

(** No pid occurs twice in the backend list: this is kept by every
    signal handler, whatever children are reported dead, ... *)
Lemma registry_handlers cfg ev :
  (forall ready, ev <> Ev_loop ready) -> always registry_ok (step cfg ev).
Proof.
  intro Hev. destruct ev; simpl.
  - apply registry_pmdie.
  - apply frame_SIGHUP_handler.
  - apply frame_sigusr1_handler.
  - apply registry_reaper.
  - exfalso. exact (Hev ready eq_refl).
Qed.

(** ** The shutdown level *)

(** C4.  The shutdown level never goes down: along every run of the
    supervisor (signals handled by [pmdie], [SIGHUP_handler],
    [sigusr1_handler] and [reaper], and passes of the main loop), the
    level reached after a prefix of the run is at most the level reached
    after the whole run.  A smart-stop (SIGTERM) arriving when the level
    is already SmartShutdown or higher, and a fast-stop (SIGINT)
    arriving when it is already FastShutdown, change nothing in the
    state but a debug line in the log; otherwise they raise the level to
    SmartShutdown, respectively FastShutdown. *)
Theorem shutdown_level_monotone (cfg : config) (evs1 evs2 : list event)
    (s : pmstate) :
  Shutdown (final (run cfg evs1 s))
    <= Shutdown (final (run cfg (evs1 ++ evs2) s))
  /\ Shutdown s <= Shutdown (final (run cfg evs1 s))
  /\ (if Shutdown s >=? SmartShutdown
      then pmdie SIGTERM s =
           Ret tt (emit (E_ereport DEBUG2 "postmaster received signal %d") s)
      else Shutdown (final (pmdie SIGTERM s)) = SmartShutdown)
  /\ (if Shutdown s >=? FastShutdown
      then pmdie SIGINT s =
           Ret tt (emit (E_ereport DEBUG2 "postmaster received signal %d") s)
      else Shutdown (final (pmdie SIGINT s)) = FastShutdown).
Proof.
  split; [apply run_prefix_level|].
  split; [apply (level_run (Shutdown s) cfg evs1 s); unfold at_least, core; lia|].
  split.
  - destruct (Shutdown s >=? SmartShutdown) eqn:E.
    + apply pmdie_SIGTERM_ignored. lia.
    + rewrite pmdie_SIGTERM_level. lia.
  - destruct (Shutdown s >=? FastShutdown) eqn:E.
    + apply pmdie_SIGINT_ignored. lia.
    + rewrite pmdie_SIGINT_level. lia.
Qed.

(** ** Admission control *)

Lemma to_int_small x : -2147483648 <= x <= 2147483647 -> to_int x = x.
Proof.
  intro H. unfold to_int, wrap_signed.
  change (2 ^ (32 - 1)) with 2147483648. change (2 ^ 32) with 4294967296.
  rewrite Z.mod_small; lia.
Qed.

Section Admission.
Variable cfg : config.

(** The configured maximum is such that twice its value is an [int]. *)
Hypothesis MaxBackends_range : 0 <= 2 * MaxBackends cfg <= INT_MAX.

Lemma twice_MaxBackends : to_int (2 * MaxBackends cfg) = 2 * MaxBackends cfg.
Proof. apply to_int_small. unfold INT_MAX in *. lia. Qed.


End Admission.

Lemma small_config_range : 0 <= 2 * MaxBackends small_config <= INT_MAX.
Proof. vm_compute. split; discriminate. Defined.


(** C10.  When several reject conditions hold at once the verdict
    follows the order of the tests: a shutdown level above none gives
    "shutting down" whatever else holds; failing that, a startup child
    gives "starting up" whatever else holds; failing that, FatalError
    gives "in recovery" whatever the number of backends. *)
Theorem admission_precedence (cfg : config) (s : pmstate) :
  (Shutdown s > NoShutdown -> canAcceptConnections cfg s = CAC_SHUTDOWN)
  /\ (Shutdown s <= NoShutdown -> StartupPID s <> 0 ->
      canAcceptConnections cfg s = CAC_STARTUP)
  /\ (Shutdown s <= NoShutdown -> StartupPID s = 0 -> FatalError s = true ->
      canAcceptConnections cfg s = CAC_RECOVERY).
Proof.
  unfold canAcceptConnections, NoShutdown.
  repeat split; intros;
    destruct (Shutdown s >? 0) eqn:E1; try lia;
    destruct (StartupPID s =? 0) eqn:E2; try lia; cbn [negb];
    try reflexivity.
  rewrite H1. reflexivity.
Qed.

(** Instance: a connection arriving during a shutdown while the startup
    process is still there is refused as shutting down. *)
Lemma admission_precedence_shutdown_in_startup :
  canAcceptConnections stock_config state_shutdown_in_startup = CAC_SHUTDOWN.
Proof.
  apply (proj1 (admission_precedence stock_config state_shutdown_in_startup)).
  reflexivity.
Defined.

(** ** Failure of the startup process *)

(** C1 (as amended).  When the startup process is reported dead with a
    nonzero status, the reaper logs the failure and ends the postmaster
    with exit status 1, whatever the FatalError flag and the shutdown
    level are: during crash recovery just as while booting.  No new
    startup process is launched, the remaining death reports are not
    looked at, and the operating system is not asked for anything. *)
Theorem startup_failure_aborts (cfg : config) (s : pmstate) (st : Z)
    (rest : list (Z * Z)) :
  StartupPID s > 0 -> st <> 0 ->
  reaper cfg ((StartupPID s, st) :: rest) s =
  Exit 1
    (emit (E_ereport LOG "aborting startup due to startup process failure")
      (emit (E_ereport LOG (LogChildExit_text cfg "startup process" st))
        (set_StartupPID 0
          (emit (E_ereport DEBUG4 "reaping dead processes") s)))).
Proof.
  intros Hp Hst.
  unfold reaper. unfold bind at 1. unfold ereport at 1, modify at 1.
  unfold bind at 1. unfold reaper_loop; fold reaper_loop.
  change (StartupPID s)
    with (StartupPID (emit (E_ereport DEBUG4 "reaping dead processes") s))
    in *.
  set (s1 := emit _ s) in *. clearbody s1.
  replace (StartupPID s1 >? 0) with true by lia.
  unfold bind at 1. unfold reap_one.
  repeat (unfold bind at 1; unfold gets at 1).
  rewrite Z.eqb_refl. replace (StartupPID s1 =? 0) with false by lia.
  cbn [negb andb].
  unfold bind at 1. unfold modify at 1.
  unfold bind at 1. replace (st =? 0) with false by lia. cbn [negb when].
  rewrite LogChildExit_eq. reflexivity.
Qed.

(** The state reached by [recovery_run]: crash recovery under way. *)
Lemma recovery_run_state :
  exists s, recovery_run = Ret tt s
            /\ FatalError s = true /\ StartupPID s = 300
            /\ BackendList s = [] /\ Shutdown s = NoShutdown.
Proof. eexists. vm_compute. repeat split. Qed.

(** Instance: the startup process of a crash recovery fails. *)
Lemma startup_failure_aborts_in_recovery :
  FatalError (final recovery_run) = true
  /\ exists s', reaper stock_config [(300, 256)] (final recovery_run)
                = Exit 1 s'.
Proof.
  split; [reflexivity|].
  eexists.
  apply (startup_failure_aborts stock_config (final recovery_run) 256 []).
  - vm_compute. reflexivity.
  - discriminate.
Defined.

(** C1 as stated does not hold: in crash recovery (FatalError set, the
    recovery's startup process 300 running) a nonzero exit of the
    startup process ends the postmaster with status 1; no startup
    process is forked again. *)
Lemma startup_failure_not_retried :
  exists s s',
    recovery_run = Ret tt s
    /\ FatalError s = true /\ StartupPID s = 300
    /\ reaper stock_config [(300, 256)] s = Exit 1 s'
    /\ StartupPID s' = 0
    /\ os_fork (os s') = os_fork (os s)
    /\ trace s' =
       trace s ++
       [E_ereport DEBUG4 "reaping dead processes";
        E_ereport LOG "startup process (PID %d) exited with exit code %d";
        E_ereport LOG "aborting startup due to startup process failure"].
Proof. do 2 eexists. vm_compute. repeat split. Qed.

(** ** Reading the startup packet *)

Lemma pq_getbytes_exact (c : conn) (a b : list byte) (n : Z) :
  c_input c = a ++ b -> strlen a = n ->
  pq_getbytes n c = Some (a, after_packet c b).
Proof.
  intros Hin Hn. unfold pq_getbytes, after_packet, strlen in *.
  rewrite Hin, length_app.
  destruct (Z.ltb_spec (Z.of_nat (List.length a + List.length b)) n);
    [lia|].
  subst n. rewrite Nat2Z.id.
  rewrite firstn_app, firstn_all, Nat.sub_diag, firstn_O, app_nil_r.
  rewrite skipn_app, skipn_all, Nat.sub_diag, skipn_O. reflexivity.
Qed.

(** With a whole packet at hand the two reads succeed and the packet is
    dealt with by [handle_packet]. *)
Lemma read_packet cfg env again SSLdone c body rest :
  incoming_packet cfg c body rest ->
  ProcessStartupPacket_body cfg env again SSLdone c =
  handle_packet cfg env again SSLdone (strlen body) body (after_packet c rest).
Proof.
  intros [lenbytes [Hin [Hlen [Hdec Hbounds]]]].
  unfold ProcessStartupPacket_body.
  rewrite (pq_getbytes_exact c lenbytes (body ++ rest) 4 Hin)
    by (unfold strlen; rewrite Hlen; reflexivity).
  cbv zeta. rewrite Hdec.
  replace (strlen body <? 4) with false by lia.
  replace (strlen body >? MAX_STARTUP_PACKET_LENGTH cfg) with false by lia.
  cbn [orb].
  rewrite (pq_getbytes_exact (after_packet c (body ++ rest)) body rest
             (strlen body)) by reflexivity.
  reflexivity.
Qed.

Lemma ProcessStartupPacket_packet cfg env SSLdone c body rest :
  incoming_packet cfg c body rest ->
  ProcessStartupPacket cfg env SSLdone c =
  handle_packet cfg env (ProcessStartupPacket_SSLdone cfg env) SSLdone
    (strlen body) body (after_packet c rest).
Proof. intro H. unfold ProcessStartupPacket. apply read_packet. exact H. Qed.

(** The recursive call is what the definition says it is:
    ProcessStartupPacket with SSLdone true. *)
Lemma ProcessStartupPacket_SSLdone_eq cfg env c :
  ProcessStartupPacket_SSLdone cfg env c = ProcessStartupPacket cfg env true c.
Proof.
  unfold ProcessStartupPacket, ProcessStartupPacket_SSLdone,
    ProcessStartupPacket_body.
  destruct (pq_getbytes 4 c) as [[lenbytes c1]|]; [|reflexivity].
  cbv zeta.
  destruct ((_ <? 4) || _); [reflexivity|].
  destruct (pq_getbytes _ c1) as [[body c2]|]; [|reflexivity].
  unfold handle_packet. cbv zeta.
  rewrite andb_false_r. reflexivity.
Qed.

Lemma byte_at_buffer cfg len body i :
  0 <= i < strlen body ->
  byte_at (startup_buffer cfg len body) i = byte_at body i.
Proof.
  intros Hi. unfold byte_at, startup_buffer, strlen in *.
  apply app_nth1. lia.
Qed.

Lemma ntohl_at_buffer cfg len body :
  4 <= strlen body ->
  ntohl_at (startup_buffer cfg len body) 0 = ntohl_at body 0.
Proof.
  intro H. unfold ntohl_at.
  rewrite !byte_at_buffer by lia. reflexivity.
Qed.

(** ** Cancel requests *)

(** The search only ever signals SIGINT, to the requested pid. *)
Lemma cancel_scan_kill_inv bl bpid key p sig :
  In (E_kill p sig) (cancel_scan bl bpid key) -> p = bpid /\ sig = SIGINT.
Proof.
  induction bl as [|bp bl IH]; simpl.
  - intros [H|[]]. discriminate.
  - destruct (pid bp =? bpid) eqn:E.
    + apply Z.eqb_eq in E.
      destruct (cancel_key bp =? key); simpl.
      * intros [H|[H|[]]]; [discriminate|]. inversion H. subst. auto.
      * intros [H|[]]. discriminate.
    + exact IH.
Qed.

(** The first entry with the requested pid decides. *)
Lemma cancel_scan_first bl1 bp bl2 bpid key :
  (forall b, In b bl1 -> pid b <> bpid) -> pid bp = bpid ->
  cancel_scan (bl1 ++ bp :: bl2) bpid key = cancel_scan [bp] bpid key.
Proof.
  intros Hno Hbp. induction bl1 as [|b bl1 IH]; simpl.
  - rewrite Hbp, Z.eqb_refl. reflexivity.
  - destruct (pid b =? bpid) eqn:E.
    + apply Z.eqb_eq in E. exfalso. apply (Hno b); simpl; auto.
    + rewrite IH.
      * simpl. rewrite Hbp, Z.eqb_refl. reflexivity.
      * intros b' Hb'. apply Hno. simpl. auto.
Qed.

Lemma cancel_scan_no_send bl bpid key k data :
  ~ In (E_send k data) (cancel_scan bl bpid key).
Proof.
  induction bl as [|bp bl IH]; simpl.
  - intros [H|[]]. discriminate.
  - destruct (pid bp =? bpid); [|exact IH].
    destruct (cancel_key bp =? key); simpl; intuition discriminate.
Qed.

Lemma cancel_scan_levels bl bpid key lev msg :
  In (E_ereport lev msg) (cancel_scan bl bpid key) -> lev = DEBUG2.
Proof.
  induction bl as [|bp bl IH]; simpl.
  - intros [H|[]]. inversion H. reflexivity.
  - destruct (pid bp =? bpid); [|exact IH].
    destruct (cancel_key bp =? key); simpl;
      intros H; repeat (destruct H as [H|H]); try contradiction;
      try discriminate; inversion H; reflexivity.
Qed.

Lemma cancel_scan_match bl bpid key :
  NoDup (map pid bl) ->
  (In (E_kill bpid SIGINT) (cancel_scan bl bpid key)
   <-> exists bp, In bp bl /\ pid bp = bpid /\ cancel_key bp = key).
Proof.
  induction bl as [|bp bl IH]; simpl; intro Hnd.
  - split.
    + intros [H|[]]. discriminate.
    + intros [b [[] _]].
  - inversion Hnd as [|x l Hnotin Hnd']. subst.
    destruct (pid bp =? bpid) eqn:E.
    + apply Z.eqb_eq in E.
      destruct (cancel_key bp =? key) eqn:K.
      * apply Z.eqb_eq in K. split.
        -- intros _. exists bp. auto.
        -- intros _. simpl. right. left. rewrite E. reflexivity.
      * apply Z.eqb_neq in K. split.
        -- intros [H|[]]. discriminate.
        -- intros [b [[Hb|Hb] [Hp Hk]]].
           ++ subst b. contradiction.
           ++ exfalso. apply Hnotin. rewrite E, <- Hp. apply in_map. exact Hb.
    + apply Z.eqb_neq in E. rewrite (IH Hnd'). split.
      * intros [b [Hb Hrest]]. exists b. auto.
      * intros [b [[Hb|Hb] [Hp Hk]]].
        -- subst b. contradiction.
        -- exists b. auto.
Qed.

(** What processCancelRequest does, given a backend list in which no
    pid occurs twice. *)
Lemma processCancelRequest_effects (cfg : config) (bl : list Backend)
    (pkt : list byte) :
  NoDup (map pid bl) ->
  let done := processCancelRequest cfg bl pkt in
  (forall p sig,
      In (E_kill p sig) done <->
      sig = SIGINT /\ p = cancel_backendPID pkt
      /\ exists bp, In bp bl /\ pid bp = cancel_backendPID pkt
                    /\ cancel_key bp = cancel_cancelAuthCode cfg pkt)
  /\ sends done = []
  /\ (forall lev msg, In (E_ereport lev msg) done -> lev = DEBUG2)
  /\ (forall fn, ~ In (E_call fn) done)
  /\ (forall r, ~ In (E_fork r) done).
Proof.
  intros Hnd done. subst done. unfold processCancelRequest.
  set (bpid := cancel_backendPID pkt).
  set (key := cancel_cancelAuthCode cfg pkt).
  split; [|split; [|split; [|split]]].
  - intros p sig. split.
    + intro H. destruct (cancel_scan_kill_inv _ _ _ _ _ H) as [-> ->].
      repeat split. apply (cancel_scan_match bl bpid key Hnd). exact H.
    + intros [-> [-> Hex]]. apply (cancel_scan_match bl bpid key Hnd).
      exact Hex.
  - clear Hnd. induction bl as [|bp bl IH]; simpl; [reflexivity|].
    destruct (pid bp =? bpid); [|exact IH].
    destruct (cancel_key bp =? key); reflexivity.
  - intros lev msg. apply cancel_scan_levels.
  - clear Hnd. intro fn. induction bl as [|bp bl IH]; simpl.
    + intuition discriminate.
    + destruct (pid bp =? bpid); [|exact IH].
      destruct (cancel_key bp =? key); simpl; intuition discriminate.
  - clear Hnd. intro r. induction bl as [|bp bl IH]; simpl.
    + intuition discriminate.
    + destruct (pid bp =? bpid); [|exact IH].
      destruct (cancel_key bp =? key); simpl; intuition discriminate.
Qed.

(** A cancel request packet makes ProcessStartupPacket return 127, and
    the backend leave through [proc_exit(0)]; what it did is what
    processCancelRequest did. *)
Lemma BackendRun_cancel cfg env port input body rest :
  incoming_packet cfg (new_conn port input) body rest ->
  ntohl_at body 0 = CANCEL_REQUEST_CODE cfg ->
  exists c',
    BackendRun cfg env port input = (BE_proc_exit 0, c')
    /\ c_trace c' =
       processCancelRequest cfg (inherited_BackendList env)
         (startup_buffer cfg (strlen body) body).
Proof.
  intros Hpkt Hc. unfold BackendRun.
  rewrite (ProcessStartupPacket_packet cfg env false _ body rest Hpkt).
  assert (Hlen : 4 <= strlen body)
    by (destruct Hpkt as [lb [_ [_ [_ H]]]]; lia).
  unfold handle_packet. cbv zeta.
  rewrite ntohl_at_buffer by exact Hlen. rewrite Hc, Z.eqb_refl.
  cbn [negb]. change (127 =? STATUS_OK) with false. cbn [negb].
  eexists. split; reflexivity.
Qed.


Lemma two_backends_NoDup : NoDup (map pid two_backends).
Proof.
  simpl. constructor.
  - simpl. intros [H|[]]. discriminate.
  - constructor; [intros [] | constructor].
Defined.

Lemma cancel_42_incoming :
  incoming_packet stock_config (new_conn tcp_port cancel_42_packet)
    cancel_42 [].
Proof.
  exists [x00; x00; x00; x10].
  split; [reflexivity|]. split; [reflexivity|].
  split; [vm_compute; reflexivity|].
  split; vm_compute; discriminate.
Defined.


(** ** The protocol version *)

Lemma unsupported_protocol_iff cfg v :
  unsupported_protocol cfg v = true <->
  let major := PG_PROTOCOL_MAJOR cfg in
  let minor := PG_PROTOCOL_MINOR cfg in
  major v < major (PG_PROTOCOL_EARLIEST cfg)
  \/ major v > major (PG_PROTOCOL_LATEST cfg)
  \/ (major v = major (PG_PROTOCOL_LATEST cfg)
      /\ minor v > minor (PG_PROTOCOL_LATEST cfg)).
Proof.
  unfold unsupported_protocol. cbv zeta.
  rewrite !orb_true_iff, andb_true_iff.
  rewrite Z.ltb_lt, !Z.gtb_ltb, !Z.ltb_lt, Z.eqb_eq. lia.
Qed.

Lemma store_option_proto n v p : proto (store_option n v p) = proto p.
Proof.
  unfold store_option.
  destruct (streq n "database"); [reflexivity|].
  destruct (streq n "user"); [reflexivity|].
  destruct (streq n "options"); reflexivity.
Qed.

Lemma scan_options_proto fuel buf len : forall offset p offset' p',
  scan_options fuel buf len offset p = Some (offset', p') ->
  proto p' = proto p.
Proof.
  induction fuel as [|fuel IH]; simpl; intros offset p offset' p' H.
  - discriminate.
  - destruct (offset <? len); [|inversion H; reflexivity].
    destruct (is_nul (byte_at buf offset)); [inversion H; reflexivity|].
    destruct (_ >=? len); [inversion H; reflexivity|].
    apply IH in H. rewrite H. apply store_option_proto.
Qed.

Lemma startup_names_and_state_keeps cfg c :
  proto (c_port (snd (startup_names_and_state cfg c))) = proto (c_port c)
  /\ FrontendProtocol (snd (startup_names_and_state cfg c))
     = FrontendProtocol c
  /\ c_trace (snd (startup_names_and_state cfg c)) = c_trace c
  /\ c_input (snd (startup_names_and_state cfg c)) = c_input c.
Proof.
  unfold startup_names_and_state.
  destruct (is_empty_name (user_name (c_port c))); [simpl; auto|].
  cbv zeta. destruct (canAcceptConnections_of (c_port c)); simpl; auto.
Qed.

Lemma startup_names_and_state_code cfg c msg :
  fst (startup_names_and_state cfg c)
  <> PSP_fatal ERRCODE_FEATURE_NOT_SUPPORTED msg.
Proof.
  unfold startup_names_and_state.
  destruct (is_empty_name (user_name (c_port c))); [simpl; discriminate|].
  cbv zeta. destruct (canAcceptConnections_of (c_port c)); simpl;
    discriminate.
Qed.

(** What [handle_packet] does with a discriminator that is a version. *)
Lemma handle_packet_version cfg env again SSLdone body c :
  4 <= strlen body ->
  is_version cfg SSLdone (ntohl_at body 0) ->
  let v := ntohl_at body 0 in
  let r := handle_packet cfg env again SSLdone (strlen body) body c in
  (unsupported_protocol cfg v = true ->
     exists msg, r = (PSP_fatal ERRCODE_FEATURE_NOT_SUPPORTED msg,
                      c_set_FrontendProtocol v
                        (c_set_port (with_proto v (c_port c)) c)))
  /\ (unsupported_protocol cfg v = false ->
      forall msg, fst r <> PSP_fatal ERRCODE_FEATURE_NOT_SUPPORTED msg)
  /\ proto (c_port (snd r)) = v
  /\ FrontendProtocol (snd r) = Some v
  /\ c_trace (snd r) = c_trace c.
Proof.
  intros Hlen [Hnc Hns] v r. subst r. unfold handle_packet. cbv zeta.
  rewrite ntohl_at_buffer by exact Hlen. fold v.
  replace (v =? CANCEL_REQUEST_CODE cfg) with false
    by (symmetry; apply Z.eqb_neq; exact Hnc).
  assert (Hssl : (v =? NEGOTIATE_SSL_CODE cfg) && negb SSLdone = false).
  { destruct (v =? NEGOTIATE_SSL_CODE cfg) eqn:E; [|reflexivity].
    apply Z.eqb_eq in E. rewrite (Hns E). reflexivity. }
  rewrite Hssl.
  destruct (unsupported_protocol cfg v) eqn:U.
  { repeat split; try discriminate. eexists. reflexivity. }
  split; [discriminate|].
  destruct (PG_PROTOCOL_MAJOR cfg v >=? 3).
  - destruct (scan_options _ _ _ _ _) as [[offset p]|] eqn:S.
    + apply scan_options_proto in S. simpl in S.
      destruct (negb (offset =? strlen body - 1)).
      * simpl. repeat split; auto. discriminate.
      * destruct (startup_names_and_state_keeps cfg
          (c_set_port p (c_set_FrontendProtocol v
             (c_set_port (with_proto v (c_port c)) c))))
          as [H1 [H2 [H3 H4]]].
        split; [intros _ msg; apply startup_names_and_state_code|].
        rewrite H1, H2, H3. simpl. auto.
    + simpl. repeat split; auto. discriminate.
  - match goal with |- context [startup_names_and_state cfg ?x] =>
      destruct (startup_names_and_state_keeps cfg x) as [H1 [H2 [H3 H4]]]
    end.
    split; [intros _ msg; apply startup_names_and_state_code|].
    rewrite H1, H2, H3. simpl. auto.
Qed.

(** C6.  A startup packet whose discriminator is taken for a protocol
    version is refused as an unsupported protocol exactly when its major
    number is below the earliest supported major, or above the latest
    supported major, or equal to the latest major with a minor number
    above the latest minor.  Refused or not, the version is what the
    connection records as its protocol ([port->proto] and
    [FrontendProtocol]). *)
Theorem protocol_version_check (cfg : config) (env : child_env)
    (SSLdone : bool) (c : conn) (body rest : list byte) :
  incoming_packet cfg c body rest ->
  is_version cfg SSLdone (ntohl_at body 0) ->
  let v := ntohl_at body 0 in
  let major := PG_PROTOCOL_MAJOR cfg in
  let minor := PG_PROTOCOL_MINOR cfg in
  let r := ProcessStartupPacket cfg env SSLdone c in
  ((exists msg, fst r = PSP_fatal ERRCODE_FEATURE_NOT_SUPPORTED msg)
   <-> major v < major (PG_PROTOCOL_EARLIEST cfg)
       \/ major v > major (PG_PROTOCOL_LATEST cfg)
       \/ (major v = major (PG_PROTOCOL_LATEST cfg)
           /\ minor v > minor (PG_PROTOCOL_LATEST cfg)))
  /\ proto (c_port (snd r)) = v
  /\ FrontendProtocol (snd r) = Some v.
Proof.
  intros Hpkt Hver v major minor r. subst r major minor.
  rewrite (ProcessStartupPacket_packet cfg env SSLdone c body rest Hpkt).
  assert (Hlen : 4 <= strlen body)
    by (destruct Hpkt as [lb [_ [_ [_ H]]]]; lia).
  destruct (handle_packet_version cfg env (ProcessStartupPacket_SSLdone cfg env)
              SSLdone body (after_packet c rest) Hlen Hver)
    as [Hrej [Hacc [Hp [Hf _]]]].
  fold v in Hrej, Hacc, Hp, Hf.
  split; [|split; assumption].
  rewrite <- unsupported_protocol_iff.
  destruct (unsupported_protocol cfg v) eqn:U.
  - split; [reflexivity|]. intros _.
    destruct (Hrej eq_refl) as [msg Hr]. exists msg. rewrite Hr. reflexivity.
  - split; [|discriminate]. intros [msg Hr]. exfalso.
    exact (Hacc eq_refl msg Hr).
Qed.

Lemma alice_incoming :
  incoming_packet stock_config (new_conn tcp_port alice_packet) alice_body [].
Proof.
  exists [x00; x00; x00; x14].
  split; [reflexivity|]. split; [reflexivity|].
  split; [vm_compute; reflexivity|].
  split; vm_compute; discriminate.
Defined.

Lemma alice_is_version :
  is_version stock_config false (ntohl_at alice_body 0).
Proof.
  split.
  - vm_compute. discriminate.
  - intro H. vm_compute in H. discriminate.
Defined.

(** Instance: version 3.0 is not refused, and is recorded. *)
Lemma protocol_version_check_v3 :
  let r := ProcessStartupPacket stock_config quiet_env false
             (new_conn tcp_port alice_packet) in
  ~ (exists msg, fst r = PSP_fatal ERRCODE_FEATURE_NOT_SUPPORTED msg)
  /\ proto (c_port (snd r)) = PG_PROTOCOL 3 0
  /\ FrontendProtocol (snd r) = Some (PG_PROTOCOL 3 0).
Proof.
  destruct (protocol_version_check stock_config quiet_env false
              (new_conn tcp_port alice_packet) alice_body []
              alice_incoming alice_is_version) as [Hiff [Hp Hf]].
  split; [|split; [exact Hp | exact Hf]].
  intro Hrej. apply Hiff in Hrej. vm_compute in Hrej.
  destruct Hrej as [H|[H|[_ H]]]; discriminate.
Defined.

(** ** SSL negotiation *)

Lemma sends_app a b : sends (a ++ b) = sends a ++ sends b.
Proof.
  induction a as [|e a IH]; simpl; [reflexivity|].
  destruct e; simpl; rewrite IH; reflexivity.
Qed.

Lemma sends_cancel_scan bl bpid key : sends (cancel_scan bl bpid key) = [].
Proof.
  induction bl as [|bp bl IH]; simpl; [reflexivity|].
  destruct (pid bp =? bpid); [|exact IH].
  destruct (cancel_key bp =? key); reflexivity.
Qed.

Lemma pq_getbytes_inv n c a c' :
  0 <= n -> pq_getbytes n c = Some (a, c') ->
  strlen a = n /\ c' = after_packet c (skipn (Z.to_nat n) (c_input c)).
Proof.
  intros Hn. unfold pq_getbytes.
  destruct (Z.ltb_spec (Z.of_nat (List.length (c_input c))) n) as [|Hge];
    [discriminate|].
  intro Heq. inversion Heq. subst. split; [|reflexivity].
  unfold strlen. rewrite length_firstn. lia.
Qed.

(** Once SSL negotiation is over, ProcessStartupPacket calls [send] no
    more. *)
Lemma SSLdone_sends cfg env c :
  sends (c_trace (snd (ProcessStartupPacket cfg env true c)))
  = sends (c_trace c).
Proof.
  unfold ProcessStartupPacket, ProcessStartupPacket_body.
  destruct (pq_getbytes 4 c) as [[lenbytes c1]|] eqn:R1; [|reflexivity].
  apply pq_getbytes_inv in R1; [|lia]. destruct R1 as [_ ->].
  cbv zeta. set (len := to_int _).
  destruct (Z.ltb_spec len 4) as [|Hlen]; cbn [orb].
  { simpl. rewrite sends_app, app_nil_r. reflexivity. }
  destruct (len >? MAX_STARTUP_PACKET_LENGTH cfg).
  { simpl. rewrite sends_app, app_nil_r. reflexivity. }
  destruct (pq_getbytes len _) as [[body c2]|] eqn:R2.
  2:{ simpl. rewrite sends_app, app_nil_r. reflexivity. }
  apply pq_getbytes_inv in R2; [|lia]. destruct R2 as [Hb ->].
  rewrite <- Hb in *. clear len Hb.
  destruct (Z.eq_dec (ntohl_at body 0) (CANCEL_REQUEST_CODE cfg)) as [Hc|Hc].
  - unfold handle_packet. cbv zeta.
    rewrite ntohl_at_buffer by lia. rewrite Hc, Z.eqb_refl.
    simpl. rewrite sends_app. unfold processCancelRequest.
    rewrite sends_cancel_scan, app_nil_r. reflexivity.
  - match goal with |- context [handle_packet cfg env ?f true _ body ?x] =>
      destruct (handle_packet_version cfg env f true body x Hlen)
        as [_ [_ [_ [_ Ht]]]]
    end.
    { split; [exact Hc | reflexivity]. }
    rewrite Ht. reflexivity.
Qed.

(** With SSL negotiation over, a packet that is not a negotiation
    request is treated as it would have been without negotiation. *)
Lemma SSLdone_same cfg env c body rest :
  incoming_packet cfg c body rest ->
  ntohl_at body 0 <> NEGOTIATE_SSL_CODE cfg ->
  ProcessStartupPacket cfg env true c = ProcessStartupPacket cfg env false c.
Proof.
  intros Hpkt Hn.
  rewrite !(ProcessStartupPacket_packet cfg env _ c body rest Hpkt).
  assert (Hlen : 4 <= strlen body)
    by (destruct Hpkt as [lb [_ [_ [_ H]]]]; lia).
  unfold handle_packet. cbv zeta.
  rewrite ntohl_at_buffer by exact Hlen.
  replace (ntohl_at body 0 =? NEGOTIATE_SSL_CODE cfg) with false
    by (symmetry; apply Z.eqb_neq; exact Hn).
  reflexivity.
Qed.

Lemma SSLok_S cfg port :
  SSLok cfg port = x53 <->
  USE_SSL cfg = true /\ EnableSSL cfg = true
  /\ IS_AF_UNIX (laddr_family port) = false.
Proof.
  unfold SSLok.
  destruct (USE_SSL cfg), (EnableSSL cfg), (IS_AF_UNIX (laddr_family port));
    simpl; split; intros; intuition discriminate.
Qed.

Lemma SSLok_N cfg port : SSLok cfg port <> x53 -> SSLok cfg port = x4e.
Proof.
  unfold SSLok.
  destruct (USE_SSL cfg), (EnableSSL cfg), (IS_AF_UNIX (laddr_family port));
    simpl; intro H; try reflexivity; exfalso; apply H; reflexivity.
Qed.

(** C7.  To a packet carrying the SSL negotiation code (the first one
    on the connection) the postmaster child answers with one call of
    [send], of exactly one byte: 'S' exactly when SSL is compiled in and
    enabled and the local address of the connection is not a Unix-domain
    one, and 'N' otherwise; no other [send] is made while the startup
    packet is processed.  On a Unix-domain socket the byte is 'N', and,
    the byte sent, the function goes on with the client's next message
    as ProcessStartupPacket with SSLdone true, which treats every
    message other than a second negotiation request as it is treated
    without negotiation. *)
Theorem ssl_negotiation_answer (cfg : config) (env : child_env) (c : conn)
    (body rest : list byte) :
  incoming_packet cfg c body rest ->
  ntohl_at body 0 = NEGOTIATE_SSL_CODE cfg ->
  NEGOTIATE_SSL_CODE cfg <> CANCEL_REQUEST_CODE cfg ->
  let r := ProcessStartupPacket cfg env false c in
  let answer := SSLok cfg (c_port c) in
  let c1 := c_emit (E_send (sock (c_port c)) [answer])
              (c_set_port (with_proto (NEGOTIATE_SSL_CODE cfg) (c_port c))
                 (after_packet c rest)) in
  sends (c_trace (snd r)) = sends (c_trace c) ++ [(sock (c_port c), [answer])]
  /\ (answer = x53 <->
      USE_SSL cfg = true /\ EnableSSL cfg = true
      /\ IS_AF_UNIX (laddr_family (c_port c)) = false)
  /\ (answer <> x53 -> answer = x4e)
  /\ (IS_AF_UNIX (laddr_family (c_port c)) = true ->
      answer = x4e
      /\ (send_ok env = true -> r = ProcessStartupPacket cfg env true c1))
  /\ (forall body2 rest2,
        incoming_packet cfg c1 body2 rest2 ->
        ntohl_at body2 0 <> NEGOTIATE_SSL_CODE cfg ->
        ProcessStartupPacket cfg env true c1
        = ProcessStartupPacket cfg env false c1).
Proof.
  intros Hpkt Hssl Hdiff r answer c1.
  assert (Hlen : 4 <= strlen body)
    by (destruct Hpkt as [lb [_ [_ [_ H]]]]; lia).
  assert (Hr : r =
    if negb (send_ok env) then
      (PSP_return STATUS_ERROR,
       c_emit (E_ereport COMMERROR
                 "failed to send SSL negotiation response: %m") c1)
    else if USE_SSL cfg && Byte.eqb answer x53 && negb (secure_open_ok env)
    then (PSP_return STATUS_ERROR, c1)
    else ProcessStartupPacket cfg env true c1).
  { subst r.
    rewrite (ProcessStartupPacket_packet cfg env false c body rest Hpkt).
    unfold handle_packet. cbv zeta.
    rewrite ntohl_at_buffer by exact Hlen. rewrite Hssl.
    replace (NEGOTIATE_SSL_CODE cfg =? CANCEL_REQUEST_CODE cfg) with false
      by (symmetry; apply Z.eqb_neq; exact Hdiff).
    rewrite Z.eqb_refl. cbn [negb andb].
    rewrite ProcessStartupPacket_SSLdone_eq. reflexivity. }
  assert (Ht1 : sends (c_trace c1)
                = sends (c_trace c) ++ [(sock (c_port c), [answer])]).
  { subst c1. simpl. rewrite sends_app. reflexivity. }
  split; [|split; [|split; [|split]]].
  - rewrite Hr.
    destruct (negb (send_ok env)).
    { simpl snd. unfold c_emit at 1. simpl c_trace.
      rewrite sends_app, app_nil_r. exact Ht1. }
    destruct (USE_SSL cfg && Byte.eqb answer x53 && negb (secure_open_ok env)).
    { exact Ht1. }
    rewrite SSLdone_sends. exact Ht1.
  - apply SSLok_S.
  - apply SSLok_N.
  - intro Hunix.
    assert (Han : answer = x4e).
    { apply SSLok_N. intro HS. apply SSLok_S in HS.
      destruct HS as [_ [_ HS]]. congruence. }
    split; [exact Han|].
    intro Hsend. rewrite Hr, Hsend, Han. cbn [negb].
    rewrite andb_false_r. reflexivity.
  - intros body2 rest2. apply SSLdone_same.
Qed.

Lemma ssl_incoming :
  incoming_packet stock_config
    (new_conn unix_port (ssl_packet ++ alice_packet)) ssl_body alice_packet.
Proof.
  exists [x00; x00; x00; x08].
  split; [reflexivity|]. split; [reflexivity|].
  split; [vm_compute; reflexivity|].
  split; vm_compute; discriminate.
Defined.

(** Instance: negotiation on a Unix-domain socket, then a version 3.0
    startup packet. *)
Lemma ssl_negotiation_answer_unix :
  sends (c_trace (snd (ProcessStartupPacket stock_config quiet_env false
                         (new_conn unix_port (ssl_packet ++ alice_packet)))))
  = [(8, [x4e])]
  /\ fst (ProcessStartupPacket stock_config quiet_env false
            (new_conn unix_port (ssl_packet ++ alice_packet)))
     = PSP_return STATUS_OK.
Proof.
  destruct (ssl_negotiation_answer stock_config quiet_env
              (new_conn unix_port (ssl_packet ++ alice_packet))
              ssl_body alice_packet ssl_incoming)
    as [Hsend [_ [_ [Hunix _]]]].
  - vm_compute. reflexivity.
  - vm_compute. discriminate.
  - split.
    + rewrite Hsend. reflexivity.
    + destruct (Hunix eq_refl) as [_ Hgo]. rewrite (Hgo eq_refl).
      vm_compute. reflexivity.
Defined.

(** ** Starting a backend *)

(** BackendStartup, case by case on what the operating system answers. *)
Lemma BackendStartup_registry_parts (cfg : config) (port : Port) (s : pmstate) :
  let r := BackendStartup cfg port s in
  let s' := final r in
  let port' := with_canAcceptConnections (canAcceptConnections cfg s) port in
  MyCancelKey s' = next_random s
  /\ if negb (next_malloc s) then
       r = Ret STATUS_ERROR s'
       /\ BackendList s' = BackendList s
       /\ trace s' = trace s ++ [E_ereport LOG "out of memory"]
       /\ os_fork (os s') = os_fork (os s)
     else if next_fork s <? 0 then
       r = Ret STATUS_ERROR s'
       /\ BackendList s' = BackendList s
       /\ trace s' =
          trace s ++
          [E_call "fflush(stdout)"; E_call "fflush(stderr)";
           E_fork (next_fork s); E_call "free(bn)";
           E_ereport LOG "could not fork new process for connection: %m"]
          ++ (if next_noblock s
              then [E_send (sock port)
                      (fork_failure_packet cfg (next_errno s))]
              else [])
     else if next_fork s =? 0 then
       r = Child (BackendChild port') s'
       /\ BackendList s' = BackendList s
       /\ trace s' =
          trace s ++
          [E_call "fflush(stdout)"; E_call "fflush(stderr)";
           E_fork (next_fork s); E_call "free(bn)"]
     else
       r = Ret STATUS_OK s'
       /\ BackendList s' =
          mkBackend (next_fork s) (next_random s) :: BackendList s
       /\ trace s' =
          trace s ++
          [E_call "fflush(stdout)"; E_call "fflush(stderr)";
           E_fork (next_fork s);
           E_ereport DEBUG2 "forked new backend, pid=%d socket=%d"].
Proof.
  intros r s' port'. subst s' r port'.
  destruct s as [sd fe st bw ar stt lg bl key [fk rn ml nb er] tr].
  unfold next_malloc, next_fork, next_noblock, next_random, next_errno.
  cbn [os os_malloc os_fork os_noblock os_random os_errno].
  destruct ml as [|[|] ml]; cbn [hd negb].
  3:{ destruct rn; cbv -[app]; repeat split. }
  all: destruct fk as [|f fk]; cbn [hd].
  all: try (destruct (f =? 0) eqn:Hz; destruct (f <? 0) eqn:Hf; try lia).
  all: unfold BackendStartup, PostmasterRandom, report_fork_failure_to_client;
    unfold bind, random, malloc, fork, set_noblock, errno, modify, gets,
      ereport, call, become, ret, modify;
    cbn [os os_malloc os_fork os_noblock os_random os_errno set_os
         set_MyCancelKey emit hd tl negb MyCancelKey];
    rewrite ?Hf, ?Hz.
  all: destruct nb as [|[|] nb]; destruct rn; destruct er;
    cbn -[fork_failure_packet]; repeat split;
    rewrite <- ?app_assoc; reflexivity.
Qed.

Lemma cstring_no_nul (l : list byte) : ~ In x00 (cstring l).
Proof.
  induction l as [|b l IH]; simpl; [tauto|].
  unfold is_nul. destruct (Byte.eqb b x00) eqn:E; simpl; [tauto|].
  intros [H|H]; [|exact (IH H)].
  subst b. discriminate E.
Qed.

Lemma In_firstn_inv {A} (x : A) (n : nat) (l : list A) :
  In x (firstn n l) -> In x l.
Proof.
  intro H. rewrite <- (firstn_skipn n l). apply in_or_app. left. exact H.
Qed.

(** The packet for the client: 'E', the message, the error text of the
    system and a newline, closed by a NUL; no NUL before the last byte
    and never more than the 1000 bytes of the buffer. *)
Lemma fork_failure_packet_shape (cfg : config) (errnum : Z) :
  (exists body,
     fork_failure_packet cfg errnum = x45 :: body ++ [x00]
     /\ ~ In x00 body)
  /\ strlen (fork_failure_packet cfg errnum) <= 1000
  /\ (strlen (cstring (strerror cfg errnum)) <= 954 ->
      fork_failure_packet cfg errnum
      = list_byte_of_string "Ecould not fork new process for connection: "
        ++ cstring (strerror cfg errnum) ++ [x0a; x00]).
Proof.
  unfold fork_failure_packet.
  set (txt := cstring (strerror cfg errnum)).
  assert (Hnn : ~ In x00 txt) by apply cstring_no_nul.
  set (msg := list_byte_of_string
                "Ecould not fork new process for connection: ").
  assert (Hlen : List.length msg = 44%nat) by reflexivity.
  assert (Hm0 : ~ In x00 msg).
  { intro H. vm_compute in H. intuition discriminate. }
  assert (Hall : ~ In x00 (msg ++ txt ++ [x0a])).
  { intro H. apply in_app_or in H. destruct H as [H|H]; [exact (Hm0 H)|].
    apply in_app_or in H. destruct H as [H|H]; [exact (Hnn H)|].
    simpl in H. intuition discriminate. }
  split; [|split].
  - exists (firstn 998 (tl msg ++ txt ++ [x0a])). split.
    + reflexivity.
    + intro H. apply In_firstn_inv in H. apply Hall.
      change msg with (x45 :: tl msg). simpl. right. exact H.
  - unfold strlen. rewrite length_app, length_firstn. simpl List.length. lia.
  - intro Hs. unfold strlen in Hs.
    rewrite firstn_all2.
    + rewrite <- !app_assoc. reflexivity.
    + rewrite !length_app, Hlen. simpl List.length. lia.
Qed.

(** ... and by BackendStartup as long as [fork] hands out a pid that no
    entry of the list has (the pid of a child that has not been reaped
    is not given to another process). *)
Lemma registry_BackendStartup cfg port s :
  registry_ok s -> ~ In (next_fork s) (map pid (BackendList s)) ->
  registry_ok (final (BackendStartup cfg port s)).
Proof.
  intros Hok Hfresh.
  pose proof (BackendStartup_registry_parts cfg port s) as H.
  cbv zeta in H. destruct H as [_ H].
  unfold registry_ok, core in *.
  destruct (negb (next_malloc s)).
  { destruct H as [_ [-> _]]. exact Hok. }
  destruct (next_fork s <? 0).
  { destruct H as [_ [-> _]]. exact Hok. }
  destruct (next_fork s =? 0).
  { destruct H as [_ [-> _]]. exact Hok. }
  destruct H as [_ [-> _]]. simpl. constructor; assumption.
Qed.

(** C8.  BackendStartup and the backend list.  The cancel key is drawn
    first.  If the allocation of the list entry fails, the function
    logs it and returns STATUS_ERROR without calling [fork]: the list is
    as before.  If [fork] fails, the function frees the entry it had
    allocated, logs the failure, sets the socket non-blocking and, if
    that worked, calls [send] once with the error packet, then returns
    STATUS_ERROR to the main loop: the list is as before.  The packet is
    'E', the message with the system's text for the error number and a
    newline, closed by a NUL, in at most 1000 bytes.  Only when [fork]
    returned a pid is the entry, with that pid and the cancel key, put
    at the head of the list and STATUS_OK returned; it is not freed
    then.  (On the child side of the fork the process frees its copy of
    the entry and goes on as the backend, its copy of the list as
    before.) *)
Theorem BackendStartup_registry (cfg : config) (port : Port) (s : pmstate) :
  let r := BackendStartup cfg port s in
  let s' := final r in
  let port' := with_canAcceptConnections (canAcceptConnections cfg s) port in
  (MyCancelKey s' = next_random s
   /\ if negb (next_malloc s) then
        r = Ret STATUS_ERROR s'
        /\ BackendList s' = BackendList s
        /\ trace s' = trace s ++ [E_ereport LOG "out of memory"]
        /\ os_fork (os s') = os_fork (os s)
      else if next_fork s <? 0 then
        r = Ret STATUS_ERROR s'
        /\ BackendList s' = BackendList s
        /\ trace s' =
           trace s ++
           [E_call "fflush(stdout)"; E_call "fflush(stderr)";
            E_fork (next_fork s); E_call "free(bn)";
            E_ereport LOG "could not fork new process for connection: %m"]
           ++ (if next_noblock s
               then [E_send (sock port)
                       (fork_failure_packet cfg (next_errno s))]
               else [])
      else if next_fork s =? 0 then
        r = Child (BackendChild port') s'
        /\ BackendList s' = BackendList s
        /\ trace s' =
           trace s ++
           [E_call "fflush(stdout)"; E_call "fflush(stderr)";
            E_fork (next_fork s); E_call "free(bn)"]
      else
        r = Ret STATUS_OK s'
        /\ BackendList s' =
           mkBackend (next_fork s) (next_random s) :: BackendList s
        /\ trace s' =
           trace s ++
           [E_call "fflush(stdout)"; E_call "fflush(stderr)";
            E_fork (next_fork s);
            E_ereport DEBUG2 "forked new backend, pid=%d socket=%d"])
  /\ forall errnum,
       (exists body,
          fork_failure_packet cfg errnum = x45 :: body ++ [x00]
          /\ ~ In x00 body)
       /\ strlen (fork_failure_packet cfg errnum) <= 1000
       /\ (strlen (cstring (strerror cfg errnum)) <= 954 ->
           fork_failure_packet cfg errnum
           = list_byte_of_string
               "Ecould not fork new process for connection: "
             ++ cstring (strerror cfg errnum) ++ [x0a; x00]).
Proof.
  intros r s' port'. split.
  - exact (BackendStartup_registry_parts cfg port s).
  - intro errnum. exact (fork_failure_packet_shape cfg errnum).
Qed.

(** Instance: [fork] fails with EAGAIN for a connection on socket 7 of a
    running postmaster. *)
Lemma BackendStartup_registry_no_process :
  exists s',
    BackendStartup stock_config tcp_port (running_state (-1))
    = Ret STATUS_ERROR s'
    /\ BackendList s' = BackendList (running_state (-1))
    /\ trace s' =
       trace (running_state (-1)) ++
       [E_call "fflush(stdout)"; E_call "fflush(stderr)"; E_fork (-1);
        E_call "free(bn)";
        E_ereport LOG "could not fork new process for connection: %m";
        E_send 7
          (list_byte_of_string
             "Ecould not fork new process for connection: Resource temporarily unavailable"
           ++ [x0a; x00])].
Proof.
  destruct (BackendStartup_registry stock_config tcp_port (running_state (-1)))
    as [[_ H] _].
  change (negb (next_malloc (running_state (-1)))) with false in H.
  change (next_fork (running_state (-1)) <? 0) with true in H.
  cbv beta iota in H.
  destruct H as (Hr & Hbl & Htr).
  eexists. split; [exact Hr|]. split; [exact Hbl|].
  rewrite Htr. vm_compute. reflexivity.
Defined.

(** ** Unsupported protocol versions *)

(** With the packet at hand the child finds the unsupported version
    straight away: nothing is signalled, sent or logged before the
    FATAL report. *)
Lemma BackendRun_unsupported cfg env port input body rest :
  incoming_packet cfg (new_conn port input) body rest ->
  is_version cfg false (ntohl_at body 0) ->
  unsupported_protocol cfg (ntohl_at body 0) = true ->
  exists msg c',
    BackendRun cfg env port input
    = (BE_fatal ERRCODE_FEATURE_NOT_SUPPORTED msg, c')
    /\ c_trace c' = [].
Proof.
  intros Hpkt Hver Hun. unfold BackendRun.
  rewrite (ProcessStartupPacket_packet cfg env false _ body rest Hpkt).
  assert (Hlen : 4 <= strlen body)
    by (destruct Hpkt as [lb [_ [_ [_ H]]]]; lia).
  destruct (handle_packet_version cfg env (ProcessStartupPacket_SSLdone cfg env)
              false body (after_packet (new_conn port input) rest) Hlen Hver)
    as [Hrej _].
  destruct (Hrej Hun) as [msg Hr]. rewrite Hr.
  do 2 eexists. split; reflexivity.
Qed.

(** C5 (as amended).  The backend for a connection is forked, and its
    entry put into the backend list, before anything is read from the
    client: with memory and a process to be had, BackendStartup returns
    STATUS_OK with the new entry at the head of the list, whatever the
    client is about to send.  It is the forked child that reads the
    startup packet; when the major number of its protocol version is
    above the latest supported, the child reports the unsupported
    protocol as a FATAL error, having signalled, sent and logged nothing
    before. *)
Theorem unsupported_major_rejected_by_child (cfg : config) (env : child_env)
    (s : pmstate) (port cport : Port) (input body rest : list byte) :
  next_malloc s = true -> next_fork s > 0 ->
  incoming_packet cfg (new_conn cport input) body rest ->
  is_version cfg false (ntohl_at body 0) ->
  PG_PROTOCOL_MAJOR cfg (ntohl_at body 0)
    > PG_PROTOCOL_MAJOR cfg (PG_PROTOCOL_LATEST cfg) ->
  (exists s',
      BackendStartup cfg port s = Ret STATUS_OK s'
      /\ BackendList s' =
         mkBackend (next_fork s) (next_random s) :: BackendList s
      /\ In (E_fork (next_fork s)) (trace s'))
  /\ (exists msg c',
         BackendRun cfg env cport input
         = (BE_fatal ERRCODE_FEATURE_NOT_SUPPORTED msg, c')
         /\ c_trace c' = []).
Proof.
  intros Hm Hf Hpkt Hver Hmaj. split.
  - pose proof (BackendStartup_registry_parts cfg port s) as H.
    cbv zeta in H. destruct H as [_ H].
    rewrite Hm in H. cbn [negb] in H.
    replace (next_fork s <? 0) with false in H by lia.
    replace (next_fork s =? 0) with false in H by lia.
    destruct H as [Hr [Hbl Htr]].
    exists (final (BackendStartup cfg port s)).
    split; [exact Hr|]. split; [exact Hbl|].
    rewrite Htr. apply in_or_app. right. simpl. auto.
  - apply (BackendRun_unsupported cfg env cport input body rest Hpkt Hver).
    apply unsupported_protocol_iff. right. left. exact Hmaj.
Qed.

Lemma v4_incoming :
  incoming_packet stock_config (new_conn tcp_port v4_packet) v4_body [].
Proof.
  exists [x00; x00; x00; x08].
  split; [reflexivity|]. split; [reflexivity|].
  split; [vm_compute; reflexivity|].
  split; vm_compute; discriminate.
Defined.

Lemma v4_is_version : is_version stock_config false (ntohl_at v4_body 0).
Proof.
  split.
  - vm_compute. discriminate.
  - intro H. vm_compute in H. discriminate.
Defined.

(** Instance: version 4.0 arriving at a running postmaster. *)
Lemma unsupported_major_rejected_by_child_v4 :
  (exists s',
      BackendStartup stock_config tcp_port (running_state 200)
      = Ret STATUS_OK s'
      /\ BackendList s' = [mkBackend 200 11]
      /\ In (E_fork 200) (trace s'))
  /\ (exists msg c',
         BackendRun stock_config quiet_env tcp_port v4_packet
         = (BE_fatal ERRCODE_FEATURE_NOT_SUPPORTED msg, c')
         /\ c_trace c' = []).
Proof.
  exact (unsupported_major_rejected_by_child stock_config quiet_env
           (running_state 200) tcp_port tcp_port v4_packet v4_body []
           eq_refl eq_refl v4_incoming v4_is_version eq_refl).
Defined.

(** C5 as stated does not hold.  A connection is accepted on a running
    postmaster with an empty backend list, and the client sends version
    4.0.  On the parent side of the fork the pass of the main loop ends
    with backend 200 forked and entered in the list; on the child side
    the process is the backend for the connection, and it is there that
    the packet is read and refused. *)
Lemma unsupported_protocol_spawns_and_registers :
  BackendList (running_state 200) = []
  /\ (exists s',
         ServerLoop_pass stock_config [Some (7, AF_INET)] (running_state 200)
         = Ret tt s'
         /\ BackendList s' = [mkBackend 200 555]
         /\ In (E_fork 200) (trace s'))
  /\ (exists s',
         ServerLoop_pass stock_config [Some (7, AF_INET)] (running_state 0)
         = Child (BackendChild tcp_port) s'
         /\ fst (BackendRun stock_config
                   (mkChildEnv (BackendList s') true true) tcp_port v4_packet)
            = BE_fatal ERRCODE_FEATURE_NOT_SUPPORTED
                "unsupported frontend protocol %u.%u: server supports %u.0 to %u.%u").
Proof.
  split; [reflexivity|]. split.
  - eexists. split; [vm_compute; reflexivity|].
    split; [reflexivity|]. vm_compute. tauto.
  - eexists. split; [vm_compute; reflexivity|]. vm_compute. reflexivity.
Qed.

(** ** The terminator of a version 3 packet *)

(** The loop of [scan_options] comes to its end within the fuel
    ProcessStartupPacket gives it. *)
Lemma scan_options_fuel fuel buf len : forall offset p,
  (0 < fuel)%nat -> len - offset < Z.of_nat fuel ->
  exists r, scan_options fuel buf len offset p = Some r.
Proof.
  induction fuel as [|fuel IH]; intros offset p Hpos Hlt; [lia|].
  simpl.
  destruct (Z.ltb_spec offset len) as [Hin|]; [|eexists; reflexivity].
  destruct (is_nul (byte_at buf offset)); [eexists; reflexivity|].
  destruct (_ >=? len); [eexists; reflexivity|].
  apply IH; unfold strlen; lia.
Qed.

Lemma scan_options_total buf len p :
  0 <= len ->
  exists r, scan_options (S (Z.to_nat len)) buf len 4 p = Some r.
Proof. intro H. apply scan_options_fuel; lia. Qed.

(** A C string that ends before the end of [l1] does not depend on
    what follows [l1]. *)
Lemma cstring_app_short (l1 l2 l2' : list byte) :
  (List.length (cstring (l1 ++ l2)) < List.length l1)%nat ->
  cstring (l1 ++ l2') = cstring (l1 ++ l2).
Proof.
  induction l1 as [|a l1 IH]; simpl; intro H; [lia|].
  destruct (is_nul a); [reflexivity|].
  simpl in H. f_equal. apply IH. lia.
Qed.

Lemma cstring_at_app (pre rest : list byte) (o : Z) :
  0 <= o <= strlen pre ->
  cstring_at (pre ++ rest) o = cstring (skipn (Z.to_nat o) pre ++ rest).
Proof.
  intro H. unfold cstring_at, strlen in *.
  rewrite skipn_app.
  replace (Z.to_nat o - List.length pre)%nat with O by lia.
  reflexivity.
Qed.

Lemma cstring_at_short (pre rest rest' : list byte) (o : Z) :
  0 <= o <= strlen pre ->
  o + strlen (cstring_at (pre ++ rest) o) < strlen pre ->
  cstring_at (pre ++ rest') o = cstring_at (pre ++ rest) o.
Proof.
  intros Ho Hshort.
  rewrite !cstring_at_app by exact Ho.
  rewrite cstring_at_app in Hshort by exact Ho.
  apply cstring_app_short.
  unfold strlen in *. rewrite length_skipn. lia.
Qed.

Lemma byte_at_pre (pre rest : list byte) (o : Z) :
  0 <= o < strlen pre -> byte_at (pre ++ rest) o = byte_at pre o.
Proof. intro H. unfold byte_at, strlen in *. apply app_nth1. lia. Qed.

Lemma byte_at_last (pre : list byte) (t : byte) (rest : list byte) :
  byte_at (pre ++ t :: rest) (strlen pre) = t.
Proof.
  unfold byte_at, strlen. rewrite Nat2Z.id.
  rewrite app_nth2 by lia. rewrite Nat.sub_diag. reflexivity.
Qed.

(** The loop of [scan_options] on a packet whose last byte is NUL and on
    the packet with another last byte ([z], what follows the packet in
    the buffer, begins with a NUL): if the first run stops on the
    terminator at the last byte, the second stops at the same offset with
    the same settings. *)
Lemma scan_options_last_byte (pre : list byte) (b : byte) (z : list byte) :
  cstring z = [] ->
  forall fuel offset p p',
    0 <= offset <= strlen pre ->
    scan_options fuel (pre ++ x00 :: z) (strlen pre + 1) offset p
    = Some (strlen pre, p') ->
    scan_options fuel (pre ++ b :: z) (strlen pre + 1) offset p
    = Some (strlen pre, p').
Proof.
  intro Hz. set (L := strlen pre).
  induction fuel as [|fuel IH]; intros offset p p' Ho H;
    [discriminate|].
  cbn [scan_options] in H |- *.
  destruct (Z.ltb_spec offset (L + 1)) as [_|]; [|lia].
  destruct (Z.eq_dec offset L) as [HL|HL].
  - (* the last byte *)
    subst offset. unfold L in *.
    rewrite byte_at_last in H |- *.
    change (is_nul x00) with true in H. inversion H. subst p'.
    destruct (is_nul b) eqn:Eb; [reflexivity|].
    rewrite cstring_at_app by lia.
    rewrite skipn_all2 by (unfold strlen; lia).
    cbn [app cstring]. rewrite Eb, Hz.
    destruct (Z.geb_spec (strlen pre + strlen [b] + 1) (strlen pre + 1))
      as [_|Hc]; [reflexivity|].
    unfold strlen in Hc. simpl in Hc. lia.
  - (* a byte before the last *)
    assert (Ho' : 0 <= offset < L) by lia.
    rewrite byte_at_pre in H |- * by exact Ho'.
    destruct (is_nul (byte_at pre offset)).
    { inversion H. lia. }
    set (name := cstring_at (pre ++ x00 :: z) offset) in *.
    destruct (Z.geb_spec (offset + strlen name + 1) (L + 1)) as [|Hv].
    { inversion H. lia. }
    assert (Hname : cstring_at (pre ++ b :: z) offset = name).
    { apply cstring_at_short; [lia|]. fold name. fold L. lia. }
    rewrite Hname.
    destruct (Z.geb_spec (offset + strlen name + 1) (L + 1)) as [|_]; [lia|].
    set (vo := offset + strlen name + 1) in *.
    set (val := cstring_at (pre ++ x00 :: z) vo) in *.
    assert (Hnext : vo + strlen val + 1 <= L).
    { destruct (Z.le_gt_cases (vo + strlen val + 1) L) as [|Hgt]; [assumption|].
      exfalso. destruct fuel as [|fuel']; [discriminate|].
      cbn [scan_options] in H.
      destruct (Z.ltb_spec (vo + strlen val + 1) (L + 1)); [lia|].
      inversion H. lia. }
    assert (Hvo : 0 <= vo <= L)
      by (unfold vo, strlen in *; lia).
    assert (Hval : cstring_at (pre ++ b :: z) vo = val).
    { apply cstring_at_short; [exact Hvo|]. fold val. fold L. lia. }
    rewrite Hval.
    apply IH; [unfold vo, strlen in *; lia | exact H].
Qed.

(** The general form of the failure of C9.  Take any packet of version
    3 or later that ends in a NUL byte and is not refused for its layout,
    and overwrite that last byte with any byte whatever: the packet is
    treated exactly as before.  The last byte of the packet is never
    required to be the terminator. *)
Lemma last_byte_not_examined cfg env again SSLdone (pre : list byte)
    (b : byte) (c : conn) :
  4 <= strlen pre ->
  is_version cfg SSLdone (ntohl_at pre 0) ->
  unsupported_protocol cfg (ntohl_at pre 0) = false ->
  PG_PROTOCOL_MAJOR cfg (ntohl_at pre 0) >= 3 ->
  (forall msg,
      fst (handle_packet cfg env again SSLdone (strlen pre + 1)
             (pre ++ [x00]) c)
      <> PSP_fatal ERRCODE_PROTOCOL_VIOLATION msg) ->
  handle_packet cfg env again SSLdone (strlen pre + 1) (pre ++ [b]) c
  = handle_packet cfg env again SSLdone (strlen pre + 1) (pre ++ [x00]) c.
Proof.
  intros Hlen [Hnc Hns] Hsup Hmaj Hok.
  assert (Hbuf : forall t,
    startup_buffer cfg (strlen pre + 1) (pre ++ [t])
    = pre ++ t :: repeat x00
        (S (Z.to_nat (Z.max (strlen pre + 1) (sizeof_StartupPacket cfg)
                      - (strlen pre + 1))))).
  { intro t. unfold startup_buffer. rewrite <- app_assoc. simpl.
    f_equal. f_equal.
    replace (Z.to_nat (Z.max (strlen pre + 1) (sizeof_StartupPacket cfg) + 1
                       - (strlen pre + 1)))
      with (S (Z.to_nat (Z.max (strlen pre + 1) (sizeof_StartupPacket cfg)
                         - (strlen pre + 1)))) by lia.
    reflexivity. }
  assert (Hproto : forall t,
    ntohl_at (startup_buffer cfg (strlen pre + 1) (pre ++ [t])) 0
    = ntohl_at pre 0).
  { intro t. rewrite Hbuf. unfold ntohl_at.
    rewrite !byte_at_pre by lia. reflexivity. }
  revert Hok. unfold handle_packet. cbv zeta.
  rewrite !Hproto. set (v := ntohl_at pre 0) in *.
  replace (v =? CANCEL_REQUEST_CODE cfg) with false
    by (symmetry; apply Z.eqb_neq; exact Hnc).
  assert (Hssl : (v =? NEGOTIATE_SSL_CODE cfg) && negb SSLdone = false).
  { destruct (v =? NEGOTIATE_SSL_CODE cfg) eqn:E; [|reflexivity].
    apply Z.eqb_eq in E. rewrite (Hns E). reflexivity. }
  rewrite Hssl, Hsup.
  replace (PG_PROTOCOL_MAJOR cfg v >=? 3) with true by lia.
  rewrite !Hbuf.
  set (z := repeat x00 (S _)).
  assert (Hz : cstring z = []) by reflexivity. clearbody z.
  set (p0 := with_guc_options [] _).
  destruct (scan_options (S (Z.to_nat (strlen pre + 1)))
              (pre ++ x00 :: z) (strlen pre + 1) 4 p0)
    as [[offset p]|] eqn:S0.
  2:{ destruct (scan_options_fuel (S (Z.to_nat (strlen pre + 1)))
                  (pre ++ x00 :: z) (strlen pre + 1) 4 p0)
        as [r Hr]; [lia | unfold strlen; lia | congruence]. }
  destruct (Z.eqb_spec offset (strlen pre + 1 - 1)) as [He|Hne].
  - intros _. subst offset.
    replace (strlen pre + 1 - 1) with (strlen pre) in * by lia.
    rewrite (scan_options_last_byte pre b z Hz _ 4 p0 p) by (lia || exact S0).
    rewrite Z.eqb_refl. reflexivity.
  - cbn [negb]. intro Hok. exfalso. exact (Hok _ eq_refl).
Qed.

(** C9 fails on the code.  The packet [stray_packet] announces a body of
    sixteen bytes: version 3.0, the pair user/alice, and a last byte 'X'
    where the terminator should be.  No NUL byte of the body follows
    another one, so none of its strings is empty: the list of pairs has
    no terminator.  ProcessStartupPacket nevertheless returns STATUS_OK
    for it, with the user name taken from the packet: it treats it
    exactly as the well-formed [alice_packet].  The test at the end of
    the scan does catch a packet that is cut short before the terminator
    ([cut_packet]) and one with a byte after the terminator
    ([long_packet]). *)
Theorem missing_terminator_accepted :
  byte_at stray_body (strlen stray_body - 1) = x58
  /\ (forall i, 4 <= i < strlen stray_body ->
        is_nul (byte_at stray_body i) = true ->
        is_nul (byte_at stray_body (i - 1)) = false)
  /\ fst (ProcessStartupPacket stock_config quiet_env false
            (new_conn tcp_port stray_packet)) = PSP_return STATUS_OK
  /\ user_name (c_port (snd (ProcessStartupPacket stock_config quiet_env false
                               (new_conn tcp_port stray_packet))))
     = Some (list_byte_of_string "alice")
  /\ ProcessStartupPacket stock_config quiet_env false
       (new_conn tcp_port stray_packet)
     = ProcessStartupPacket stock_config quiet_env false
         (new_conn tcp_port alice_packet)
  /\ fst (ProcessStartupPacket stock_config quiet_env false
            (new_conn tcp_port cut_packet))
     = PSP_fatal ERRCODE_PROTOCOL_VIOLATION
         "invalid startup packet layout: expected terminator as last byte"
  /\ fst (ProcessStartupPacket stock_config quiet_env false
            (new_conn tcp_port long_packet))
     = PSP_fatal ERRCODE_PROTOCOL_VIOLATION
         "invalid startup packet layout: expected terminator as last byte".
Proof.
  split; [reflexivity|]. split.
  - intros i Hi. change (strlen stray_body) with 16 in Hi.
    assert (Hcases : i = 4 \/ i = 5 \/ i = 6 \/ i = 7 \/ i = 8 \/ i = 9
                     \/ i = 10 \/ i = 11 \/ i = 12 \/ i = 13 \/ i = 14
                     \/ i = 15) by lia.
    repeat (destruct Hcases as [-> | Hcases]); try subst i;
      vm_compute; intros; congruence.
  - repeat split; vm_compute; reflexivity.
Qed.

(** * Further properties *)

(** ** Traces *)

Lemma signals_app a b : signals (a ++ b) = signals a ++ signals b.
Proof.
  induction a as [|e a IH]; [reflexivity|].
  destruct e; simpl; rewrite IH; reflexivity.
Qed.

Lemma forks_app a b : forks (a ++ b) = forks a ++ forks b.
Proof.
  induction a as [|e a IH]; [reflexivity|].
  destruct e; simpl; rewrite IH; reflexivity.
Qed.

Lemma log_lines_app a b : log_lines (a ++ b) = log_lines a ++ log_lines b.
Proof.
  induction a as [|e a IH]; [reflexivity|].
  destruct e as [| lev msg | | |]; simpl; try (rewrite IH; reflexivity).
  destruct lev; simpl; rewrite IH; reflexivity.
Qed.

Lemma emits_nil s : emits [] s = s.
Proof. destruct s. unfold emits. simpl. rewrite app_nil_r. reflexivity. Qed.

Lemma emits_emits l1 l2 s : emits l2 (emits l1 s) = emits (l1 ++ l2) s.
Proof. unfold emits. simpl. rewrite app_assoc. reflexivity. Qed.

(** A loop whose body only adds to the trace adds the bodies' effects
    in the order of the list. *)
Lemma for_each_emits {A} (l : list A) (g : A -> list effect)
    (f : A -> PM unit) :
  (forall x s, f x s = Ret tt (emits (g x) s)) ->
  forall s, for_each l f s = Ret tt (emits (flat_map g l) s).
Proof.
  intros Hf. induction l as [|x l IH]; intro s; simpl.
  - unfold ret. rewrite emits_nil. reflexivity.
  - unfold bind. rewrite Hf, IH, emits_emits. reflexivity.
Qed.

Lemma SignalChildren_emits sig s :
  SignalChildren sig s =
  Ret tt (emits (flat_map (fun bp =>
                   [E_ereport DEBUG4 "sending signal %d to process %d";
                    E_kill (pid bp) sig]) (BackendList s)) s).
Proof.
  unfold SignalChildren, bind, gets at 1.
  apply for_each_emits. intros x s0.
  unfold bind, ereport, kill, modify, emits, emit. simpl.
  rewrite <- app_assoc. reflexivity.
Qed.

Lemma signals_SignalChildren sig (l : list Backend) :
  signals (flat_map (fun bp =>
             [E_ereport DEBUG4 "sending signal %d to process %d";
              E_kill (pid bp) sig]) l)
  = map (fun bp => (pid bp, sig)) l.
Proof. induction l as [|bp l IH]; simpl; [|rewrite IH]; reflexivity. Qed.

Lemma crash_scan_emits cfg dead l : forall s,
  crash_scan cfg dead l s
  = Ret (filter (fun bp => negb (pid bp =? dead)) l)
        (emits (flat_map (fun bp =>
                  if pid bp =? dead then [E_call "pgstat_beterm"]
                  else if FatalError s then []
                  else [E_ereport DEBUG2 "sending %s to process %d";
                        E_kill (pid bp) (quit_signal cfg)]) l) s).
Proof.
  induction l as [|bp l IH]; intro s.
  - simpl. unfold ret. rewrite emits_nil. reflexivity.
  - cbn [crash_scan filter flat_map]. destruct (pid bp =? dead).
    + unfold bind at 1, call at 1, modify at 1. rewrite IH.
      cbn [negb]. change (emit ?e s) with (emits [e] s).
      rewrite emits_emits. reflexivity.
    + unfold bind at 1, gets at 1. unfold bind at 1.
      cbn [negb]. destruct (FatalError s) eqn:Hfe.
      * cbn [negb when]. unfold ret at 1. unfold bind at 1. rewrite IH.
        rewrite Hfe. reflexivity.
      * cbn [negb when]. unfold bind at 2. unfold ereport at 1, modify at 1.
        unfold kill at 1, modify at 1. unfold bind at 1. rewrite IH.
        change (emit ?e (emit ?e' s)) with (emits [e] (emits [e'] s)).
        rewrite !emits_emits. cbn [FatalError emits]. rewrite Hfe.
        reflexivity.
Qed.

Lemma signals_crash_scan cfg dead (fe : bool) (l : list Backend) :
  signals (flat_map (fun bp =>
             if pid bp =? dead then [E_call "pgstat_beterm"]
             else if fe then []
             else [E_ereport DEBUG2 "sending %s to process %d";
                   E_kill (pid bp) (quit_signal cfg)]) l)
  = if fe then @nil (Z * signal)
    else map (fun bp => (pid bp, quit_signal cfg))
             (filter (fun bp => negb (pid bp =? dead)) l).
Proof.
  induction l as [|bp l IH]; simpl.
  - destruct fe; reflexivity.
  - rewrite signals_app, IH.
    destruct (pid bp =? dead); destruct fe; reflexivity.
Qed.

Lemma log_lines_crash_scan cfg dead (fe : bool) (l : list Backend) :
  log_lines (flat_map (fun bp =>
             if pid bp =? dead then [E_call "pgstat_beterm"]
             else if fe then []
             else [E_ereport DEBUG2 "sending %s to process %d";
                   E_kill (pid bp) (quit_signal cfg)]) l) = [].
Proof.
  induction l as [|bp l IH]; simpl; [reflexivity|].
  rewrite log_lines_app, IH.
  destruct (pid bp =? dead); destruct fe; reflexivity.
Qed.

Lemma signals_crash_first cfg dead (l : list Backend) :
  signals (flat_map (fun bp =>
             if pid bp =? dead then [E_call "pgstat_beterm"]
             else [E_ereport DEBUG2 "sending %s to process %d";
                   E_kill (pid bp) (quit_signal cfg)]) l)
  = map (fun bp => (pid bp, quit_signal cfg))
        (filter (fun bp => negb (pid bp =? dead)) l).
Proof. exact (signals_crash_scan cfg dead false l). Qed.

Lemma signals_crash_again dead (l : list Backend) :
  signals (flat_map (fun bp =>
             if pid bp =? dead then [E_call "pgstat_beterm"] else []) l)
  = [].
Proof. exact (signals_crash_scan stock_config dead true l). Qed.

Lemma log_lines_crash_again dead (l : list Backend) :
  log_lines (flat_map (fun bp =>
             if pid bp =? dead then [E_call "pgstat_beterm"] else []) l)
  = [].
Proof. exact (log_lines_crash_scan stock_config dead true l). Qed.

Lemma added_app s s' l : trace s' = trace s ++ l -> added s s' = l.
Proof.
  intro H. unfold added. rewrite H.
  generalize (trace s) as t. intro t.
  induction t as [|e t IH]; simpl; auto.
Qed.

(** Runs a postmaster computation on a state given by its fields. *)
Lemma remove_first_head bp l : remove_first (pid bp) (bp :: l) = Some l.
Proof. simpl. rewrite Z.eqb_refl. reflexivity. Qed.

(** *** Running a computation on a state given by its fields *)

Ltac pm_norm :=
  cbv beta iota zeta delta
    [bind ret gets modify when ereport kill call ExitPostmaster become
     fork random malloc set_noblock errno
     emit emits set_Shutdown set_FatalError set_StartupPID set_BgWriterPID
     set_PgArchPID set_PgStatPID set_SysLoggerPID set_BackendList
     set_MyCancelKey set_os
     Shutdown FatalError StartupPID BgWriterPID PgArchPID PgStatPID
     SysLoggerPID BackendList MyCancelKey os trace
     os_fork os_random os_malloc os_noblock os_errno
     negb andb orb final DLGetHead_nonnull].

Ltac pm_known :=
  match goal with
  | H : ?c = true |- context [?c] => rewrite H
  | H : ?c = false |- context [?c] => rewrite H
  end.

(** Runs a computation as far as its branches are decided. *)
Ltac pm_go :=
  pm_norm;
  repeat (progress (try change (0 =? 0) with true;
                    rewrite ?Z.eqb_refl, ?SignalChildren_emits,
                      ?crash_scan_emits, ?remove_first_head;
                    try pm_known; pm_norm)).

(** Runs a computation, splitting on the comparisons it meets. *)
Ltac pm_cases :=
  pm_go;
  repeat (match goal with
          | |- context [Z.eqb ?a ?b] => destruct (Z.eqb a b) eqn:?
          | |- context [Z.ltb ?a ?b] => destruct (Z.ltb a b) eqn:?
          | |- context [Z.gtb ?a ?b] => destruct (Z.gtb a b) eqn:?
          | |- context [Z.leb ?a ?b] => destruct (Z.leb a b) eqn:?
          | |- context [Z.geb ?a ?b] => destruct (Z.geb a b) eqn:?
          end; pm_go).

Lemma added_same s s' : trace s' = trace s -> added s s' = [].
Proof.
  intro H. apply added_app. rewrite app_nil_r. exact H.
Qed.

Ltac added_trace :=
  first
    [ rewrite added_same by reflexivity
    | erewrite added_app
        by (cbn [trace]; rewrite <- ?app_assoc; reflexivity) ].

(** Shows that a state written out by fields is the start state with
    some effects added. *)
Ltac emits_eq :=
  unfold emits;
  cbn [Shutdown FatalError StartupPID BgWriterPID PgArchPID PgStatPID
       SysLoggerPID BackendList MyCancelKey os trace];
  rewrite <- ?app_assoc; reflexivity.

(** Turns boolean comparisons among the hypotheses into (in)equalities
    for [lia]. *)
Ltac z_props :=
  repeat match goal with
         | H : (_ =? _) = true |- _ => apply Z.eqb_eq in H
         | H : (_ =? _) = false |- _ => apply Z.eqb_neq in H
         | H : (_ <? _) = true |- _ => apply Z.ltb_lt in H
         | H : (_ <? _) = false |- _ => apply Z.ltb_ge in H
         | H : (_ <=? _) = true |- _ => apply Z.leb_le in H
         | H : (_ <=? _) = false |- _ => apply Z.leb_gt in H
         | H : (_ >? _) = true |- _ => rewrite Z.gtb_ltb in H
         | H : (_ >? _) = false |- _ => rewrite Z.gtb_ltb in H
         | H : (_ >=? _) = true |- _ => rewrite Z.geb_leb in H
         | H : (_ >=? _) = false |- _ => rewrite Z.geb_leb in H
         end.

Ltac z_absurd :=
  exfalso; z_props; unfold NoShutdown, SmartShutdown, FastShutdown in *;
  first [lia | congruence].

(** ** Signals *)

(** X1. SignalChildren sends the signal to every backend on the list,
    once each and in list order, and to nobody else; it starts no
    process, writes nothing to the server log and leaves every variable
    of the postmaster as it was. *)
Theorem SignalChildren_reaches_every_backend (sig : signal) (s : pmstate) :
  exists l,
    SignalChildren sig s = Ret tt (emits l s)
    /\ signals l = map (fun bp => (pid bp, sig)) (BackendList s)
    /\ forks l = [] /\ log_lines l = [].
Proof.
  eexists. split; [apply SignalChildren_emits|].
  generalize (BackendList s) as bl. intro bl.
  split; [apply signals_SignalChildren|].
  split; induction bl as [|bp bl IH]; simpl; auto.
Qed.

(** X2. HandleChildCrash sets FatalError, unlinks every entry of the
    dead pid and returns.  On the first crash (FatalError not yet set)
    it signals, in this order, every remaining backend and the
    background writer (SIGSTOP with SendStop, else SIGQUIT; the writer
    only if it runs and is not the dead child), then archiver and
    statistics collector (always SIGQUIT), and logs two lines; when
    FatalError was set already it signals nobody and logs nothing.  The
    startup process and the system logger are never signalled. *)
Theorem HandleChildCrash_effects (cfg : config) (p st : Z) (name : string)
    (s : pmstate) :
  exists s',
    HandleChildCrash cfg p st name s = Ret tt s'
    /\ FatalError s' = true
    /\ BackendList s'
       = filter (fun bp => negb (pid bp =? p)) (BackendList s)
    /\ BgWriterPID s' = (if p =? BgWriterPID s then 0 else BgWriterPID s)
    /\ signals (added s s')
       = (if FatalError s then []
          else
            map (fun bp => (pid bp, quit_signal cfg)) (BackendList s')
            ++ (if (p =? BgWriterPID s) || (BgWriterPID s =? 0) then []
                else [(BgWriterPID s, quit_signal cfg)])
            ++ (if PgArchPID s =? 0 then [] else [(PgArchPID s, SIGQUIT)])
            ++ (if PgStatPID s =? 0 then [] else [(PgStatPID s, SIGQUIT)]))
    /\ log_lines (added s s')
       = (if FatalError s then []
          else [LogChildExit_text cfg name st;
                "terminating any other active server processes"%string]).
Proof.
  destruct s as [sd fe stp bgw arch stat lg bl key o tr].
  unfold HandleChildCrash. rewrite ?LogChildExit_eq. destruct fe.
  - pm_cases;
      (eexists; split; [reflexivity|]; split; [reflexivity|];
       split; [reflexivity|]; split; [reflexivity|];
       added_trace; rewrite ?app_nil_r;
       split; [apply signals_crash_again | apply log_lines_crash_again]).
  - pm_cases;
      (eexists; split; [reflexivity|]; split; [reflexivity|];
       split; [reflexivity|]; split; [reflexivity|];
       added_trace;
       rewrite ?signals_app, ?log_lines_app, signals_crash_first,
         (log_lines_crash_scan cfg p false);
       cbn [signals log_lines app BackendList]; rewrite ?app_nil_r;
       split; reflexivity).
Qed.

Lemma remove_first_None p l :
  remove_first p l = None -> forall bp, In bp l -> pid bp <> p.
Proof.
  induction l as [|b l IH]; simpl; [tauto|].
  destruct (pid b =? p) eqn:E; [discriminate|].
  destruct (remove_first p l); [discriminate|].
  intros _ bp [<-|Hin]; [apply Z.eqb_neq; exact E | apply IH; auto].
Qed.

Lemma remove_first_Some p l l' :
  remove_first p l = Some l' ->
  exists l1 bp l2,
    l = l1 ++ bp :: l2 /\ pid bp = p
    /\ (forall b, In b l1 -> pid b <> p) /\ l' = l1 ++ l2.
Proof.
  revert l'. induction l as [|b l IH]; simpl; [discriminate|].
  intro l'. destruct (pid b =? p) eqn:E.
  - intro H. injection H as <-. exists [], b, l.
    split; [reflexivity|]. split; [apply Z.eqb_eq; exact E|].
    split; [intros ? []|reflexivity].
  - destruct (remove_first p l) as [r|]; [|discriminate].
    intro H. injection H as <-.
    destruct (IH r eq_refl) as (l1 & bp & l2 & -> & Hp & Hl1 & ->).
    exists (b :: l1), bp, l2. split; [reflexivity|]. split; [exact Hp|].
    split; [|reflexivity].
    intros b0 [<-|Hin]; [apply Z.eqb_neq; exact E | apply Hl1; exact Hin].
Qed.

(** X3. A backend that exits with status 0 is cleaned up quietly: the
    first list entry with its pid, and only that one, is unlinked (the
    list stays as it is when there is none), nobody is signalled,
    nothing reaches the server log and FatalError keeps its value. *)
Theorem CleanupBackend_clean_exit (cfg : config) (p : Z) (s : pmstate) :
  exists s',
    CleanupBackend cfg p 0 s = Ret tt s'
    /\ FatalError s' = FatalError s
    /\ signals (added s s') = [] /\ log_lines (added s s') = []
    /\ ((forall bp, In bp (BackendList s) -> pid bp <> p)
        /\ BackendList s' = BackendList s
        \/ exists l1 bp l2,
             BackendList s = l1 ++ bp :: l2 /\ pid bp = p
             /\ (forall b, In b l1 -> pid b <> p)
             /\ BackendList s' = l1 ++ l2).
Proof.
  destruct s as [sd fe stp bgw arch stat lg bl key o tr].
  unfold CleanupBackend. rewrite ?LogChildExit_eq. pm_go.
  destruct (remove_first p bl) as [bl'|] eqn:E; pm_go;
    (eexists; split; [reflexivity|]; split; [reflexivity|];
     added_trace; split; [reflexivity|]; split; [reflexivity|]).
  - right. apply remove_first_Some. exact E.
  - left. split; [apply remove_first_None; exact E | reflexivity].
Qed.

(** X4. An immediate shutdown request (SIGQUIT) always ends the
    postmaster with exit status 0, whatever its state: SIGQUIT goes to
    the startup process, the background writer, the archiver and the
    statistics collector (those that run) and then to every backend; the
    system logger is not signalled, and neither the shutdown level nor
    the backend list is changed. *)
Theorem pmdie_SIGQUIT_exits (s : pmstate) :
  exists s',
    pmdie SIGQUIT s = Exit 0 s'
    /\ Shutdown s' = Shutdown s /\ BackendList s' = BackendList s
    /\ signals (added s s')
       = (if StartupPID s =? 0 then [] else [(StartupPID s, SIGQUIT)])
         ++ (if BgWriterPID s =? 0 then [] else [(BgWriterPID s, SIGQUIT)])
         ++ (if PgArchPID s =? 0 then [] else [(PgArchPID s, SIGQUIT)])
         ++ (if PgStatPID s =? 0 then [] else [(PgStatPID s, SIGQUIT)])
         ++ map (fun bp => (pid bp, SIGQUIT)) (BackendList s).
Proof.
  destruct s as [sd fe stp bgw arch stat lg bl key o tr].
  unfold pmdie. pm_cases; destruct bl as [|b bl]; pm_go;
    (eexists; split; [reflexivity|]; split; [reflexivity|];
     split; [reflexivity|]; added_trace;
     rewrite ?signals_app, ?signals_SignalChildren; reflexivity).
Qed.

(** X5. SIGHUP is acted on only up to a smart shutdown.  Then the
    configuration is reread and SIGHUP is passed on to every backend,
    the background writer, the archiver and the system logger (not to
    the statistics collector or the startup process); once a fast
    shutdown is under way the handler does nothing at all.  It never
    changes a variable of the postmaster. *)
Theorem SIGHUP_handler_effects (s : pmstate) :
  exists l,
    SIGHUP_handler s = Ret tt (emits l s)
    /\ signals l
       = (if Shutdown s <=? SmartShutdown then
            map (fun bp => (pid bp, SIGHUP)) (BackendList s)
            ++ (if BgWriterPID s =? 0 then [] else [(BgWriterPID s, SIGHUP)])
            ++ (if PgArchPID s =? 0 then [] else [(PgArchPID s, SIGHUP)])
            ++ (if SysLoggerPID s =? 0 then []
                else [(SysLoggerPID s, SIGHUP)])
          else [])
    /\ (if Shutdown s <=? SmartShutdown
        then In (E_call "ProcessConfigFile") l
        else l = []).
Proof.
  destruct s as [sd fe stp bgw arch stat lg bl key o tr].
  unfold SIGHUP_handler. pm_go.
  destruct (sd <=? SmartShutdown) eqn:E.
  - pm_cases;
      (eexists; split; [emits_eq|];
       rewrite ?signals_app, ?signals_SignalChildren;
       split; [reflexivity|]; simpl; auto).
  - pm_go. exists []. split; [|split; reflexivity].
    rewrite app_nil_r. reflexivity.
Qed.

(** X6. A smart shutdown request that finds backends on the list only
    raises the shutdown level: nobody is signalled and no process is
    started; the clients are left to finish. *)
Theorem pmdie_smart_waits_for_backends (s : pmstate) :
  Shutdown s < SmartShutdown -> BackendList s <> [] ->
  exists l,
    pmdie SIGTERM s = Ret tt (set_Shutdown SmartShutdown (emits l s))
    /\ signals l = [] /\ forks l = []
    /\ log_lines l = ["received smart shutdown request"%string].
Proof.
  destruct s as [sd fe stp bgw arch stat lg bl key o tr].
  cbn [Shutdown BackendList]. intros Hsd Hbl.
  assert (E : (sd >=? SmartShutdown) = false)
    by (rewrite Z.geb_leb; apply Z.leb_gt; exact Hsd).
  destruct bl as [|b bl]; [congruence|].
  unfold pmdie. pm_go.
  eexists. split; [emits_eq|]. repeat split; reflexivity.
Qed.

(** X7. A fast shutdown request that finds backends on the list raises
    the level to FastShutdown and sends SIGTERM to every backend, unless
    a crash is being handled (FatalError), when they have been told to
    quit already; no process is started. *)
Theorem pmdie_fast_terminates_backends (s : pmstate) :
  Shutdown s < FastShutdown -> BackendList s <> [] ->
  exists l,
    pmdie SIGINT s = Ret tt (set_Shutdown FastShutdown (emits l s))
    /\ signals l
       = (if FatalError s then []
          else map (fun bp => (pid bp, SIGTERM)) (BackendList s))
    /\ forks l = [].
Proof.
  destruct s as [sd fe stp bgw arch stat lg bl key o tr].
  cbn [Shutdown BackendList FatalError]. intros Hsd Hbl.
  assert (E : (sd >=? FastShutdown) = false)
    by (rewrite Z.geb_leb; apply Z.leb_gt; exact Hsd).
  destruct bl as [|b bl]; [congruence|].
  unfold pmdie. destruct fe; pm_go.
  - eexists. split; [emits_eq|]. repeat split; reflexivity.
  - eexists. split; [emits_eq|].
    rewrite ?signals_app, ?forks_app, signals_SignalChildren.
    split; [reflexivity|]. cbn [forks app].
    generalize (b :: bl) as l0. intro l0.
    induction l0 as [|x l0 IH]; simpl; auto.
Qed.

(** The shutdown of the data base as pmdie starts it on an idle server
    with a background writer in place. *)
Lemma pmdie_idle_level (sig : signal) (level : Z) (s : pmstate) :
  (sig = SIGTERM /\ level = SmartShutdown
   \/ sig = SIGINT /\ level = FastShutdown) ->
  Shutdown s < level -> BackendList s = [] -> StartupPID s = 0 ->
  FatalError s = false -> BgWriterPID s <> 0 ->
  exists l,
    pmdie sig s = Ret tt (set_Shutdown level (emits l s))
    /\ signals l
       = (BgWriterPID s, SIGUSR2)
         :: (if PgArchPID s =? 0 then [] else [(PgArchPID s, SIGQUIT)])
         ++ (if PgStatPID s =? 0 then [] else [(PgStatPID s, SIGQUIT)])
    /\ forks l = [].
Proof.
  destruct s as [sd fe stp bgw arch stat lg bl key o tr].
  cbn [Shutdown BackendList FatalError StartupPID BgWriterPID PgArchPID
       PgStatPID].
  intros Hsig Hsd -> -> -> Hbgw.
  assert (E : (bgw =? 0) = false) by (apply Z.eqb_neq; exact Hbgw).
  destruct Hsig as [[-> ->]|[-> ->]].
  - assert (E1 : (sd >=? SmartShutdown) = false)
      by (rewrite Z.geb_leb; apply Z.leb_gt; exact Hsd).
    unfold pmdie, begin_database_shutdown.
    pm_cases; (eexists; split; [emits_eq|]; split; reflexivity).
  - assert (E2 : (sd >=? FastShutdown) = false)
      by (rewrite Z.geb_leb; apply Z.leb_gt; exact Hsd).
    unfold pmdie, begin_database_shutdown.
    pm_cases; (eexists; split; [emits_eq|]; split; reflexivity).
Qed.

(** X8. A shutdown request that finds the server idle (no backend, no
    startup process, no crash being handled) and the background writer
    running starts the shutdown of the data base at once, unless a
    request of its level or above came before: a smart request
    (SIGTERM) arriving below SmartShutdown and a fast request (SIGINT)
    arriving below FastShutdown, also one that follows a smart request,
    raise the level and send SIGUSR2 to the background writer and
    SIGQUIT to archiver and statistics collector; nothing is forked.  A
    request that arrives at its level or above is ignored: the state is
    as before but for the debug line in the log. *)
Theorem pmdie_idle_begins_shutdown (s : pmstate) :
  BackendList s = [] -> StartupPID s = 0 -> FatalError s = false ->
  BgWriterPID s <> 0 ->
  (Shutdown s < SmartShutdown ->
   exists l,
     pmdie SIGTERM s = Ret tt (set_Shutdown SmartShutdown (emits l s))
     /\ signals l
        = (BgWriterPID s, SIGUSR2)
          :: (if PgArchPID s =? 0 then [] else [(PgArchPID s, SIGQUIT)])
          ++ (if PgStatPID s =? 0 then [] else [(PgStatPID s, SIGQUIT)])
     /\ forks l = [])
  /\ (Shutdown s < FastShutdown ->
      exists l,
        pmdie SIGINT s = Ret tt (set_Shutdown FastShutdown (emits l s))
        /\ signals l
           = (BgWriterPID s, SIGUSR2)
             :: (if PgArchPID s =? 0 then [] else [(PgArchPID s, SIGQUIT)])
             ++ (if PgStatPID s =? 0 then [] else [(PgStatPID s, SIGQUIT)])
        /\ forks l = [])
  /\ (SmartShutdown <= Shutdown s ->
      pmdie SIGTERM s
      = Ret tt (emits [E_ereport DEBUG2 "postmaster received signal %d"] s))
  /\ (FastShutdown <= Shutdown s ->
      pmdie SIGINT s
      = Ret tt (emits [E_ereport DEBUG2 "postmaster received signal %d"] s)).
Proof.
  intros Hbl Hst Hfe Hbgw.
  split; [|split; [|split]].
  - intro Hsd.
    apply (pmdie_idle_level SIGTERM SmartShutdown s); auto.
  - intro Hsd.
    apply (pmdie_idle_level SIGINT FastShutdown s); auto.
  - intro Hsd. rewrite pmdie_SIGTERM_ignored by lia. reflexivity.
  - intro Hsd. rewrite pmdie_SIGINT_ignored by lia. reflexivity.
Qed.

(** ** The reaper *)

(** X9. The normal end of the postmaster: when, during a shutdown with
    no backend left and no crash pending, the background writer is
    reported dead with exit status 0, the reaper ends the postmaster
    with exit status 0 at once; later death reports are not looked at
    and nobody is signalled. *)
Theorem reaper_writer_exit_ends_postmaster (cfg : config)
    (rest : list (Z * Z)) (s : pmstate) :
  0 < BgWriterPID s -> StartupPID s = 0 -> Shutdown s > NoShutdown ->
  FatalError s = false -> BackendList s = [] ->
  exists l,
    reaper cfg ((BgWriterPID s, 0) :: rest) s
    = Exit 0 (set_BgWriterPID 0 (emits l s))
    /\ signals l = [] /\ forks l = [] /\ log_lines l = [].
Proof.
  destruct s as [sd fe stp bgw arch stat lg bl key o tr].
  cbn [Shutdown BackendList FatalError StartupPID BgWriterPID].
  intros Hbgw -> Hsd -> ->.
  assert (E0 : (bgw >? 0) = true) by (rewrite Z.gtb_ltb; apply Z.ltb_lt; lia).
  assert (E1 : (bgw =? 0) = false) by (apply Z.eqb_neq; lia).
  assert (E2 : (sd >? NoShutdown) = true)
    by (rewrite Z.gtb_ltb; apply Z.ltb_lt; lia).
  unfold reaper. cbn [reaper_loop]. rewrite E0. unfold reap_one. pm_go.
  eexists. split; [emits_eq|]. repeat split; reflexivity.
Qed.

(** X10. A pending shutdown goes on when the last backend leaves: if
    the only backend on the list exits with status 0 while a shutdown
    is requested, no crash is being handled, no startup process runs and
    the background writer is in place, the reaper empties the list and
    starts the shutdown of the data base (SIGUSR2 to the background
    writer, SIGQUIT to archiver and statistics collector). *)
Theorem reaper_last_backend_begins_shutdown (cfg : config) (bp : Backend)
    (s : pmstate) :
  BackendList s = [bp] -> 0 < pid bp ->
  Shutdown s > NoShutdown -> FatalError s = false -> StartupPID s = 0 ->
  BgWriterPID s <> 0 -> pid bp <> BgWriterPID s ->
  pid bp <> PgArchPID s -> pid bp <> PgStatPID s ->
  pid bp <> SysLoggerPID s ->
  exists l,
    reaper cfg [(pid bp, 0)] s = Ret tt (set_BackendList [] (emits l s))
    /\ signals l
       = (BgWriterPID s, SIGUSR2)
         :: (if PgArchPID s =? 0 then [] else [(PgArchPID s, SIGQUIT)])
         ++ (if PgStatPID s =? 0 then [] else [(PgStatPID s, SIGQUIT)])
    /\ forks l = [] /\ log_lines l = [].
Proof.
  destruct s as [sd fe stp bgw arch stat lg bl key o tr].
  cbn [Shutdown BackendList FatalError StartupPID BgWriterPID PgArchPID
       PgStatPID SysLoggerPID].
  intros -> Hp Hsd -> -> Hbgw Hn1 Hn2 Hn3 Hn4.
  assert (E0 : (pid bp >? 0) = true)
    by (rewrite Z.gtb_ltb; apply Z.ltb_lt; lia).
  assert (E1 : (pid bp =? bgw) = false) by (apply Z.eqb_neq; exact Hn1).
  assert (E2 : (pid bp =? arch) = false) by (apply Z.eqb_neq; exact Hn2).
  assert (E3 : (pid bp =? stat) = false) by (apply Z.eqb_neq; exact Hn3).
  assert (E4 : (pid bp =? lg) = false) by (apply Z.eqb_neq; exact Hn4).
  assert (E5 : (sd >? NoShutdown) = true)
    by (rewrite Z.gtb_ltb; apply Z.ltb_lt; lia).
  assert (E6 : (bgw =? 0) = false) by (apply Z.eqb_neq; exact Hbgw).
  unfold reaper. cbn [reaper_loop]. rewrite E0.
  unfold reap_one, CleanupBackend, begin_database_shutdown.
  rewrite ?LogChildExit_eq.
  pm_cases; (eexists; split; [emits_eq|]; repeat split; reflexivity).
Qed.

(** X11. Outside a shutdown the death of the background writer is a
    crash whatever its exit status, 0 included: FatalError is set, the
    writer's pid is forgotten and every backend is told to quit, as are
    archiver and statistics collector. *)
Theorem reap_writer_exit_is_crash (cfg : config) (st : Z) (s : pmstate) :
  0 < BgWriterPID s -> StartupPID s = 0 -> Shutdown s = NoShutdown ->
  FatalError s = false ->
  exists s',
    reap_one cfg (BgWriterPID s) st s = Ret tt s'
    /\ FatalError s' = true /\ BgWriterPID s' = 0
    /\ BackendList s'
       = filter (fun bp => negb (pid bp =? BgWriterPID s)) (BackendList s)
    /\ signals (added s s')
       = map (fun bp => (pid bp, quit_signal cfg)) (BackendList s')
         ++ (if PgArchPID s =? 0 then [] else [(PgArchPID s, SIGQUIT)])
         ++ (if PgStatPID s =? 0 then [] else [(PgStatPID s, SIGQUIT)]).
Proof.
  destruct s as [sd fe stp bgw arch stat lg bl key o tr].
  cbn [Shutdown BackendList FatalError StartupPID BgWriterPID PgArchPID
       PgStatPID].
  intros Hbgw -> -> ->.
  assert (E1 : (bgw =? 0) = false) by (apply Z.eqb_neq; lia).
  unfold reap_one, HandleChildCrash, NoShutdown.
  rewrite ?LogChildExit_eq.
  pm_go. change (0 >? 0) with false. rewrite ?andb_false_r.
  pm_cases;
    (eexists; split; [reflexivity|]; split; [reflexivity|];
     split; [reflexivity|]; split; [reflexivity|];
     added_trace; rewrite ?signals_app, signals_crash_first;
     cbn [signals app BackendList]; rewrite ?app_nil_r; reflexivity).
Qed.

(** X12. The death of the archiver or of the statistics collector is
    never a crash: whatever the exit status, FatalError, the shutdown
    level and the backend list stay as they are and nobody is
    signalled.  A replacement is forked only in normal operation (no
    startup process, no crash being handled, no shutdown requested). *)
Theorem reap_helper_is_no_crash (cfg : config) (p st : Z) (s : pmstate) :
  p <> 0 -> p <> StartupPID s -> p <> BgWriterPID s ->
  p = PgArchPID s \/ p = PgStatPID s ->
  let s' := final (reap_one cfg p st s) in
  FatalError s' = FatalError s /\ Shutdown s' = Shutdown s
  /\ BackendList s' = BackendList s
  /\ signals (added s s') = []
  /\ (forks (added s s') <> [] ->
      StartupPID s = 0 /\ FatalError s = false /\ Shutdown s = NoShutdown).
Proof.
  destruct s as [sd fe stp bgw arch stat lg bl key o tr].
  intros Hp Hn1 Hn2 Hor s'.
  cbn [Shutdown BackendList FatalError StartupPID BgWriterPID PgArchPID
       PgStatPID] in Hn1, Hn2, Hor |- *.
  assert (E1 : (p =? stp) = false) by (apply Z.eqb_neq; exact Hn1).
  assert (E2 : (p =? bgw) = false) by (apply Z.eqb_neq; exact Hn2).
  assert (E3 : (p =? 0) = false) by (apply Z.eqb_neq; exact Hp).
  assert (Hs' : final (reap_one cfg p st
    (mkState sd fe stp bgw arch stat lg bl key o tr)) = s') by reflexivity.
  clearbody s'. revert Hs'.
  unfold reap_one, pgarch_start, pgstat_start, helper_start.
  rewrite ?LogChildExit_eq.
  rewrite ?andb_false_r.
  destruct Hor as [<-|<-]; destruct fe, (XLogArchivingActive cfg);
    pm_cases; intros <-;
    (split; [reflexivity|]; split; [reflexivity|]; split; [reflexivity|];
     added_trace; cbn [signals forks app];
     split; [reflexivity|]; intro H;
     first [ exfalso; apply H; reflexivity
           | z_props; unfold NoShutdown in *; repeat split; congruence ]).
Qed.

(** ** The crash flag *)

(** Takes a computation apart like [frame], unfolding the helpers that
    neither set FatalError nor touch the startup pid. *)
Ltac latch :=
  repeat first
    [ frame_step
    | progress unfold StartBackgroundWriter,
        StartChildProcess, pgarch_start, pgstat_start, SysLogger_Start,
        helper_start, SignalChildren, begin_database_shutdown,
        LogChildExit, PostmasterRandom, RandomSalt,
        report_fork_failure_to_client ].

Section Latch.
Variable sp : Z.

(** While a crash is being handled, the startup process is either
    absent or the one, [sp], that was there at the start. *)
Let I : pmstate -> Prop :=
  fun s => FatalError s = true /\ (StartupPID s = 0 \/ StartupPID s = sp).

Lemma latch_crash_scan cfg dead l : always I (crash_scan cfg dead l).
Proof. induction l as [|bp l IH]; simpl; repeat (frame_step || apply IH). Qed.

Lemma latch_HandleChildCrash cfg p st name :
  always I (HandleChildCrash cfg p st name).
Proof.
  unfold HandleChildCrash.
  repeat first [ apply latch_crash_scan | progress latch ].
  intros s [_ H]. split; [reflexivity | exact H].
Qed.

Lemma latch_CleanupBackend cfg p st : always I (CleanupBackend cfg p st).
Proof.
  unfold CleanupBackend.
  repeat first [ apply latch_HandleChildCrash | progress latch ].
Qed.

(** One death report keeps the flag unless it is the startup process
    ending with status 0. *)
Lemma latch_reap_one cfg p st :
  sp = 0 \/ p <> sp \/ st <> 0 -> always I (reap_one cfg p st).
Proof.
  intros Hc. unfold reap_one.
  apply always_bind_gets. intros s Hs.
  remember (StartupPID s) as v eqn:Hv.
  destruct (negb (v =? 0) && (p =? v)) eqn:E.
  - (* the startup process: it did not succeed *)
    subst v. apply andb_true_iff in E. destruct E as [E1 E2].
    apply negb_true_iff in E1. z_props.
    destruct Hs as [Hfe [H0|Hsp]]; [congruence|].
    assert (Est : (st =? 0) = false)
      by (apply Z.eqb_neq; destruct Hc as [?|[?|?]]; congruence).
    destruct s as [sd fe stp bgw arch stat lg bl key o tr].
    cbn [FatalError StartupPID] in *. subst fe.
    rewrite ?LogChildExit_eq. pm_go. split; [reflexivity | left; reflexivity].
  - clear Hv. revert s Hs.
    match goal with
    | |- forall s, I s -> I (final (?m s)) => change (always I m)
    end.
    repeat first [ apply latch_HandleChildCrash | apply latch_CleanupBackend
                 | progress latch ];
      intros s [H1 H2]; (split; [exact H1 | try exact H2]).
Qed.

Lemma latch_reaper_loop cfg dead :
  sp = 0 \/ ~ In (sp, 0) dead -> always I (reaper_loop cfg dead).
Proof.
  induction dead as [|[p st] dead IH]; intro H; cbn [reaper_loop].
  - apply always_ret.
  - destruct (p >? 0); [|apply always_ret].
    apply always_bind.
    + apply latch_reap_one.
      destruct H as [H|H]; [left; exact H|]. right.
      destruct (Z.eq_dec p sp) as [->|Hp]; [|left; exact Hp].
      right. intros ->. apply H. left. reflexivity.
    + intros _. apply IH.
      destruct H as [H|H]; [left; exact H|].
      right. intro Hin. apply H. right. exact Hin.
Qed.

End Latch.

Lemma latch_reaper cfg dead s :
  FatalError s = true ->
  StartupPID s = 0 \/ ~ In (StartupPID s, 0) dead ->
  FatalError (final (reaper cfg dead s)) = true.
Proof.
  intros Hfe Hsp. unfold reaper.
  unfold bind at 1. unfold ereport at 1, modify at 1.
  set (s0 := emit _ s).
  assert (H0 : FatalError s0 = true
               /\ (StartupPID s0 = 0 \/ StartupPID s0 = StartupPID s))
    by (split; [exact Hfe | right; reflexivity]).
  pose proof (latch_reaper_loop (StartupPID s) cfg dead Hsp s0 H0) as H1.
  clearbody s0. unfold bind at 1.
  destruct (reaper_loop cfg dead s0) as [[] s1|c s1|r s1];
    cbn [final] in H1 |- *; try (exact (proj1 H1)).
  destruct H1 as [H1 _]. revert s1 H1.
  match goal with
  | |- forall s1, _ -> FatalError (final (?m s1)) = true =>
      change (always (fun s => FatalError s = true) m)
  end.
  unfold StartupDataBase. latch.
Qed.

Lemma latch_step cfg ev :
  (forall dead, ev <> Ev_sigchld dead) ->
  always (fun s => FatalError s = true) (step cfg ev).
Proof.
  intro Hev. destruct ev as [sig| |a b c|dead|ready]; cbn [step].
  - unfold pmdie. latch.
  - unfold SIGHUP_handler. latch.
  - unfold sigusr1_handler. latch.
  - exfalso. apply (Hev dead). reflexivity.
  - unfold ServerLoop_pass, ConnCreate, BackendStartup. latch.
Qed.

(** X13. FatalError is a latch that only a successful startup process
    releases: if a step of the postmaster (a signal handled or a pass of
    the main loop) starts with FatalError set and ends with it cleared,
    the step was the reaper, a startup process was running and it was
    reported dead with exit status 0. *)
Theorem FatalError_cleared_only_by_startup (cfg : config) (ev : event)
    (s : pmstate) :
  FatalError s = true ->
  FatalError (final (step cfg ev s)) = false ->
  exists dead,
    ev = Ev_sigchld dead /\ StartupPID s <> 0
    /\ In (StartupPID s, 0) dead.
Proof.
  intros Hfe Hend.
  destruct ev as [sig| |a b c|dead|ready];
    try (exfalso;
         match goal with
         | H : FatalError (final (step cfg ?ev s)) = false |- _ =>
             assert (Hk : FatalError (final (step cfg ev s)) = true)
               by (apply (latch_step cfg ev); [intros d; discriminate
                                              | exact Hfe]);
             congruence
         end).
  exists dead. split; [reflexivity|].
  assert (Hdec : forall x y : Z * Z, {x = y} + {x <> y})
    by (decide equality; apply Z.eq_dec).
  destruct (Z.eq_dec (StartupPID s) 0) as [H0|H0].
  - exfalso. cbn [step] in Hend.
    rewrite (latch_reaper cfg dead s Hfe (or_introl H0)) in Hend.
    discriminate.
  - split; [exact H0|].
    destruct (in_dec Hdec (StartupPID s, 0) dead) as [Hin|Hin];
      [exact Hin|].
    exfalso. cbn [step] in Hend.
    rewrite (latch_reaper cfg dead s Hfe (or_intror Hin)) in Hend.
    discriminate.
Qed.

(** ** From a shutdown request to the rejection of a client *)

Lemma tells_bind {A B} cfg (m : PM A) (k : A -> PM B) :
  tells cfg m -> (forall a, tells cfg (k a)) -> tells cfg (bind m k).
Proof.
  intros Hm Hk s. unfold bind. specialize (Hm s).
  destruct (m s) as [a s'|st s'|r s']; [apply Hk | exact I | exact Hm].
Qed.

Lemma tells_when cfg b (m : PM unit) : tells cfg m -> tells cfg (when b m).
Proof. intro H. destruct b; [exact H | intro s; exact I]. Qed.

Lemma tells_for_each {A} cfg (l : list A) (f : A -> PM unit) :
  (forall x, tells cfg (f x)) -> tells cfg (for_each l f).
Proof.
  intro Hf. induction l as [|x l IH]; cbn [for_each].
  - intro s. exact I.
  - apply tells_bind; [apply Hf | intros _; exact IH].
Qed.

Ltac tells_leaf := intro; exact I.

Ltac tells_step :=
  match goal with
  | |- tells _ (bind _ _) => apply tells_bind; [| intro]
  | |- tells _ (when _ _) => apply tells_when
  | |- tells _ (for_each _ _) => apply tells_for_each; intro
  | |- tells _ (if ?b then _ else _) => destruct b
  | |- tells _ (match ?x with _ => _ end) => destruct x
  | |- tells _ _ => tells_leaf
  end.

Ltac tells_all :=
  repeat first
    [ tells_step
    | progress unfold StartBackgroundWriter, StartupDataBase,
        StartChildProcess, pgarch_start, pgstat_start, SysLogger_Start,
        helper_start, SignalChildren, begin_database_shutdown,
        LogChildExit, PostmasterRandom, RandomSalt,
        report_fork_failure_to_client ].

Lemma tells_crash_scan cfg dead l : tells cfg (crash_scan cfg dead l).
Proof.
  induction l as [|bp l IH]; cbn [crash_scan];
    repeat (apply IH || tells_step).
Qed.

Lemma tells_BackendStartup cfg port : tells cfg (BackendStartup cfg port).
Proof.
  intros [sd fe stp bgw arch stat lg bl key [fl rl ml nl el] tr].
  unfold BackendStartup, PostmasterRandom, report_fork_failure_to_client.
  destruct ml as [|[] ml]; destruct nl as [|[] nl]; pm_cases;
    unfold told; try exact I; reflexivity.
Qed.

Lemma tells_step_event cfg ev : tells cfg (step cfg ev).
Proof.
  destruct ev as [sig| |a b c|dead|ready]; cbn [step].
  - unfold pmdie. tells_all.
  - unfold SIGHUP_handler. tells_all.
  - unfold sigusr1_handler. tells_all.
  - unfold reaper.
    assert (Hloop : tells cfg (reaper_loop cfg dead)).
    { induction dead as [|[p st] dead IH]; cbn [reaper_loop];
        [tells_leaf|].
      destruct (p >? 0); [|tells_leaf].
      apply tells_bind; [| intros _; exact IH].
      unfold reap_one, CleanupBackend, HandleChildCrash.
      repeat first [ apply tells_crash_scan | progress tells_all ]. }
    repeat first [ apply Hloop | progress tells_all ].
  - unfold ServerLoop_pass, ConnCreate.
    repeat first [ apply tells_BackendStartup | progress tells_all ].
Qed.

Lemma tells_run cfg evs : tells cfg (run cfg evs).
Proof. apply tells_for_each. intro ev. apply tells_step_event. Qed.

Lemma store_option_verdict n v p :
  canAcceptConnections_of (store_option n v p) = canAcceptConnections_of p.
Proof.
  unfold store_option.
  destruct (streq n "database"); [reflexivity|].
  destruct (streq n "user"); [reflexivity|].
  destruct (streq n "options"); reflexivity.
Qed.

Lemma scan_options_verdict fuel buf len : forall offset p offset' p',
  scan_options fuel buf len offset p = Some (offset', p') ->
  canAcceptConnections_of p' = canAcceptConnections_of p.
Proof.
  induction fuel as [|fuel IH]; simpl; intros offset p offset' p' H.
  - discriminate.
  - destruct (offset <? len); [|inversion H; reflexivity].
    destruct (is_nul (byte_at buf offset)); [inversion H; reflexivity|].
    destruct (_ >=? len); [inversion H; reflexivity|].
    apply IH in H. rewrite H. apply store_option_verdict.
Qed.

Lemma startup_names_and_state_ok cfg c :
  fst (startup_names_and_state cfg c) = PSP_return STATUS_OK ->
  canAcceptConnections_of (c_port c) = CAC_OK.
Proof.
  unfold startup_names_and_state.
  destruct (is_empty_name (user_name (c_port c))); [discriminate|].
  cbv zeta. destruct (canAcceptConnections_of (c_port c));
    cbn [fst]; (reflexivity || discriminate).
Qed.

Lemma handle_packet_ok cfg env again SSLdone len body c :
  (forall c', fst (again c') = PSP_return STATUS_OK ->
              canAcceptConnections_of (c_port c') = CAC_OK) ->
  fst (handle_packet cfg env again SSLdone len body c)
  = PSP_return STATUS_OK ->
  canAcceptConnections_of (c_port c) = CAC_OK.
Proof.
  intros Hagain. unfold handle_packet. cbv zeta.
  destruct (_ =? CANCEL_REQUEST_CODE cfg); [discriminate|].
  destruct ((_ =? NEGOTIATE_SSL_CODE cfg) && negb SSLdone).
  { destruct (negb (send_ok env)); [discriminate|].
    destruct (USE_SSL cfg && _ && _); [discriminate|].
    intro H. apply Hagain in H. exact H. }
  destruct (unsupported_protocol cfg _); [discriminate|].
  destruct (PG_PROTOCOL_MAJOR cfg _ >=? 3).
  - destruct (scan_options _ _ _ _ _) as [[offset p]|] eqn:S;
      [|discriminate].
    apply scan_options_verdict in S. cbn in S.
    destruct (negb (offset =? len - 1)); [discriminate|].
    intro H. apply startup_names_and_state_ok in H. cbn in H.
    rewrite S in H. exact H.
  - intro H. apply startup_names_and_state_ok in H. exact H.
Qed.

Lemma ProcessStartupPacket_body_ok cfg env again SSLdone c :
  (forall c', fst (again c') = PSP_return STATUS_OK ->
              canAcceptConnections_of (c_port c') = CAC_OK) ->
  fst (ProcessStartupPacket_body cfg env again SSLdone c)
  = PSP_return STATUS_OK ->
  canAcceptConnections_of (c_port c) = CAC_OK.
Proof.
  intros Hagain. unfold ProcessStartupPacket_body.
  destruct (pq_getbytes 4 c) as [[lenbytes c1]|] eqn:E1; [|discriminate].
  cbv zeta. destruct (_ || _); [discriminate|].
  destruct (pq_getbytes _ c1) as [[body c2]|] eqn:E2; [|discriminate].
  intro H. apply handle_packet_ok in H; [|exact Hagain].
  unfold pq_getbytes in E1, E2.
  destruct (_ <? 4); [discriminate|]. injection E1 as _ <-.
  destruct (_ <? _); [discriminate|]. injection E2 as _ <-.
  exact H.
Qed.

Lemma ProcessStartupPacket_ok cfg env SSLdone c :
  fst (ProcessStartupPacket cfg env SSLdone c) = PSP_return STATUS_OK ->
  canAcceptConnections_of (c_port c) = CAC_OK.
Proof.
  apply ProcessStartupPacket_body_ok. intros c'.
  apply ProcessStartupPacket_body_ok. intros c''. discriminate.
Qed.

Lemma BackendRun_not_OK cfg env port input :
  canAcceptConnections_of port <> CAC_OK ->
  forall p', fst (BackendRun cfg env port input) <> BE_authenticate p'.
Proof.
  intros Hv p' H. apply Hv.
  unfold BackendRun in H.
  pose proof (ProcessStartupPacket_ok cfg env false (new_conn port input))
    as Hok.
  destruct (ProcessStartupPacket cfg env false (new_conn port input))
    as [[status|code msg] c]; [|discriminate].
  cbn [fst] in Hok.
  destruct (status =? STATUS_OK) eqn:E; [|discriminate].
  apply Z.eqb_eq in E. subst status. exact (Hok eq_refl).
Qed.

(** X14. The backend child goes on to client authentication only if
    the postmaster's verdict in its Port is CAC_OK: with any other
    verdict, whatever the client sends (startup packet of any protocol
    version, SSL negotiation first, cancel request, garbage), BackendRun
    ends in proc_exit or in a FATAL report. *)
Theorem authentication_needs_CAC_OK (cfg : config) (env : child_env)
    (port : Port) (input : list byte) :
  canAcceptConnections_of port <> CAC_OK ->
  forall p', fst (BackendRun cfg env port input) <> BE_authenticate p'.
Proof. exact (BackendRun_not_OK cfg env port input). Qed.

(** X15. After a shutdown request no new client is served: in any
    course of events that starts with the shutdown level above
    NoShutdown, a backend child that is forked for a new connection
    carries the verdict CAC_SHUTDOWN and never gets to client
    authentication, whatever its client sends. *)
Theorem shutdown_request_rejects_new_clients (cfg : config)
    (evs : list event) (s s' : pmstate) (port : Port) :
  Shutdown s > NoShutdown ->
  run cfg evs s = Child (BackendChild port) s' ->
  canAcceptConnections_of port = CAC_SHUTDOWN
  /\ forall env input p',
       fst (BackendRun cfg env port input) <> BE_authenticate p'.
Proof.
  intros Hsd Hrun.
  assert (Hv : canAcceptConnections_of port = CAC_SHUTDOWN).
  { pose proof (tells_run cfg evs s) as Ht. rewrite Hrun in Ht.
    cbn [told] in Ht. rewrite Ht.
    pose proof (level_run 1 cfg evs s) as Hl. rewrite Hrun in Hl.
    unfold at_least, core in Hl. cbn [final] in Hl.
    unfold canAcceptConnections.
    destruct (Shutdown s' >? NoShutdown) eqn:E; [reflexivity|].
    exfalso. unfold NoShutdown in *. rewrite Z.gtb_ltb in E.
    apply Z.ltb_ge in E. lia. }
  split; [exact Hv|].
  intros env input. apply BackendRun_not_OK. rewrite Hv. discriminate.
Qed.

(** ** Re-initialisation after a crash *)

Lemma only_adds_refl ok s : only_adds ok s s.
Proof. exists []. split; [rewrite app_nil_r; reflexivity | constructor]. Qed.

Lemma only_adds_emit ok s0 s e :
  ok e -> only_adds ok s0 s -> only_adds ok s0 (emit e s).
Proof.
  intros He [l [Hl Hf]]. exists (l ++ [e]). split.
  - cbn [emit trace]. rewrite Hl, app_assoc. reflexivity.
  - apply Forall_app. split; [exact Hf | repeat constructor; exact He].
Qed.

Lemma only_adds_added ok s0 s e :
  only_adds ok s0 s -> In e (added s0 s) -> ok e.
Proof.
  intros [l [Hl Hf]] Hin. rewrite (added_app _ _ _ Hl) in Hin.
  rewrite Forall_forall in Hf. apply Hf. exact Hin.
Qed.

Ltac quiet_leaf :=
  intros ? H;
  first [ exact H
        | apply only_adds_emit; [intro; discriminate | exact H] ].

Ltac quiet_step :=
  match goal with
  | |- always _ (bind _ _) => apply always_bind; [| intro]
  | |- always _ (ret _) => apply always_ret
  | |- always _ (gets _) => apply always_gets
  | |- always _ (when _ _) => apply always_when
  | |- always _ (ExitPostmaster _) => apply always_exit
  | |- always _ (become _) => apply always_become
  | |- always _ (for_each _ _) => apply always_for_each; intro
  | |- always _ fork => quiet_leaf
  | |- always _ random => quiet_leaf
  | |- always _ malloc => quiet_leaf
  | |- always _ set_noblock => quiet_leaf
  | |- always _ errno => quiet_leaf
  | |- always _ (ereport _ _) => quiet_leaf
  | |- always _ (kill _ _) => quiet_leaf
  | |- always _ (call _) => quiet_leaf
  | |- always _ (modify _) => quiet_leaf
  | |- always _ (if ?b then _ else _) => destruct b
  | |- always _ (match ?x with _ => _ end) => destruct x
  end.

Ltac quiet :=
  repeat first
    [ quiet_step
    | progress unfold StartBackgroundWriter,
        StartChildProcess, pgarch_start, pgstat_start, SysLogger_Start,
        helper_start, SignalChildren, begin_database_shutdown,
        LogChildExit, PostmasterRandom, RandomSalt,
        report_fork_failure_to_client ].

Section Quiet.
Variable s0 : pmstate.
Let Q : pmstate -> Prop := only_adds no_reset s0.

Lemma quiet_crash_scan cfg dead l : always Q (crash_scan cfg dead l).
Proof.
  induction l as [|bp l IH]; cbn [crash_scan];
    repeat (apply IH || quiet_step).
Qed.

Lemma quiet_reap_one cfg p st : always Q (reap_one cfg p st).
Proof.
  unfold reap_one, CleanupBackend, HandleChildCrash.
  repeat first [ apply quiet_crash_scan | progress quiet ].
Qed.

Lemma quiet_reaper_loop cfg dead : always Q (reaper_loop cfg dead).
Proof.
  induction dead as [|[p st] dead IH]; cbn [reaper_loop].
  - apply always_ret.
  - destruct (p >? 0); [|apply always_ret].
    apply always_bind; [apply quiet_reap_one | intros _; exact IH].
Qed.

Lemma quiet_step_event cfg ev :
  (forall dead, ev <> Ev_sigchld dead) -> always Q (step cfg ev).
Proof.
  intro Hev. destruct ev as [sig| |a b c|dead|ready]; cbn [step].
  - unfold pmdie. quiet.
  - unfold SIGHUP_handler. quiet.
  - unfold sigusr1_handler. quiet.
  - exfalso. apply (Hev dead). reflexivity.
  - unfold ServerLoop_pass, ConnCreate, BackendStartup. quiet.
Qed.

End Quiet.

(** X16. Shared memory is re-initialised only after a crash has been
    cleaned up completely: a step of the postmaster calls reset_shared
    only in the reaper, and only when, all pending deaths reaped,
    FatalError is set, the backend list is empty and no background
    writer is left; these still hold when the step ends. *)
Theorem reset_shared_only_when_drained (cfg : config) (ev : event)
    (s : pmstate) :
  In (E_call "reset_shared") (added s (final (step cfg ev s))) ->
  (exists dead, ev = Ev_sigchld dead)
  /\ FatalError (final (step cfg ev s)) = true
  /\ BackendList (final (step cfg ev s)) = []
  /\ BgWriterPID (final (step cfg ev s)) = 0.
Proof.
  intro Hin.
  destruct ev as [sig| |a b c|dead|ready];
    try (exfalso;
         match goal with
         | H : In _ (added s (final (step cfg ?ev s))) |- _ =>
             apply (only_adds_added no_reset s _ _
                      (quiet_step_event s cfg ev
                         ltac:(intros d; discriminate) s
                         (only_adds_refl _ s)) H);
             reflexivity
         end).
  split; [exists dead; reflexivity|].
  set (s' := final (step cfg (Ev_sigchld dead) s)) in *.
  assert (Hs' : final (reaper cfg dead s) = s') by reflexivity.
  clearbody s'. revert Hs' Hin. unfold reaper.
  unfold bind at 1. unfold ereport at 1, modify at 1.
  assert (H0 : only_adds no_reset s
                 (emit (E_ereport DEBUG4 "reaping dead processes") s))
    by (apply only_adds_emit; [intro; discriminate | apply only_adds_refl]).
  pose proof (quiet_reaper_loop s cfg dead _ H0) as H1.
  unfold bind at 1.
  destruct (reaper_loop cfg dead
              (emit (E_ereport DEBUG4 "reaping dead processes") s))
    as [[] s1|c s1|r s1]; cbn [final] in H1 |- *;
    try (intros <- Hin; exfalso;
         apply (only_adds_added no_reset s _ _ H1 Hin); reflexivity).
  destruct H1 as [l1 [Hl1 Hf1]].
  destruct s1 as [sd fe stp bgw arch stat lg bl key [fl rl ml nl el] tr].
  cbn [trace] in Hl1. subst tr.
  unfold begin_database_shutdown, StartupDataBase, StartBackgroundWriter,
    StartChildProcess.
  assert (Hno : ~ In (E_call "reset_shared") l1)
    by (intro Hi; rewrite Forall_forall in Hf1;
        exact (Hf1 _ Hi eq_refl)).
  destruct fe.
  - destruct bl as [|b bl]; pm_cases; intros <-;
      first
        [ solve [ intros _; z_props; repeat split;
                  (reflexivity || assumption) ]
        | intro Hin; exfalso;
          erewrite added_app in Hin
            by (cbn [trace]; rewrite <- ?app_assoc; reflexivity);
          rewrite ?in_app_iff in Hin; cbn [In] in Hin;
          solve [ intuition (try discriminate) ] ].
  - pm_cases; destruct bl as [|b bl]; pm_cases; destruct fl as [|f fl];
      pm_cases; intros <-;
      (intro Hin; exfalso;
       erewrite added_app in Hin
         by (cbn [trace]; rewrite <- ?app_assoc; reflexivity);
       rewrite ?in_app_iff in Hin; cbn [In] in Hin;
       solve [ intuition (try discriminate) ]).
Qed.

(** ** The main loop during recovery *)

Lemma ServerLoop_connections_keep (cfg : config)
    (ready : list (option (Z * addr_family))) (fe : bool)
    (st bgw arch stat : Z) :
  always (fun s => FatalError s = fe /\ StartupPID s = st
                   /\ BgWriterPID s = bgw /\ PgArchPID s = arch
                   /\ PgStatPID s = stat)
    (for_each ready (fun accepted =>
       port <- ConnCreate accepted ;;
       match port with
       | Some port => _ <- BackendStartup cfg port ;; call "StreamClose"
       | None => ret tt
       end)).
Proof. unfold ConnCreate, BackendStartup. latch. Qed.

(** X17. While a crash is being handled or a startup process is at
    work, a pass of the main loop, whatever connections it takes,
    starts no background writer, no archiver and no statistics
    collector: their pids are the same after the pass. *)
Theorem ServerLoop_starts_no_worker_in_recovery (cfg : config)
    (ready : list (option (Z * addr_family))) (s : pmstate) :
  FatalError s = true \/ StartupPID s <> 0 ->
  BgWriterPID (final (ServerLoop_pass cfg ready s)) = BgWriterPID s
  /\ PgArchPID (final (ServerLoop_pass cfg ready s)) = PgArchPID s
  /\ PgStatPID (final (ServerLoop_pass cfg ready s)) = PgStatPID s.
Proof.
  intro Hrec.
  set (s' := final (ServerLoop_pass cfg ready s)).
  assert (Hs' : final (ServerLoop_pass cfg ready s) = s') by reflexivity.
  clearbody s'. revert Hs'. unfold ServerLoop_pass. unfold bind at 1.
  pose proof (ServerLoop_connections_keep cfg ready (FatalError s)
                (StartupPID s) (BgWriterPID s) (PgArchPID s) (PgStatPID s)
                s (conj eq_refl (conj eq_refl (conj eq_refl
                     (conj eq_refl eq_refl))))) as H1.
  match type of H1 with context [final ?o] => destruct o as [[] s1|c s1|r s1]
  end; cbn [final] in H1 |- *;
    destruct H1 as (Hfe & Hst & Hb & Ha & Hc);
    try (intros <-; repeat split; assumption).
  rewrite <- Hfe, <- Hst in Hrec. rewrite <- Hb, <- Ha, <- Hc.
  clear Hfe Hst Hb Ha Hc.
  destruct s1 as [sd fe stp bgw arch stat lg bl key [fl rl ml nl el] tr].
  cbn [FatalError StartupPID BgWriterPID PgArchPID PgStatPID] in Hrec |- *.
  unfold SysLogger_Start, StartBackgroundWriter, pgarch_start, pgstat_start,
    helper_start, StartChildProcess.
  destruct Hrec as [->|Hst].
  - destruct (Redirect_stderr cfg), (XLogArchivingActive cfg);
      pm_cases; intros <-; repeat split; reflexivity.
  - assert (E : (stp =? 0) = false) by (apply Z.eqb_neq; exact Hst).
    destruct (Redirect_stderr cfg), (XLogArchivingActive cfg);
      pm_cases; intros <-; repeat split; reflexivity.
Qed.

(** ** Framing of the startup packet *)

Lemma pq_getbytes_short n c :
  strlen (c_input c) < n -> pq_getbytes n c = None.
Proof.
  intro H. unfold pq_getbytes, strlen in *.
  destruct (Z.ltb_spec (Z.of_nat (List.length (c_input c))) n);
    [reflexivity | lia].
Qed.

Lemma to_int_minus_4 x :
  -2147483644 <= x <= 2147483647 -> to_int (x - 4) = x - 4.
Proof. intro H. apply to_int_small. lia. Qed.

Lemma length_refused cfg env SSLdone c lenbytes rest :
  c_input c = lenbytes ++ rest -> List.length lenbytes = 4%nat ->
  -2147483644 <= to_int (ntohl_at lenbytes 0) ->
  to_int (ntohl_at lenbytes 0) < 8
  \/ MAX_STARTUP_PACKET_LENGTH cfg + 4 < to_int (ntohl_at lenbytes 0) ->
  ProcessStartupPacket cfg env SSLdone c
  = (PSP_return STATUS_ERROR,
     c_emit (E_ereport COMMERROR "invalid length of startup packet")
       (after_packet c rest)).
Proof.
  intros Hin Hlen Hlo Hout.
  unfold ProcessStartupPacket, ProcessStartupPacket_body.
  rewrite (pq_getbytes_exact c lenbytes rest 4 Hin)
    by (unfold strlen; rewrite Hlen; reflexivity).
  cbv zeta.
  assert (Hhi : to_int (ntohl_at lenbytes 0) <= 2147483647).
  { unfold to_int, wrap_signed.
    pose proof (Z.mod_pos_bound (ntohl_at lenbytes 0 + 2 ^ (32 - 1))
                  (2 ^ 32) ltac:(lia)). lia. }
  rewrite to_int_minus_4 by lia.
  destruct (Z.ltb_spec (to_int (ntohl_at lenbytes 0) - 4) 4);
    [reflexivity|].
  cbn [orb]. rewrite Z.gtb_ltb.
  destruct (Z.ltb_spec (MAX_STARTUP_PACKET_LENGTH cfg)
              (to_int (ntohl_at lenbytes 0) - 4)); [reflexivity | lia].
Qed.

(** X18. The length word is checked before anything else is read: if
    the announced length (as a signed 32-bit number, length word
    included) is below 8 or above MAX_STARTUP_PACKET_LENGTH + 4, the
    packet is refused with STATUS_ERROR and the log line "invalid length
    of startup packet"; none of the bytes after the length word is
    consumed, nothing is sent to the client and no protocol version is
    recorded.  A backend child that is sent such a length word first
    leaves through proc_exit(0). *)
Theorem length_out_of_range_refused (cfg : config) (env : child_env)
    (SSLdone : bool) (c : conn) (lenbytes rest : list byte) :
  c_input c = lenbytes ++ rest -> List.length lenbytes = 4%nat ->
  -2147483644 <= to_int (ntohl_at lenbytes 0) ->
  to_int (ntohl_at lenbytes 0) < 8
  \/ MAX_STARTUP_PACKET_LENGTH cfg + 4 < to_int (ntohl_at lenbytes 0) ->
  ProcessStartupPacket cfg env SSLdone c
  = (PSP_return STATUS_ERROR,
     c_emit (E_ereport COMMERROR "invalid length of startup packet")
       (after_packet c rest))
  /\ forall port,
       fst (BackendRun cfg env port (lenbytes ++ rest)) = BE_proc_exit 0.
Proof.
  intros Hin Hlen Hlo Hout.
  split; [apply (length_refused cfg env SSLdone c lenbytes rest); assumption|].
  intro port. unfold BackendRun.
  rewrite (length_refused cfg env false (new_conn port (lenbytes ++ rest))
             lenbytes rest eq_refl Hlen Hlo Hout).
  reflexivity.
Qed.

(** X19. A client that stops sending in the middle of the startup
    packet gets no answer: with fewer than four bytes for the length
    word, or fewer bytes than announced after it, ProcessStartupPacket
    returns STATUS_ERROR and sends nothing.  The log line "incomplete
    startup packet" is written, except when the length word is missing
    after an SSL negotiation (the client may just have disliked the
    answer). *)
Theorem truncated_packet_refused (cfg : config) (env : child_env)
    (SSLdone : bool) (c : conn) :
  (strlen (c_input c) < 4 ->
   ProcessStartupPacket cfg env SSLdone c
   = (PSP_return STATUS_ERROR,
      if SSLdone then c
      else c_emit (E_ereport COMMERROR "incomplete startup packet") c))
  /\ (forall lenbytes rest,
        c_input c = lenbytes ++ rest -> List.length lenbytes = 4%nat ->
        4 <= to_int (to_int (ntohl_at lenbytes 0) - 4)
          <= MAX_STARTUP_PACKET_LENGTH cfg ->
        strlen rest < to_int (to_int (ntohl_at lenbytes 0) - 4) ->
        ProcessStartupPacket cfg env SSLdone c
        = (PSP_return STATUS_ERROR,
           c_emit (E_ereport COMMERROR "incomplete startup packet")
             (after_packet c rest))).
Proof.
  split.
  - intro H. unfold ProcessStartupPacket, ProcessStartupPacket_body.
    rewrite (pq_getbytes_short 4 c H). destruct SSLdone; reflexivity.
  - intros lenbytes rest Hin Hlen Hrange Hshort.
    unfold ProcessStartupPacket, ProcessStartupPacket_body.
    rewrite (pq_getbytes_exact c lenbytes rest 4 Hin)
      by (unfold strlen; rewrite Hlen; reflexivity).
    cbv zeta. set (len := to_int _) in *.
    destruct (Z.ltb_spec len 4); [lia|]. cbn [orb]. rewrite Z.gtb_ltb.
    destruct (Z.ltb_spec (MAX_STARTUP_PACKET_LENGTH cfg) len); [lia|].
    rewrite pq_getbytes_short by exact Hshort. reflexivity.
Qed.

(** ** Names *)

Lemma truncate_name_short cfg str :
  0 < NAMEDATALEN cfg -> strlen (truncate_name cfg str) < NAMEDATALEN cfg.
Proof.
  intro HN. unfold truncate_name, strlen.
  rewrite Z.geb_leb.
  destruct (Z.leb_spec (NAMEDATALEN cfg) (Z.of_nat (List.length str)));
    [|lia].
  rewrite length_firstn. lia.
Qed.

Lemma truncate_name_nonempty cfg str :
  1 < NAMEDATALEN cfg -> str <> [] -> truncate_name cfg str <> [].
Proof.
  intros HN Hs. unfold truncate_name.
  destruct (strlen str >=? NAMEDATALEN cfg); [|exact Hs].
  destruct str as [|b str]; [congruence|].
  destruct (Z.to_nat (NAMEDATALEN cfg - 1)) eqn:E; [lia|].
  cbn [firstn]. discriminate.
Qed.

Lemma startup_names_and_state_names cfg c :
  0 < NAMEDATALEN cfg ->
  fst (startup_names_and_state cfg c) = PSP_return STATUS_OK ->
  names_set cfg (c_port (snd (startup_names_and_state cfg c))).
Proof.
  intro HN. unfold startup_names_and_state.
  destruct (is_empty_name (user_name (c_port c))) eqn:Eu; [discriminate|].
  cbv zeta. destruct (canAcceptConnections_of (c_port c));
    cbn [fst snd]; try discriminate.
  intros _. eexists. eexists. cbn.
  split; [reflexivity|]. split; [reflexivity|].
  split; [apply truncate_name_short; exact HN|].
  split; [apply truncate_name_short; exact HN|].
  intros Hns HN2. rewrite Hns. apply truncate_name_nonempty; [exact HN2|].
  destruct (user_name (c_port c)) as [[|b u]|]; cbn in Eu;
    congruence.
Qed.

Lemma handle_packet_names cfg env again SSLdone len body c :
  0 < NAMEDATALEN cfg ->
  (forall c', fst (again c') = PSP_return STATUS_OK ->
              names_set cfg (c_port (snd (again c')))) ->
  fst (handle_packet cfg env again SSLdone len body c)
  = PSP_return STATUS_OK ->
  names_set cfg
    (c_port (snd (handle_packet cfg env again SSLdone len body c))).
Proof.
  intros HN Hagain. unfold handle_packet. cbv zeta.
  destruct (_ =? CANCEL_REQUEST_CODE cfg); [discriminate|].
  destruct ((_ =? NEGOTIATE_SSL_CODE cfg) && negb SSLdone).
  { destruct (negb (send_ok env)); [discriminate|].
    destruct (USE_SSL cfg && _ && _); [discriminate|].
    apply Hagain. }
  destruct (unsupported_protocol cfg _); [discriminate|].
  destruct (PG_PROTOCOL_MAJOR cfg _ >=? 3).
  - destruct (scan_options _ _ _ _ _) as [[offset p]|]; [|discriminate].
    destruct (negb (offset =? len - 1)); [discriminate|].
    apply startup_names_and_state_names. exact HN.
  - apply startup_names_and_state_names. exact HN.
Qed.

Lemma ProcessStartupPacket_body_names cfg env again SSLdone c :
  0 < NAMEDATALEN cfg ->
  (forall c', fst (again c') = PSP_return STATUS_OK ->
              names_set cfg (c_port (snd (again c')))) ->
  fst (ProcessStartupPacket_body cfg env again SSLdone c)
  = PSP_return STATUS_OK ->
  names_set cfg
    (c_port (snd (ProcessStartupPacket_body cfg env again SSLdone c))).
Proof.
  intros HN Hagain. unfold ProcessStartupPacket_body.
  destruct (pq_getbytes 4 c) as [[lenbytes c1]|]; [|discriminate].
  cbv zeta. destruct (_ || _); [discriminate|].
  destruct (pq_getbytes _ c1) as [[body c2]|]; [|discriminate].
  apply handle_packet_names; assumption.
Qed.

(** X20. When the backend child goes on to client authentication, its
    Port holds a user name and a database name, both shorter than
    NAMEDATALEN; unless Db_user_namespace is on, the user name is not
    empty. *)
Theorem authenticated_names_bounded (cfg : config) (env : child_env)
    (port : Port) (input : list byte) (p' : Port) :
  0 < NAMEDATALEN cfg ->
  fst (BackendRun cfg env port input) = BE_authenticate p' ->
  exists u d,
    user_name p' = Some u /\ database_name p' = Some d
    /\ strlen u < NAMEDATALEN cfg /\ strlen d < NAMEDATALEN cfg
    /\ (Db_user_namespace cfg = false -> 1 < NAMEDATALEN cfg -> u <> []).
Proof.
  intros HN. unfold BackendRun.
  pose proof (ProcessStartupPacket_body_names cfg env
                (ProcessStartupPacket_SSLdone cfg env) false
                (new_conn port input) HN) as H.
  fold (ProcessStartupPacket cfg env false (new_conn port input)) in H.
  destruct (ProcessStartupPacket cfg env false (new_conn port input))
    as [[status|code msg] c]; [|discriminate].
  cbn [fst snd] in H.
  destruct (status =? STATUS_OK) eqn:E; [|discriminate].
  apply Z.eqb_eq in E. subst status. cbn [negb fst].
  intro Hp. injection Hp as <-. apply H; [|reflexivity].
  intros c'. unfold ProcessStartupPacket_SSLdone.
  apply ProcessStartupPacket_body_names; [exact HN|].
  intros c''. discriminate.
Qed.

Lemma strchr_first (pre post : list byte) (ch : byte) :
  ~ In ch pre -> strchr (pre ++ ch :: post) ch = Some (List.length pre).
Proof.
  induction pre as [|b pre IH]; intro Hn; cbn [app strchr List.length].
  - rewrite (Byte.byte_dec_lb (eq_refl ch)). reflexivity.
  - destruct (Byte.eqb b ch) eqn:E.
    + apply Byte.byte_dec_bl in E. exfalso. apply Hn. left. exact E.
    + rewrite IH; [reflexivity|]. intro H. apply Hn. right. exact H.
Qed.

Lemma strchr_none (l : list byte) (ch : byte) :
  ~ In ch l -> strchr l ch = None.
Proof.
  induction l as [|b l IH]; intro Hn; cbn [strchr]; [reflexivity|].
  destruct (Byte.eqb b ch) eqn:E.
  - apply Byte.byte_dec_bl in E. exfalso. apply Hn. left. exact E.
  - rewrite IH; [reflexivity|]. intro H. apply Hn. right. exact H.
Qed.

(** X21. Under Db_user_namespace a user name is taken as global, and
    its trailing '@' removed, only when that '@' is its last character
    and its only one; every other user name, also one with an earlier
    '@' and a trailing one, is qualified with "@" and the database
    name.  The user name "@" alone becomes the empty name. *)
Theorem db_user_namespace_global_user (base post db : list byte) :
  (~ In at_sign base ->
   db_user_namespace_name (base ++ [at_sign]) db = base)
  /\ (~ In at_sign base ->
      db_user_namespace_name base db = base ++ [at_sign] ++ db)
  /\ (~ In at_sign base -> post <> [] ->
      db_user_namespace_name (base ++ at_sign :: post) db
      = (base ++ at_sign :: post) ++ [at_sign] ++ db)
  /\ db_user_namespace_name [at_sign] db = [].
Proof.
  split; [|split; [|split]].
  - intro Hn. unfold db_user_namespace_name.
    rewrite strchr_first by exact Hn.
    rewrite length_app. cbn [List.length].
    replace (List.length base + 1 - 1)%nat with (List.length base) by lia.
    rewrite Nat.eqb_refl.
    rewrite firstn_app, firstn_all, Nat.sub_diag. cbn [firstn].
    apply app_nil_r.
  - intro Hn. unfold db_user_namespace_name.
    rewrite strchr_none by exact Hn. reflexivity.
  - intros Hn Hp. unfold db_user_namespace_name.
    rewrite strchr_first by exact Hn.
    rewrite length_app. cbn [List.length].
    destruct post as [|b post]; [congruence|]. cbn [List.length].
    destruct (Nat.eqb_spec (List.length base)
                (List.length base + S (S (List.length post)) - 1)%nat);
      [lia | reflexivity].
  - reflexivity.
Qed.

(** ** The argument vector of the backend *)

Section SplitOptsFacts.
Variable isspace : byte -> bool.

Let nonspace (b : byte) : bool := negb (isspace b).

Lemma skip_spaces_filter s :
  filter nonspace (skip_spaces isspace s) = filter nonspace s.
Proof.
  induction s as [|b s IH]; cbn [skip_spaces filter]; [reflexivity|].
  unfold nonspace at 2. destruct (isspace b) eqn:E; cbn [negb].
  - exact IH.
  - cbn [filter]. unfold nonspace at 1. rewrite E. reflexivity.
Qed.

Lemma skip_spaces_length s :
  (List.length (skip_spaces isspace s) <= List.length s)%nat.
Proof.
  induction s as [|b s IH]; cbn [skip_spaces]; [lia|].
  destruct (isspace b); cbn [List.length]; lia.
Qed.

Lemma skip_spaces_head s c t :
  skip_spaces isspace s = c :: t -> isspace c = false.
Proof.
  induction s as [|b s IH]; cbn [skip_spaces]; [discriminate|].
  destruct (isspace b) eqn:E; [exact IH|].
  intro H. injection H as <- _. exact E.
Qed.

Lemma word_spec s w r :
  word isspace s = (w, r) ->
  s = w ++ r /\ forallb nonspace w = true
  /\ match r with [] => True | b :: _ => isspace b = true end.
Proof.
  revert w r. induction s as [|b s IH]; cbn [word]; intros w r H.
  - injection H as <- <-. repeat split.
  - destruct (isspace b) eqn:E.
    + injection H as <- <-. repeat split. exact E.
    + destruct (word isspace s) as [w' r'] eqn:W.
      injection H as <- <-.
      destruct (IH w' r' eq_refl) as (-> & Hw & Hr).
      repeat split; [|exact Hr].
      cbn [forallb]. unfold nonspace at 1. rewrite E. exact Hw.
Qed.

Lemma word_head c t :
  isspace c = false ->
  exists w' r, word isspace (c :: t) = (c :: w', r).
Proof.
  intro E. cbn [word]. rewrite E.
  destruct (word isspace t) as [w' r]. eauto.
Qed.

Lemma filter_all (w : list byte) :
  forallb nonspace w = true -> filter nonspace w = w.
Proof.
  induction w as [|b w IH]; cbn [forallb filter]; [reflexivity|].
  intro H. apply andb_true_iff in H. destruct H as [Hb Hw].
  rewrite Hb, IH by exact Hw. reflexivity.
Qed.

Lemma split_opts_loop_spec fuel : forall s,
  (List.length s < fuel)%nat ->
  List.concat (split_opts_loop isspace fuel s) = filter nonspace s
  /\ Forall (fun w => w <> [] /\ forallb nonspace w = true)
       (split_opts_loop isspace fuel s)
  /\ (2 * List.length (split_opts_loop isspace fuel s)
      <= List.length s + 1)%nat.
Proof.
  induction fuel as [|fuel IH]; intros s Hf; [lia|].
  cbn [split_opts_loop].
  destruct s as [|b0 s0]; [repeat split; [constructor | cbn; lia]|].
  set (s := b0 :: s0) in *.
  pose proof (skip_spaces_filter s) as Hfil.
  pose proof (skip_spaces_length s) as Hlen.
  destruct (skip_spaces isspace s) as [|c t] eqn:Hs.
  { rewrite <- Hfil. repeat split; [constructor | cbn; lia]. }
  pose proof (skip_spaces_head s c t Hs) as Hc.
  destruct (word_head c t Hc) as (w' & r & Hw). rewrite Hw.
  destruct (word_spec _ _ _ Hw) as (Hsplit & Hall & Hr).
  assert (Hlr : (List.length (c :: t)
                 = S (List.length w') + List.length r)%nat)
    by (rewrite Hsplit, length_app; reflexivity).
  set (rest := match r with [] => [] | _ :: r' => r' end).
  assert (Hrest : (List.length rest < fuel)%nat).
  { subst rest s. cbn [List.length] in *. destruct r; cbn [List.length] in *;
      lia. }
  destruct (IH rest Hrest) as (Hcat & Hok & Hcnt).
  split; [|split].
  - cbn [List.concat]. rewrite Hcat, <- Hfil, Hsplit, filter_app.
    rewrite (filter_all _ Hall). f_equal.
    subst rest. destruct r as [|sp r']; [reflexivity|].
    cbn [filter]. unfold nonspace at 2. rewrite Hr. reflexivity.
  - constructor; [|exact Hok]. split; [discriminate | exact Hall].
  - cbn [List.length].
    subst rest s. cbn [List.length] in *.
    destruct r as [|sp r']; cbn [List.length] in *.
    + cbn [split_opts_loop] in *. destruct fuel; cbn in *; lia.
    + lia.
Qed.

(** More rounds than the string has characters change nothing. *)
Lemma split_opts_loop_fuel f1 : forall f2 s,
  (List.length s < f1)%nat -> (List.length s < f2)%nat ->
  split_opts_loop isspace f1 s = split_opts_loop isspace f2 s.
Proof.
  induction f1 as [|f1 IH]; intros f2 s H1 H2; [lia|].
  destruct f2 as [|f2]; [lia|].
  cbn [split_opts_loop].
  destruct s as [|b0 s0]; [reflexivity|].
  pose proof (skip_spaces_length (b0 :: s0)) as Hlen.
  destruct (skip_spaces isspace (b0 :: s0)) as [|c t] eqn:Hs; [reflexivity|].
  destruct (word isspace (c :: t)) as [w r] eqn:Hw.
  destruct (word_spec _ _ _ Hw) as (Hsplit & _ & _).
  assert (Hr : (List.length r <= List.length (c :: t))%nat)
    by (rewrite Hsplit, length_app; lia).
  f_equal. cbn [List.length] in *.
  apply IH; destruct r; cbn [List.length] in *; lia.
Qed.

Lemma word_app_space w sp s :
  forallb nonspace w = true -> isspace sp = true ->
  word isspace (w ++ sp :: s) = (w, sp :: s).
Proof.
  intros Hw Hsp. induction w as [|b w IH]; cbn [app word].
  - rewrite Hsp. reflexivity.
  - cbn [forallb] in Hw. apply andb_true_iff in Hw. destruct Hw as [Hb Hw].
    unfold nonspace in Hb. apply negb_true_iff in Hb. rewrite Hb.
    rewrite (IH Hw). reflexivity.
Qed.

Lemma word_all w :
  forallb nonspace w = true -> word isspace w = (w, []).
Proof.
  intros Hw. induction w as [|b w IH]; cbn [word]; [reflexivity|].
  cbn [forallb] in Hw. apply andb_true_iff in Hw. destruct Hw as [Hb Hw].
  unfold nonspace in Hb. apply negb_true_iff in Hb. rewrite Hb.
  rewrite (IH Hw). reflexivity.
Qed.

Lemma skip_spaces_word w s :
  w <> [] -> forallb nonspace w = true ->
  skip_spaces isspace (w ++ s) = w ++ s.
Proof.
  intros Hne Hw. destruct w as [|b w]; [congruence|].
  cbn [forallb] in Hw. apply andb_true_iff in Hw. destruct Hw as [Hb _].
  unfold nonspace in Hb. apply negb_true_iff in Hb.
  cbn [app skip_spaces]. rewrite Hb. reflexivity.
Qed.

Lemma split_opts_loop_S f s :
  split_opts_loop isspace (S f) s
  = match s with
    | [] => []
    | _ :: _ =>
        match skip_spaces isspace s with
        | [] => []
        | s1 =>
            let (w, s2) := word isspace s1 in
            w :: split_opts_loop isspace f
                   (match s2 with [] => [] | _ :: r => r end)
        end
    end.
Proof. reflexivity. Qed.

Lemma split_opts_space sp s :
  isspace sp = true ->
  split_opts isspace (sp :: s) = split_opts isspace s.
Proof.
  intro Hsp. unfold split_opts. cbn [List.length].
  rewrite split_opts_loop_S. cbn [skip_spaces]. rewrite Hsp.
  rewrite (split_opts_loop_S (List.length s) s).
  destruct s as [|b0 s0]; [reflexivity|].
  pose proof (skip_spaces_length (b0 :: s0)) as Hlen.
  destruct (skip_spaces isspace (b0 :: s0)) as [|c t] eqn:Hs; [reflexivity|].
  pose proof (skip_spaces_head _ c t Hs) as Hc.
  destruct (word_head c t Hc) as (w' & r & Hw). rewrite Hw.
  destruct (word_spec _ _ _ Hw) as (Hsplit & _ & _).
  assert (Hr : (S (List.length w') + List.length r
                = List.length (c :: t))%nat)
    by (rewrite Hsplit, length_app; reflexivity).
  f_equal. cbn [List.length] in *.
  apply split_opts_loop_fuel; destruct r; cbn [List.length] in *; lia.
Qed.

Lemma split_opts_word w sp s :
  w <> [] -> forallb nonspace w = true -> isspace sp = true ->
  split_opts isspace (w ++ sp :: s) = w :: split_opts isspace s.
Proof.
  intros Hne Hw Hsp. unfold split_opts.
  rewrite split_opts_loop_S.
  rewrite (skip_spaces_word _ _ Hne Hw).
  destruct w as [|b w]; [congruence|]. cbn [app]. cbv beta iota.
  change (b :: w ++ sp :: s) with ((b :: w) ++ sp :: s).
  rewrite (word_app_space _ _ _ Hw Hsp).
  f_equal. apply split_opts_loop_fuel; rewrite ?length_app;
    cbn [List.length]; lia.
Qed.

Lemma split_opts_last w :
  w <> [] -> forallb nonspace w = true -> split_opts isspace w = [w].
Proof.
  intros Hne Hw. unfold split_opts.
  rewrite split_opts_loop_S.
  pose proof (skip_spaces_word w [] Hne Hw) as Hs.
  rewrite app_nil_r in Hs. rewrite Hs.
  destruct w as [|b w]; [congruence|]. cbv beta iota.
  rewrite (word_all _ Hw).
  destruct (List.length (b :: w)); reflexivity.
Qed.

(** X22. split_opts cuts an option string at white space and nowhere
    else.  White space before an argument is passed over; a run of
    characters other than white space that ends at a white space or at
    the end of the string is stored as one argument, and what follows
    that white space is cut in the same way.  So every argument stored
    is non-empty and free of white space, the arguments together are
    the characters of the string other than white space, in order, and
    a string of n characters gives at most (n + 1) / 2 arguments. *)
Theorem split_opts_arguments (s : list byte) :
  Forall (fun w => w <> [] /\ forallb (fun b => negb (isspace b)) w = true)
    (split_opts isspace s)
  /\ List.concat (split_opts isspace s)
     = filter (fun b => negb (isspace b)) s
  /\ Z.of_nat (List.length (split_opts isspace s)) <= (strlen s + 1) / 2
  /\ split_opts isspace [] = []
  /\ (forall sp, isspace sp = true ->
        split_opts isspace (sp :: s) = split_opts isspace s)
  /\ (forall w,
        w <> [] -> forallb (fun b => negb (isspace b)) w = true ->
        split_opts isspace w = [w]
        /\ forall sp, isspace sp = true ->
             split_opts isspace (w ++ sp :: s) = w :: split_opts isspace s).
Proof.
  destruct (split_opts_loop_spec (S (List.length s)) s (Nat.lt_succ_diag_r _))
    as (Hcat & Hok & Hcnt).
  split; [exact Hok|]. split; [exact Hcat|].
  split; [unfold split_opts, strlen; apply Z.div_le_lower_bound; lia|].
  split; [reflexivity|].
  split; [intros sp Hsp; apply split_opts_space; exact Hsp|].
  intros w Hne Hw. split.
  - apply split_opts_last; assumption.
  - intros sp Hsp. apply split_opts_word; assumption.
Qed.

Lemma split_opts_count (s : list byte) :
  Z.of_nat (List.length (split_opts isspace s)) <= (strlen s + 1) / 2.
Proof.
  destruct (split_opts_loop_spec (S (List.length s)) s (Nat.lt_succ_diag_r _))
    as (_ & _ & Hcnt).
  unfold split_opts, strlen. apply Z.div_le_lower_bound; lia.
Qed.

(** X23. The argument vector BackendRun builds fits the space it
    allocates for it, whatever the postmaster's options and the options
    of the connection request are: the number of arguments stays below
    maxac (the assertion [ac < maxac] holds), so that the closing NULL
    is stored inside the allocation.  The switches of the request come
    after "-p" and the database name. *)
Theorem BackendRun_argv_fits (debug_flag : Z) (ExtraOptions : list byte)
    (port : Port) :
  Z.of_nat (List.length (BackendRun_argv isspace debug_flag ExtraOptions port))
  < BackendRun_maxac ExtraOptions port
  /\ exists secure,
       BackendRun_argv isspace debug_flag ExtraOptions port
       = secure
         ++ [Arg_literal "-p"; Arg_database (database_name port)]
         ++ match cmdline_options port with
            | Some o => map Arg_option (split_opts isspace o)
            | None => []
            end
       /\ forall w, In (Arg_option w) secure ->
            In w (split_opts isspace ExtraOptions).
Proof.
  split.
  - unfold BackendRun_argv, BackendRun_maxac.
    rewrite !length_app, !length_map. cbn [List.length].
    pose proof (split_opts_count ExtraOptions) as H1.
    assert (H0 : (List.length (if debug_flag >? 0
                               then [Arg_debug debug_flag] else []) <= 1)%nat)
      by (destruct (debug_flag >? 0); cbn; lia).
    destruct (cmdline_options port) as [o|].
    + pose proof (split_opts_count o) as H2.
      rewrite length_map. lia.
    + cbn [List.length]. lia.
  - exists ([Arg_literal "postgres"]
            ++ (if debug_flag >? 0 then [Arg_debug debug_flag] else [])
            ++ map Arg_option (split_opts isspace ExtraOptions)
            ++ [Arg_proto (proto port)]).
    split.
    + unfold BackendRun_argv. rewrite <- !app_assoc. reflexivity.
    + intros w Hin.
      rewrite !in_app_iff in Hin. cbn [In] in Hin.
      destruct Hin as [[H|[]]|[H|[H|[H|[]]]]]; try discriminate.
      * destruct (debug_flag >? 0); cbn [In] in H;
          [destruct H as [H|[]]; discriminate | destruct H].
      * apply in_map_iff in H. destruct H as (w' & Hw' & Hin).
        injection Hw' as <-. exact Hin.
Qed.

End SplitOptsFacts.

(** ** Salts *)

Lemma CharRemap_small cfg ch :
  0 <= ch < 62 ->
  CharRemap cfg ch
  = if ch <? 26 then 65 + ch
    else if ch <? 52 then 71 + ch else ch - 4.
Proof.
  intro H. unfold CharRemap. cbv zeta.
  destruct (Z.ltb_spec ch 0); [lia|].
  rewrite Z.rem_small by lia.
  destruct (Z.ltb_spec ch 26); [reflexivity|].
  destruct (Z.ltb_spec (ch - 26) 26); destruct (Z.ltb_spec ch 52); lia.
Qed.

Lemma CharRemap_nonneg cfg ch :
  0 <= ch -> CharRemap cfg ch = CharRemap cfg (Z.rem ch 62).
Proof.
  intro H. unfold CharRemap. cbv zeta.
  pose proof (Z.rem_bound_pos ch 62 H ltac:(lia)) as Hb.
  destruct (Z.ltb_spec ch 0); [lia|].
  destruct (Z.ltb_spec (Z.rem ch 62) 0); [lia|].
  rewrite (Z.rem_small (Z.rem ch 62)) by lia. reflexivity.
Qed.

Lemma CharRemap_alnum_nonneg cfg ch : 0 <= ch -> alnum (CharRemap cfg ch).
Proof.
  intro H. rewrite CharRemap_nonneg by exact H.
  pose proof (Z.rem_bound_pos ch 62 H ltac:(lia)) as Hb.
  rewrite CharRemap_small by exact Hb. unfold alnum.
  destruct (Z.ltb_spec (Z.rem ch 62) 26); [lia|].
  destruct (Z.ltb_spec (Z.rem ch 62) 52); lia.
Qed.

(** X24. CharRemap yields a letter or a digit for every argument whose
    negation is a [long] (every value but the least one), gives a
    negative argument the character of its absolute value, and maps the
    62 numbers 0..61 to 62 different characters. *)
Theorem CharRemap_alphanumeric (cfg : config) (ch : Z) :
  - 2 ^ (LONG_BITS cfg - 1) < ch < 2 ^ (LONG_BITS cfg - 1) ->
  alnum (CharRemap cfg ch)
  /\ CharRemap cfg (- ch) = CharRemap cfg ch
  /\ forall a b, 0 <= a < 62 -> 0 <= b < 62 ->
       CharRemap cfg a = CharRemap cfg b -> a = b.
Proof.
  intro Hr.
  assert (Hbits : 0 < LONG_BITS cfg).
  { destruct (Z.ltb_spec 0 (LONG_BITS cfg)) as [|Hle]; [assumption|].
    exfalso. rewrite Z.pow_neg_r in Hr by lia. lia. }
  assert (Hw : forall x, 0 < x < 2 ^ (LONG_BITS cfg - 1) ->
                 wrap_signed (LONG_BITS cfg) x = x).
  { intros x Hx. unfold wrap_signed.
    assert (Hp : 2 ^ LONG_BITS cfg = 2 * 2 ^ (LONG_BITS cfg - 1)).
    { replace (LONG_BITS cfg) with (Z.succ (LONG_BITS cfg - 1)) at 1 by lia.
      apply Z.pow_succ_r. lia. }
    rewrite Z.mod_small by lia. lia. }
  assert (Hneg : forall x, - 2 ^ (LONG_BITS cfg - 1) < x < 0 ->
                   CharRemap cfg x = CharRemap cfg (- x)).
  { intros x Hx. unfold CharRemap at 1. cbv zeta.
    destruct (Z.ltb_spec x 0); [|lia].
    rewrite Hw by lia. unfold CharRemap. cbv zeta.
    destruct (Z.ltb_spec (- x) 0); [lia | reflexivity]. }
  split; [|split].
  - destruct (Z.lt_ge_cases ch 0) as [Hlt|Hge].
    + rewrite Hneg by lia. apply CharRemap_alnum_nonneg. lia.
    + apply CharRemap_alnum_nonneg. exact Hge.
  - destruct (Z.lt_trichotomy ch 0) as [Hlt|[->|Hgt]].
    + symmetry. apply Hneg. lia.
    + reflexivity.
    + replace ch with (- - ch) at 2 by lia. apply Hneg. lia.
  - intros a b Ha Hb. rewrite !CharRemap_small by assumption.
    destruct (Z.ltb_spec a 26); destruct (Z.ltb_spec b 26);
      destruct (Z.ltb_spec a 52); destruct (Z.ltb_spec b 52); lia.
Qed.

(** X25. The salts RandomSalt stores, [random()] giving no negative
    number: both characters of the crypt salt are letters or digits,
    and no byte of the MD5 salt is null (each is between 1 and 255).
    Four random numbers are drawn, and nothing else is changed or
    done. *)
Theorem RandomSalt_salts_wellformed (cfg : config) (s : pmstate) :
  Forall (fun r => 0 <= r) (os_random (os s)) ->
  exists c0 c1 m0 m1 m2 m3,
    RandomSalt_salts cfg s
    = Ret ([c0; c1], [m0; m1; m2; m3]) (final (RandomSalt s))
    /\ alnum c0 /\ alnum c1
    /\ 1 <= m0 <= 255 /\ 1 <= m1 <= 255 /\ 1 <= m2 <= 255
    /\ 1 <= m3 <= 255.
Proof.
  destruct s as [sd fe stp bgw arch stat lg bl key [fl rl ml nl el] tr].
  cbn [os os_random]. intro Hr.
  assert (Hhd : forall l, Forall (fun r => 0 <= r) l ->
                  0 <= hd 0 l /\ Forall (fun r => 0 <= r) (tl l)).
  { intros l Hl. destruct Hl; cbn; split; (lia || constructor || assumption). }
  assert (Hm : forall r, 0 <= r -> 1 <= Z.rem r 255 + 1 <= 255).
  { intros r H0. pose proof (Z.rem_bound_pos r 255 H0 ltac:(lia)). lia. }
  destruct (Hhd _ Hr) as [H0 Hr1]. destruct (Hhd _ Hr1) as [H1 Hr2].
  destruct (Hhd _ Hr2) as [H2 Hr3]. destruct (Hhd _ Hr3) as [H3 _].
  exists (CharRemap cfg (Z.rem (hd 0 rl) 62)),
         (CharRemap cfg (Z.quot (hd 0 rl) 62)),
         (Z.rem (hd 0 rl) 255 + 1), (Z.rem (hd 0 (tl rl)) 255 + 1),
         (Z.rem (hd 0 (tl (tl rl))) 255 + 1),
         (Z.rem (hd 0 (tl (tl (tl rl)))) 255 + 1).
  split.
  - unfold RandomSalt_salts, RandomSalt, PostmasterRandom.
    destruct rl as [|r0 [|r1 [|r2 [|r3 rl]]]]; reflexivity.
  - split; [apply CharRemap_alnum_nonneg;
            apply Z.rem_bound_pos; lia|].
    split; [apply CharRemap_alnum_nonneg;
            apply Z.quot_pos; lia|].
    repeat split; apply Hm; assumption.
Qed.

(** ** Listen sockets *)

Lemma initMasks_loop_spec ls : forall rmask nsocks,
  exists pre rest,
    ls = pre ++ rest
    /\ (rest = [] \/ exists t, rest = -1 :: t)
    /\ ~ In (-1) pre
    /\ fst (initMasks_loop ls rmask nsocks) = rmask ++ pre
    /\ nsocks <= snd (initMasks_loop ls rmask nsocks)
    /\ (forall fd, In fd pre -> fd <= snd (initMasks_loop ls rmask nsocks))
    /\ (pre = [] -> snd (initMasks_loop ls rmask nsocks) = nsocks).
Proof.
  induction ls as [|fd ls IH]; intros rmask nsocks; cbn [initMasks_loop].
  - exists [], []. cbn. rewrite app_nil_r.
    repeat split; auto; try lia; try (intros ? []).
  - destruct (Z.eqb_spec fd (-1)) as [->|Hfd].
    + exists [], (-1 :: ls). cbn. rewrite app_nil_r.
      repeat split; eauto; try lia; try (intros ? []).
    + destruct (IH (rmask ++ [fd]) (if fd >? nsocks then fd else nsocks))
        as (pre & rest & -> & Hrest & Hno & Hf & Hn & Hle & _).
      exists (fd :: pre), rest.
      assert (Hmax : nsocks <= (if fd >? nsocks then fd else nsocks)
                     /\ fd <= (if fd >? nsocks then fd else nsocks)).
      { rewrite Z.gtb_ltb. destruct (Z.ltb_spec nsocks fd); lia. }
      split; [reflexivity|]. split; [exact Hrest|].
      split; [intros [H|H]; [congruence | exact (Hno H)]|].
      split; [rewrite Hf, <- app_assoc; reflexivity|].
      split; [lia|]. split; [|discriminate].
      intros x [<-|Hx]; [lia | apply Hle; exact Hx].
Qed.

Lemma close_listen_sockets_spec ls :
  close_listen_sockets ls
  = (filter (fun fd => negb (fd =? -1)) ls, map (fun _ => -1) ls).
Proof.
  induction ls as [|fd ls IH]; cbn [close_listen_sockets filter map];
    [reflexivity|].
  rewrite IH. destruct (Z.eqb_spec fd (-1)) as [->|]; reflexivity.
Qed.

(** X26. The mask initMasks builds for select holds the listen sockets
    up to the first unused entry (-1) of the array and no other, and the
    count it returns is above every descriptor in the mask (0 for an
    empty mask).  ClosePostmasterPorts closes every open listen socket
    once, also one behind an unused entry, and marks all entries unused:
    afterwards initMasks gives the empty mask and a second call closes
    no listen socket. *)
Theorem listen_sockets_masks (am_syslogger : bool) (ListenSocket : list Z)
    (syslogPipe0 : Z) :
  (exists rest,
     ListenSocket = fst (initMasks ListenSocket) ++ rest
     /\ (rest = [] \/ exists t, rest = -1 :: t)
     /\ ~ In (-1) (fst (initMasks ListenSocket)))
  /\ (forall fd, In fd (fst (initMasks ListenSocket)) ->
                 fd < snd (initMasks ListenSocket))
  /\ (fst (initMasks ListenSocket) = [] -> snd (initMasks ListenSocket) = 0)
  /\ (forall fd, In fd ListenSocket -> fd <> -1 ->
        In fd (fst (ClosePostmasterPorts am_syslogger ListenSocket
                      syslogPipe0)))
  /\ initMasks (fst (snd (ClosePostmasterPorts am_syslogger ListenSocket
                            syslogPipe0))) = ([], 0)
  /\ fst (close_listen_sockets
            (fst (snd (ClosePostmasterPorts am_syslogger ListenSocket
                         syslogPipe0)))) = [].
Proof.
  unfold initMasks, ClosePostmasterPorts.
  destruct (initMasks_loop_spec ListenSocket [] (-1))
    as (pre & rest & Hls & Hrest & Hno & Hf & Hn & Hle & He).
  destruct (initMasks_loop ListenSocket [] (-1)) as [rmask nsocks].
  cbn [fst snd app] in *. subst rmask.
  rewrite close_listen_sockets_spec.
  split; [exists rest; auto|].
  split; [intros fd Hin; specialize (Hle fd Hin); lia|].
  split; [intros ->; rewrite (He eq_refl); reflexivity|].
  assert (Hnew : fst (snd (if negb am_syslogger
      then (filter (fun fd => negb (fd =? -1)) ListenSocket
            ++ (if syslogPipe0 >=? 0 then [syslogPipe0] else []),
            (map (fun _ : Z => -1) ListenSocket, -1))
      else (filter (fun fd => negb (fd =? -1)) ListenSocket,
            (map (fun _ : Z => -1) ListenSocket, syslogPipe0))))
    = map (fun _ => -1) ListenSocket)
    by (destruct am_syslogger; reflexivity).
  rewrite Hnew.
  split; [|split].
  - intros fd Hin Hfd.
    assert (Hfil : In fd (filter (fun fd => negb (fd =? -1)) ListenSocket)).
    { apply filter_In. split; [exact Hin|].
      apply negb_true_iff, Z.eqb_neq. exact Hfd. }
    destruct am_syslogger; cbn [negb fst]; [exact Hfil|].
    apply in_or_app. left. exact Hfil.
  - destruct ListenSocket; reflexivity.
  - rewrite close_listen_sockets_spec. cbn [fst].
    clear. induction ListenSocket as [|x l IH]; cbn; auto.
Qed.

(** ** The backend array of the EXEC_BACKEND build *)

Lemma cancel_scan_skip l1 l2 bpid key :
  (forall b, In b l1 -> pid b <> bpid) ->
  cancel_scan (l1 ++ l2) bpid key = cancel_scan l2 bpid key.
Proof.
  induction l1 as [|b l1 IH]; intro H; cbn [app cancel_scan]; [reflexivity|].
  destruct (Z.eqb_spec (pid b) bpid) as [E|_].
  - exfalso. apply (H b); [left; reflexivity | exact E].
  - apply IH. intros b' Hb'. apply H. right. exact Hb'.
Qed.

Lemma cancel_scan_absent l bpid key :
  (forall b, In b l -> pid b <> bpid) ->
  cancel_scan l bpid key
  = [E_ereport DEBUG2 "bad pid in cancel request for process %d"].
Proof.
  intro H. rewrite <- (app_nil_r l). rewrite cancel_scan_skip by exact H.
  reflexivity.
Qed.

Lemma ShmemBackendArrayAdd_Some bn arr arr' :
  ShmemBackendArrayAdd bn arr = Some arr' ->
  exists l1 b0 l2,
    arr = l1 ++ b0 :: l2 /\ pid b0 = 0
    /\ (forall b, In b l1 -> pid b <> 0) /\ arr' = l1 ++ bn :: l2.
Proof.
  revert arr'. induction arr as [|b arr IH]; cbn [ShmemBackendArrayAdd];
    intros arr' H; [discriminate|].
  destruct (Z.eqb_spec (pid b) 0) as [E|E].
  - injection H as <-. exists [], b, arr. repeat split; auto.
  - destruct (ShmemBackendArrayAdd bn arr) as [r|]; [|discriminate].
    injection H as <-.
    destruct (IH r eq_refl) as (l1 & b0 & l2 & -> & Hb0 & Hl1 & ->).
    exists (b :: l1), b0, l2. repeat split; auto.
    intros x [<-|Hx]; [exact E | apply Hl1; exact Hx].
Qed.

Lemma ShmemBackendArrayAdd_None bn arr :
  ShmemBackendArrayAdd bn arr = None <-> forall b, In b arr -> pid b <> 0.
Proof.
  induction arr as [|b arr IH]; cbn [ShmemBackendArrayAdd].
  - split; [intros _ ? [] | reflexivity].
  - destruct (Z.eqb_spec (pid b) 0) as [E|E].
    + split; [discriminate|]. intro H. exfalso.
      apply (H b); [left; reflexivity | exact E].
    + destruct (ShmemBackendArrayAdd bn arr) as [r|].
      * split; [discriminate|]. intro H. exfalso.
        assert (Hn : Some r = None)
          by (apply IH; intros x Hx; apply H; right; exact Hx).
        discriminate Hn.
      * split; [|reflexivity]. intros _ x [<-|Hx]; [exact E|].
        apply (proj1 IH eq_refl x Hx).
Qed.

(** X27. The backend array of the EXEC_BACKEND build: an entry is
    stored in the first empty slot (pid 0) and nothing else is changed;
    storing fails, with the FATAL report, exactly when no slot is
    empty.  After a backend with a pid not yet in the array has been
    stored, a cancel request with its pid and its key is answered with
    SIGINT to that pid. *)
Theorem ShmemBackendArray_add_lookup (bn : Backend) (arr : list Backend) :
  (ShmemBackendArrayAdd bn arr = None <->
   forall b, In b arr -> pid b <> 0)
  /\ forall arr', ShmemBackendArrayAdd bn arr = Some arr' ->
       (exists l1 b0 l2,
          arr = l1 ++ b0 :: l2 /\ pid b0 = 0
          /\ (forall b, In b l1 -> pid b <> 0) /\ arr' = l1 ++ bn :: l2)
       /\ ((forall b, In b arr -> pid b <> pid bn) ->
           cancel_scan arr' (pid bn) (cancel_key bn)
           = [E_ereport DEBUG2
                "processing cancel request: sending SIGINT to process %d";
              E_kill (pid bn) SIGINT]).
Proof.
  split; [apply ShmemBackendArrayAdd_None|].
  intros arr' H.
  destruct (ShmemBackendArrayAdd_Some bn arr arr' H)
    as (l1 & b0 & l2 & -> & Hb0 & Hl1 & ->).
  split; [exists l1, b0, l2; auto|].
  intro Hfresh. rewrite cancel_scan_skip.
  - cbn [cancel_scan]. rewrite !Z.eqb_refl. reflexivity.
  - intros b Hb. apply Hfresh. apply in_or_app. left. exact Hb.
Qed.

Lemma ShmemBackendArrayRemove_spec p arr :
  p <> 0 ->
  (fst (ShmemBackendArrayRemove p arr) = true <->
   exists b, In b arr /\ pid b = p)
  /\ List.length (snd (ShmemBackendArrayRemove p arr)) = List.length arr
  /\ occupied (snd (ShmemBackendArrayRemove p arr))
     = match remove_first p (occupied arr) with
       | Some l => l
       | None => occupied arr
       end.
Proof.
  intro Hp. induction arr as [|b arr IH]; cbn [ShmemBackendArrayRemove].
  - cbn. split; [|auto]. split; [discriminate | intros (b & [] & _)].
  - destruct IH as (IH1 & IH2 & IH3).
    destruct (Z.eqb_spec (pid b) p) as [E|E].
    + cbn [fst snd List.length]. split; [|split; [reflexivity|]].
      * split; [intros _; exists b; split; [left; reflexivity | exact E]
               | reflexivity].
      * unfold occupied. cbn [filter pid].
        destruct (Z.eqb_spec (pid b) 0) as [E0|E0]; [congruence|].
        cbn [negb remove_first]. rewrite E, !Z.eqb_refl. reflexivity.
    + destruct (ShmemBackendArrayRemove p arr) as [found rest'].
      cbn [fst snd List.length] in *.
      split; [|split; [lia|]].
      * rewrite IH1. split.
        -- intros (x & Hx & Hpx). exists x. split; [right; exact Hx|exact Hpx].
        -- intros (x & [<-|Hx] & Hpx); [congruence|]. exists x. auto.
      * unfold occupied in *. cbn [filter].
        destruct (Z.eqb_spec (pid b) 0) as [E0|E0]; cbn [negb].
        -- exact IH3.
        -- cbn [remove_first]. rewrite IH3.
           destruct (Z.eqb_spec (pid b) p); [congruence|].
           destruct (remove_first p (filter _ arr)); reflexivity.
Qed.

Lemma ShmemBackendArrayRemove_gone p arr :
  p <> 0 -> NoDup (map pid (occupied arr)) ->
  forall b, In b (snd (ShmemBackendArrayRemove p arr)) -> pid b <> p.
Proof.
  intros Hp. induction arr as [|b arr IH]; cbn [ShmemBackendArrayRemove];
    intros Hnd x Hx; [destruct Hx|].
  destruct (Z.eqb_spec (pid b) p) as [E|E].
  - cbn [snd] in Hx. destruct Hx as [<-|Hx]; [cbn; congruence|].
    intro Hpx. unfold occupied in Hnd. cbn [filter] in Hnd.
    destruct (Z.eqb_spec (pid b) 0) as [E0|E0]; [congruence|].
    cbn [negb map] in Hnd. apply NoDup_cons_iff in Hnd.
    destruct Hnd as [Hnin _]. apply Hnin.
    apply in_map_iff. exists x. split; [congruence|].
    apply filter_In. split; [exact Hx|].
    apply negb_true_iff, Z.eqb_neq. congruence.
  - destruct (ShmemBackendArrayRemove p arr) as [found rest'].
    cbn [snd] in *. destruct Hx as [<-|Hx]; [exact E|].
    apply IH; [|exact Hx].
    unfold occupied in *. cbn [filter] in Hnd.
    destruct (negb (pid b =? 0)); [|exact Hnd].
    cbn [map] in Hnd. apply NoDup_cons_iff in Hnd. tauto.
Qed.

(** X28. Removing a pid from the backend array of the EXEC_BACKEND
    build empties the first slot that holds it and touches no other:
    the slots in use afterwards are those before with that entry
    unlinked, as CleanupBackend unlinks it from the backend list, and
    the size of the array is unchanged.  The pid is reported as not
    found exactly when no slot holds it.  With no pid stored twice, no
    cancel request for the removed pid leads to a signal afterwards,
    and the next backend can be stored. *)
Theorem ShmemBackendArray_remove (p : Z) (arr : list Backend) :
  p <> 0 ->
  (fst (ShmemBackendArrayRemove p arr) = true <->
   exists b, In b arr /\ pid b = p)
  /\ List.length (snd (ShmemBackendArrayRemove p arr)) = List.length arr
  /\ occupied (snd (ShmemBackendArrayRemove p arr))
     = match remove_first p (occupied arr) with
       | Some l => l
       | None => occupied arr
       end
  /\ (NoDup (map pid (occupied arr)) ->
      forall key,
        cancel_scan (snd (ShmemBackendArrayRemove p arr)) p key
        = [E_ereport DEBUG2 "bad pid in cancel request for process %d"])
  /\ (fst (ShmemBackendArrayRemove p arr) = true ->
      forall bn,
        ShmemBackendArrayAdd bn (snd (ShmemBackendArrayRemove p arr))
        <> None).
Proof.
  intro Hp.
  destruct (ShmemBackendArrayRemove_spec p arr Hp) as (H1 & H2 & H3).
  split; [exact H1|]. split; [exact H2|]. split; [exact H3|]. split.
  - intros Hnd key. apply cancel_scan_absent.
    apply ShmemBackendArrayRemove_gone; assumption.
  - intros Hfound bn Hnone.
    rewrite ShmemBackendArrayAdd_None in Hnone.
    clear H1 H2 H3. revert Hfound Hnone.
    induction arr as [|b arr IH]; cbn [ShmemBackendArrayRemove].
    + discriminate.
    + destruct (Z.eqb_spec (pid b) p) as [E|E].
      * intros _ H. cbn [snd] in H.
        apply (H (mkBackend 0 (cancel_key b))); [left|]; reflexivity.
      * destruct (ShmemBackendArrayRemove p arr) as [found rest'].
        cbn [fst snd] in *. intros Hf H. apply (IH Hf).
        intros x Hx. apply H. right. exact Hx.
Qed.

(** X29. In the EXEC_BACKEND build the search for the target of a
    cancel request does not pass over empty slots: a request that names
    pid 0 is compared with the first empty slot of the array, and when
    its key is the one left in that slot (0 in a slot never used), kill
    is called with pid 0 and SIGINT.  On the backend list of the other
    build, which holds pids of forked children only, such a request
    finds nothing. *)
Theorem cancel_request_pid_0_matches_empty_slot (l1 l2 : list Backend)
    (b0 : Backend) (cfg : config) (bl : list Backend) (key : Z) :
  pid b0 = 0 -> (forall b, In b l1 -> pid b <> 0) ->
  cancel_scan (l1 ++ b0 :: l2) 0 (cancel_key b0)
  = [E_ereport DEBUG2
       "processing cancel request: sending SIGINT to process %d";
     E_kill 0 SIGINT]
  /\ (0 < to_int (2 * MaxBackends cfg) ->
      cancel_scan (ShmemBackendArrayAllocation cfg) 0 0
      = [E_ereport DEBUG2
           "processing cancel request: sending SIGINT to process %d";
         E_kill 0 SIGINT])
  /\ ((forall b, In b bl -> 0 < pid b) ->
      cancel_scan bl 0 key
      = [E_ereport DEBUG2 "bad pid in cancel request for process %d"]).
Proof.
  intros Hb0 Hl1. split; [|split].
  - rewrite cancel_scan_skip by exact Hl1.
    cbn [cancel_scan]. rewrite Hb0, !Z.eqb_refl. reflexivity.
  - intro Hn. unfold ShmemBackendArrayAllocation.
    destruct (Z.to_nat (to_int (2 * MaxBackends cfg))) eqn:E; [lia|].
    reflexivity.
  - intro Hpos. apply cancel_scan_absent.
    intros b Hb. specialize (Hpos b Hb). lia.
Qed.

(** ** Whom the postmaster signals *)

Lemma safe_bind_val {A B} (R : A -> Prop) (R' : B -> Prop)
    (m : PM A) (k : A -> PM B) :
  safe_with R m -> (forall a, R a -> safe_with R' (k a)) ->
  safe_with R' (bind m k).
Proof.
  intros Hm Hk s Hs. unfold bind.
  destruct (Hm s Hs) as (H1 & (l1 & Ht1 & Hf1) & Hr).
  destruct (m s) as [a s'|st s'|r s']; cbn [final] in *;
    try (split; [exact H1 | split; [exists l1; split; assumption | exact I]]).
  destruct (Hk a Hr s' H1) as (H2 & (l2 & Ht2 & Hf2) & Hr2).
  split; [exact H2|]. split; [|exact Hr2].
  exists (l1 ++ l2). split.
  - rewrite Ht2, Ht1, app_assoc. reflexivity.
  - apply Forall_app. split; assumption.
Qed.

Lemma safe_ret_val {A} (R : A -> Prop) (a : A) : R a -> safe_with R (ret a).
Proof.
  intros Ha s Hs. split; [exact Hs|]. split; [|exact Ha].
  exists []. split; [|constructor]. cbn. rewrite app_nil_r. reflexivity.
Qed.

Lemma safe_gets_val {A} (R : A -> Prop) (f : pmstate -> A) :
  (forall s, pids_ok s -> R (f s)) -> safe_with R (gets f).
Proof.
  intros Hf s Hs. split; [exact Hs|]. split; [|exact (Hf s Hs)].
  exists []. split; [|constructor]. cbn. rewrite app_nil_r. reflexivity.
Qed.

Lemma safe_exit st : safe (ExitPostmaster st).
Proof.
  intros s Hs. split; [exact Hs|]. split; [|exact I].
  exists []. split; [|constructor]. cbn. rewrite app_nil_r. reflexivity.
Qed.

Lemma safe_become r : safe (become r).
Proof.
  intros s Hs. split; [exact Hs|]. split; [|exact I].
  exists []. split; [|constructor]. cbn. rewrite app_nil_r. reflexivity.
Qed.

Lemma safe_modify (f : pmstate -> pmstate) :
  (forall s, pids_ok s ->
     pids_ok (f s)
     /\ exists l, trace (f s) = trace s ++ l /\ Forall kill_ok l) ->
  safe (modify f).
Proof.
  intros Hf s Hs. destruct (Hf s Hs) as (H1 & H2).
  split; [exact H1|]. split; [exact H2 | exact I].
Qed.

Lemma safe_fork : safe fork.
Proof.
  intros s Hs. unfold fork. cbn [final]. split; [exact Hs|].
  split; [|exact I]. eexists [_]. split; [reflexivity|].
  repeat constructor.
Qed.

Lemma safe_random : safe random.
Proof.
  intros s Hs. unfold random. cbn [final]. split; [exact Hs|].
  split; [|exact I]. exists []. split; [|constructor].
  cbn. rewrite app_nil_r. reflexivity.
Qed.

Lemma safe_malloc : safe malloc.
Proof.
  intros s Hs. unfold malloc. cbn [final]. split; [exact Hs|].
  split; [|exact I]. exists []. split; [|constructor].
  cbn. rewrite app_nil_r. reflexivity.
Qed.

Lemma safe_set_noblock : safe set_noblock.
Proof.
  intros s Hs. unfold set_noblock. cbn [final]. split; [exact Hs|].
  split; [|exact I]. exists []. split; [|constructor].
  cbn. rewrite app_nil_r. reflexivity.
Qed.

Lemma safe_errno : safe errno.
Proof.
  intros s Hs. unfold errno. cbn [final]. split; [exact Hs|].
  split; [|exact I]. exists []. split; [|constructor].
  cbn. rewrite app_nil_r. reflexivity.
Qed.

Lemma safe_for_each_in {A} (l : list A) (f : A -> PM unit) :
  (forall x, In x l -> safe (f x)) -> safe (for_each l f).
Proof.
  induction l as [|x l IH]; intro Hf; cbn [for_each].
  - apply safe_ret_val. exact I.
  - apply (safe_bind_val (fun _ => True)).
    + apply Hf. left. reflexivity.
    + intros _ _. apply IH. intros y Hy. apply Hf. right. exact Hy.
Qed.

Lemma Forall_filter_keep {A} (P : A -> Prop) (f : A -> bool) (l : list A) :
  Forall P l -> Forall P (filter f l).
Proof.
  intro H. rewrite Forall_forall in *. intros x Hx.
  apply filter_In in Hx. apply H. tauto.
Qed.

Lemma Forall_remove_first (P : Backend -> Prop) p l l' :
  remove_first p l = Some l' -> Forall P l -> Forall P l'.
Proof.
  intros Hr H. rewrite Forall_forall in *. intros x Hx.
  apply H. exact (remove_first_incl p l l' Hr x Hx).
Qed.

(** Facts about booleans among the hypotheses, for [lia]. *)
Ltac props :=
  repeat match goal with
         | H : _ && _ = true |- _ =>
             apply andb_true_iff in H; destruct H
         | H : negb _ = true |- _ => apply negb_true_iff in H
         | H : negb _ = false |- _ => apply negb_false_iff in H
         end;
  z_props.

Ltac list_ok :=
  first [ assumption
        | apply Forall_nil
        | apply Forall_filter_keep; assumption
        | eapply Forall_remove_first; eassumption
        | apply Forall_cons; [cbn [pid]; lia | assumption] ].

(** A step that changes the state directly. *)
Ltac safe_leaf :=
  unfold ereport, kill, call;
  apply safe_modify;
  intros [? ? ? ? ? ? ? ? ? ? ?] (? & ? & ? & ? & ? & ?);
  cbn [StartupPID BgWriterPID PgArchPID PgStatPID SysLoggerPID BackendList]
    in *;
  props;
  (split;
   [ unfold pids_ok, emit;
     cbn [StartupPID BgWriterPID PgArchPID PgStatPID SysLoggerPID
          BackendList set_Shutdown set_FatalError set_StartupPID
          set_BgWriterPID set_PgArchPID set_PgStatPID set_SysLoggerPID
          set_BackendList set_MyCancelKey];
     repeat split; first [assumption | lia | list_ok]
   | first
       [ exists []; split;
         [cbn; rewrite app_nil_r; reflexivity | constructor]
       | eexists [_]; split;
         [ reflexivity
         | constructor; [cbn [kill_ok]; first [exact I | lia]
                        | constructor] ] ] ]).

Ltac pid_facts :=
  apply safe_gets_val;
  intros ? (? & ? & ? & ? & ? & ?); assumption.

Ltac safe_step :=
  match goal with
  | |- safe _ => unfold safe
  | |- safe_with _ (bind (gets StartupPID) _) =>
      apply (safe_bind_val (fun v => 0 <= v)); [pid_facts | intros ? ?]
  | |- safe_with _ (bind (gets BgWriterPID) _) =>
      apply (safe_bind_val (fun v => 0 <= v)); [pid_facts | intros ? ?]
  | |- safe_with _ (bind (gets PgArchPID) _) =>
      apply (safe_bind_val (fun v => 0 <= v)); [pid_facts | intros ? ?]
  | |- safe_with _ (bind (gets PgStatPID) _) =>
      apply (safe_bind_val (fun v => 0 <= v)); [pid_facts | intros ? ?]
  | |- safe_with _ (bind (gets SysLoggerPID) _) =>
      apply (safe_bind_val (fun v => 0 <= v)); [pid_facts | intros ? ?]
  | |- safe_with _ (bind (gets BackendList) _) =>
      apply (safe_bind_val (Forall (fun bp => 0 < pid bp)));
      [pid_facts | intros ? ?]
  | |- safe_with _ (bind (gets _) _) =>
      apply (safe_bind_val (fun _ => True));
      [apply safe_gets_val; intros; exact I | intros ? _]
  | |- safe_with _ (ret _) =>
      apply safe_ret_val; props; first [exact I | lia | list_ok]
  | |- safe_with _ (when ?b _) => destruct b eqn:?; cbn [when]
  | |- safe_with _ (if ?b then _ else _) => destruct b eqn:?
  | |- safe_with _ (match ?x with _ => _ end) => destruct x eqn:?
  | |- safe_with _ (ExitPostmaster _) => apply safe_exit
  | |- safe_with _ (become _) => apply safe_become
  | |- safe_with _ fork => apply safe_fork
  | |- safe_with _ random => apply safe_random
  | |- safe_with _ PostmasterRandom => apply safe_random
  | |- safe_with _ malloc => apply safe_malloc
  | |- safe_with _ set_noblock => apply safe_set_noblock
  | |- safe_with _ errno => apply safe_errno
  | |- safe_with _ (modify _) => safe_leaf
  | |- safe_with _ (ereport _ _) => safe_leaf
  | |- safe_with _ (kill _ _) => safe_leaf
  | |- safe_with _ (call _) => safe_leaf
  end.

Lemma safe_StartChildProcess x :
  safe_with (fun p => 0 <= p) (StartChildProcess x).
Proof.
  unfold StartChildProcess.
  apply (safe_bind_val (fun _ => True)); [safe_leaf | intros _ _].
  apply (safe_bind_val (fun _ => True)); [safe_leaf | intros _ _].
  apply (safe_bind_val (fun _ => True)); [apply safe_fork | intros p _].
  destruct (p =? 0) eqn:E0.
  - intros s Hs. cbn. split; [exact Hs|]. split; [|exact I].
    exists []. split; [rewrite app_nil_r; reflexivity | constructor].
  - destruct (p <? 0) eqn:E1.
    + apply (safe_bind_val (fun _ => True)); [safe_leaf | intros _ _].
      destruct x.
      * apply (safe_bind_val (fun _ => True));
          [apply safe_exit | intros _ _].
        apply safe_ret_val. lia.
      * apply safe_ret_val. lia.
    + apply safe_ret_val. props. lia.
Qed.

Lemma safe_helper_start name :
  safe_with (fun p => 0 <= p) (helper_start name).
Proof.
  unfold helper_start.
  apply (safe_bind_val (fun _ => True)); [apply safe_fork | intros p _].
  destruct (p =? 0) eqn:E0.
  - intros s Hs. cbn. split; [exact Hs|]. split; [|exact I].
    exists []. split; [rewrite app_nil_r; reflexivity | constructor].
  - destruct (p <? 0) eqn:E1; apply safe_ret_val; props; lia.
Qed.

Lemma safe_SignalChildren sig : safe (SignalChildren sig).
Proof.
  unfold SignalChildren, safe.
  apply (safe_bind_val (Forall (fun bp => 0 < pid bp)));
    [pid_facts | intros bl Hbl].
  apply safe_for_each_in. intros bp Hbp.
  rewrite Forall_forall in Hbl. specialize (Hbl bp Hbp).
  apply (safe_bind_val (fun _ => True)); [safe_leaf | intros _ _].
  safe_leaf.
Qed.

Lemma safe_crash_scan cfg dead l :
  Forall (fun bp => 0 < pid bp) l ->
  safe_with (Forall (fun bp => 0 < pid bp)) (crash_scan cfg dead l).
Proof.
  induction 1 as [|bp l Hbp Hl IH]; cbn [crash_scan].
  - apply safe_ret_val. constructor.
  - destruct (pid bp =? dead).
    + apply (safe_bind_val (fun _ => True)); [safe_leaf | intros _ _].
      exact IH.
    + apply (safe_bind_val (fun _ => True));
        [apply safe_gets_val; intros; exact I | intros fe _].
      apply (safe_bind_val (fun _ => True)).
      * destruct fe; cbn [negb when]; [apply safe_ret_val; exact I|].
        apply (safe_bind_val (fun _ => True)); [safe_leaf | intros _ _].
        safe_leaf.
      * intros _ _.
        apply (safe_bind_val (Forall (fun bp => 0 < pid bp)));
          [exact IH | intros rest Hrest].
        apply safe_ret_val. constructor; assumption.
Qed.

(** Takes a computation apart, keeping what is known of the values it
    reads and of the branches it takes. *)
Ltac safety :=
  repeat first
    [ match goal with
      | |- safe_with _ (bind StartBackgroundWriter _) =>
          apply (safe_bind_val (fun p => 0 <= p));
          [apply safe_StartChildProcess | intros ? ?]
      | |- safe_with _ (bind StartupDataBase _) =>
          apply (safe_bind_val (fun p => 0 <= p));
          [apply safe_StartChildProcess | intros ? ?]
      | |- safe_with _ (bind pgarch_start _) =>
          apply (safe_bind_val (fun p => 0 <= p));
          [apply safe_helper_start | intros ? ?]
      | |- safe_with _ (bind pgstat_start _) =>
          apply (safe_bind_val (fun p => 0 <= p));
          [apply safe_helper_start | intros ? ?]
      | |- safe_with _ (bind SysLogger_Start _) =>
          apply (safe_bind_val (fun p => 0 <= p));
          [apply safe_helper_start | intros ? ?]
      | |- safe_with _ (bind (crash_scan _ _ _) _) =>
          apply (safe_bind_val (Forall (fun bp => 0 < pid bp)));
          [apply safe_crash_scan; assumption | intros ? ?]
      | |- safe_with _ (SignalChildren _) => apply safe_SignalChildren
      end
    | safe_step
    | match goal with
      | |- safe_with _ (bind _ _) =>
          apply (safe_bind_val (fun _ => True)); [| intros ? _]
      end ].

Lemma safe_begin_database_shutdown : safe begin_database_shutdown.
Proof. unfold begin_database_shutdown. safety. Qed.

Lemma safe_HandleChildCrash cfg p st name :
  safe (HandleChildCrash cfg p st name).
Proof. unfold HandleChildCrash, LogChildExit. safety. Qed.

Lemma safe_CleanupBackend cfg p st : safe (CleanupBackend cfg p st).
Proof.
  unfold CleanupBackend, LogChildExit.
  repeat first [ apply safe_HandleChildCrash | progress safety ].
Qed.

Lemma safe_reap_one cfg p st : safe (reap_one cfg p st).
Proof.
  unfold reap_one, LogChildExit.
  repeat first [ apply safe_HandleChildCrash | apply safe_CleanupBackend
               | progress safety ].
Qed.

Lemma safe_reaper cfg dead : safe (reaper cfg dead).
Proof.
  assert (Hloop : safe (reaper_loop cfg dead)).
  { induction dead as [|[p st] dead IH]; cbn [reaper_loop].
    - apply safe_ret_val. exact I.
    - destruct (p >? 0); [|apply safe_ret_val; exact I].
      apply (safe_bind_val (fun _ => True));
        [apply safe_reap_one | intros _ _; exact IH]. }
  unfold reaper.
  repeat first [ apply Hloop | apply safe_begin_database_shutdown
               | progress safety ].
Qed.

Lemma safe_pmdie sig : safe (pmdie sig).
Proof.
  unfold pmdie.
  repeat first [ apply safe_begin_database_shutdown | progress safety ].
Qed.

Lemma safe_SIGHUP_handler : safe SIGHUP_handler.
Proof. unfold SIGHUP_handler. safety. Qed.

Lemma safe_sigusr1_handler a b c : safe (sigusr1_handler a b c).
Proof. unfold sigusr1_handler. safety. Qed.

Lemma safe_ServerLoop_pass cfg ready : safe (ServerLoop_pass cfg ready).
Proof.
  unfold ServerLoop_pass, ConnCreate, BackendStartup, RandomSalt,
    report_fork_failure_to_client.
  unfold safe.
  apply (safe_bind_val (fun _ => True)).
  - apply safe_for_each_in. intros x _. safety.
  - intros _ _. safety.
Qed.

Lemma safe_run cfg evs : safe (run cfg evs).
Proof.
  unfold run. apply safe_for_each_in. intros ev _.
  destruct ev; cbn [step].
  - apply safe_pmdie.
  - apply safe_SIGHUP_handler.
  - apply safe_sigusr1_handler.
  - apply safe_reaper.
  - apply safe_ServerLoop_pass.
Qed.

(** X30. The postmaster signals single processes only: started with
    pids of children (special pids positive or 0, positive pids on the
    backend list), no course of events makes it call kill with pid 0 or
    a negative pid, which would signal a process group or every
    process; and it ends with pids of children again. *)
Theorem never_signals_a_process_group (cfg : config) (evs : list event)
    (s : pmstate) :
  pids_ok s ->
  pids_ok (final (run cfg evs s))
  /\ forall p sig,
       In (E_kill p sig) (added s (final (run cfg evs s))) -> 0 < p.
Proof.
  intro Hs. destruct (safe_run cfg evs s Hs) as (H1 & (l & Hl & Hf) & _).
  split; [exact H1|]. intros p sig Hin.
  rewrite (added_app _ _ _ Hl) in Hin.
  rewrite Forall_forall in Hf. exact (Hf _ Hin).
Qed.

(** ** Instances *)

(** Smart shutdown requested with backends 42 and 43 connected. *)
Lemma pmdie_smart_waits_for_backends_serving :
  exists l,
    pmdie SIGTERM serving_state
    = Ret tt (set_Shutdown SmartShutdown (emits l serving_state))
    /\ signals l = [] /\ forks l = []
    /\ log_lines l = ["received smart shutdown request"%string].
Proof.
  apply (pmdie_smart_waits_for_backends serving_state).
  - vm_compute. reflexivity.
  - vm_compute. discriminate.
Defined.

(** Fast shutdown requested with backends 42 and 43 connected. *)
Lemma pmdie_fast_terminates_backends_serving :
  exists l,
    pmdie SIGINT serving_state
    = Ret tt (set_Shutdown FastShutdown (emits l serving_state))
    /\ signals l = [(42, SIGTERM); (43, SIGTERM)]
    /\ forks l = [].
Proof.
  apply (pmdie_fast_terminates_backends serving_state).
  - vm_compute. reflexivity.
  - vm_compute. discriminate.
Defined.

(** Shutdown requested with no client connected: at once, and a fast
    request after a smart one. *)
Lemma pmdie_idle_begins_shutdown_idle :
  (exists l,
     pmdie SIGTERM idle_state
     = Ret tt (set_Shutdown SmartShutdown (emits l idle_state))
     /\ signals l = [(500, SIGUSR2); (501, SIGQUIT); (502, SIGQUIT)]
     /\ forks l = [])
  /\ (exists l,
        pmdie SIGINT smart_idle_state
        = Ret tt (set_Shutdown FastShutdown (emits l smart_idle_state))
        /\ signals l = [(500, SIGUSR2); (501, SIGQUIT); (502, SIGQUIT)]
        /\ forks l = [])
  /\ pmdie SIGTERM smart_idle_state
     = Ret tt (emits [E_ereport DEBUG2 "postmaster received signal %d"]
                 smart_idle_state).
Proof.
  split; [|split].
  - apply (pmdie_idle_begins_shutdown idle_state);
      solve [reflexivity | vm_compute; reflexivity
            | vm_compute; discriminate].
  - apply (pmdie_idle_begins_shutdown smart_idle_state);
      solve [reflexivity | vm_compute; reflexivity
            | vm_compute; discriminate].
  - apply (pmdie_idle_begins_shutdown smart_idle_state);
      solve [reflexivity | vm_compute; reflexivity
            | vm_compute; discriminate].
Defined.

(** The background writer 500 exits with status 0 at the end of a
    shutdown. *)
Lemma reaper_writer_exit_ends_postmaster_500 :
  exists l,
    reaper stock_config [(500, 0); (503, 0)] writer_finishing_state
    = Exit 0 (set_BgWriterPID 0 (emits l writer_finishing_state))
    /\ signals l = [] /\ forks l = [] /\ log_lines l = [].
Proof.
  apply (reaper_writer_exit_ends_postmaster stock_config [(503, 0)]
           writer_finishing_state).
  - vm_compute. reflexivity.
  - reflexivity.
  - vm_compute. reflexivity.
  - reflexivity.
  - reflexivity.
Defined.

(** Backend 42, the last one, exits during a smart shutdown. *)
Lemma reaper_last_backend_begins_shutdown_42 :
  exists l,
    reaper stock_config [(42, 0)] last_backend_state
    = Ret tt (set_BackendList [] (emits l last_backend_state))
    /\ signals l = [(500, SIGUSR2); (501, SIGQUIT); (502, SIGQUIT)]
    /\ forks l = [] /\ log_lines l = [].
Proof.
  apply (reaper_last_backend_begins_shutdown stock_config (mkBackend 42 7)
           last_backend_state);
    try reflexivity; vm_compute; discriminate.
Defined.

(** The background writer 500 exits with status 0 in normal
    operation. *)
Lemma reap_writer_exit_is_crash_500 :
  exists s',
    reap_one stock_config 500 0 serving_state = Ret tt s'
    /\ FatalError s' = true /\ BgWriterPID s' = 0
    /\ BackendList s' = two_backends
    /\ signals (added serving_state s')
       = [(42, SIGQUIT); (43, SIGQUIT); (501, SIGQUIT); (502, SIGQUIT)].
Proof.
  destruct (reap_writer_exit_is_crash stock_config 0 serving_state)
    as (s' & Hr & Hfe & Hbg & Hbl & Hsig); try reflexivity.
  exists s'. split; [exact Hr|]. split; [exact Hfe|]. split; [exact Hbg|].
  split; [exact Hbl|]. rewrite Hsig, Hbl. reflexivity.
Defined.

(** The statistics collector 502 is killed by signal 9 in normal
    operation. *)
Lemma reap_helper_is_no_crash_502 :
  FatalError (final (reap_one stock_config 502 9 serving_state)) = false
  /\ BackendList (final (reap_one stock_config 502 9 serving_state))
     = two_backends
  /\ signals (added serving_state
                (final (reap_one stock_config 502 9 serving_state))) = [].
Proof.
  destruct (reap_helper_is_no_crash stock_config 502 9 serving_state)
    as (H1 & _ & H3 & H4 & _).
  - discriminate.
  - vm_compute. discriminate.
  - vm_compute. discriminate.
  - right. reflexivity.
  - split; [exact H1|]. split; [exact H3 | exact H4].
Defined.

(** The startup process 300 of a crash recovery ends with status 0. *)
Lemma FatalError_cleared_only_by_startup_300 :
  exists dead,
    Ev_sigchld [(300, 0)] = Ev_sigchld dead
    /\ StartupPID recovering_state <> 0
    /\ In (StartupPID recovering_state, 0) dead.
Proof.
  apply (FatalError_cleared_only_by_startup stock_config
           (Ev_sigchld [(300, 0)]) recovering_state).
  - reflexivity.
  - vm_compute. reflexivity.
Defined.

(** A version 3.0 startup packet sent to a child that was told
    CAC_TOOMANY. *)
Lemma authentication_needs_CAC_OK_toomany :
  fst (BackendRun stock_config quiet_env
         (with_canAcceptConnections CAC_TOOMANY tcp_port) alice_packet)
  = BE_fatal ERRCODE_TOO_MANY_CONNECTIONS "sorry, too many clients already"
  /\ forall p',
       fst (BackendRun stock_config quiet_env
              (with_canAcceptConnections CAC_TOOMANY tcp_port) alice_packet)
       <> BE_authenticate p'.
Proof.
  split; [vm_compute; reflexivity|].
  apply (authentication_needs_CAC_OK stock_config quiet_env
           (with_canAcceptConnections CAC_TOOMANY tcp_port) alice_packet).
  vm_compute. discriminate.
Defined.

(** A connection that comes in during a fast shutdown. *)
Lemma shutdown_request_rejects_new_clients_stopping :
  canAcceptConnections_of (with_canAcceptConnections CAC_SHUTDOWN tcp_port)
  = CAC_SHUTDOWN
  /\ forall env input p',
       fst (BackendRun stock_config env
              (with_canAcceptConnections CAC_SHUTDOWN tcp_port) input)
       <> BE_authenticate p'.
Proof.
  apply (shutdown_request_rejects_new_clients stock_config
           [Ev_loop [Some (7, AF_INET)]] stopping_state
           (final (run stock_config [Ev_loop [Some (7, AF_INET)]]
                     stopping_state))
           (with_canAcceptConnections CAC_SHUTDOWN tcp_port)).
  - vm_compute. reflexivity.
  - vm_compute. reflexivity.
Defined.

(** Backend 42, the last child of a crashed server, is reaped. *)
Lemma reset_shared_only_when_drained_42 :
  (exists dead, Ev_sigchld [(42, 9)] = Ev_sigchld dead)
  /\ FatalError (final (step stock_config (Ev_sigchld [(42, 9)])
                          draining_state)) = true
  /\ BackendList (final (step stock_config (Ev_sigchld [(42, 9)])
                           draining_state)) = []
  /\ BgWriterPID (final (step stock_config (Ev_sigchld [(42, 9)])
                           draining_state)) = 0.
Proof.
  apply (reset_shared_only_when_drained stock_config (Ev_sigchld [(42, 9)])
           draining_state).
  vm_compute. do 5 right. left. reflexivity.
Defined.

(** A connection taken while the startup process 300 is at work. *)
Lemma ServerLoop_starts_no_worker_in_recovery_300 :
  BgWriterPID (final (ServerLoop_pass stock_config [Some (7, AF_INET)]
                        recovering_state)) = 0
  /\ PgArchPID (final (ServerLoop_pass stock_config [Some (7, AF_INET)]
                         recovering_state)) = 0
  /\ PgStatPID (final (ServerLoop_pass stock_config [Some (7, AF_INET)]
                         recovering_state)) = 0.
Proof.
  apply (ServerLoop_starts_no_worker_in_recovery stock_config
           [Some (7, AF_INET)] recovering_state).
  left. reflexivity.
Defined.

(** A length word of 7. *)
Lemma length_out_of_range_refused_7 :
  ProcessStartupPacket stock_config quiet_env false
    (new_conn tcp_port [x00; x00; x00; x07; x00; x03])
  = (PSP_return STATUS_ERROR,
     c_emit (E_ereport COMMERROR "invalid length of startup packet")
       (after_packet (new_conn tcp_port [x00; x00; x00; x07; x00; x03])
          [x00; x03]))
  /\ forall port,
       fst (BackendRun stock_config quiet_env port
              ([x00; x00; x00; x07] ++ [x00; x03])) = BE_proc_exit 0.
Proof.
  apply (length_out_of_range_refused stock_config quiet_env false
           (new_conn tcp_port [x00; x00; x00; x07; x00; x03])
           [x00; x00; x00; x07] [x00; x03]).
  - reflexivity.
  - reflexivity.
  - vm_compute. discriminate.
  - left. vm_compute. reflexivity.
Defined.

(** The version 3.0 startup packet of user alice. *)
Lemma authenticated_names_bounded_alice :
  exists u d,
    user_name (c_port (snd (BackendRun stock_config quiet_env tcp_port
                              alice_packet))) = Some u
    /\ database_name (c_port (snd (BackendRun stock_config quiet_env
                                     tcp_port alice_packet))) = Some d
    /\ strlen u < NAMEDATALEN stock_config
    /\ strlen d < NAMEDATALEN stock_config
    /\ (Db_user_namespace stock_config = false ->
        1 < NAMEDATALEN stock_config -> u <> []).
Proof.
  apply (authenticated_names_bounded stock_config quiet_env tcp_port
           alice_packet).
  - vm_compute. reflexivity.
  - vm_compute. reflexivity.
Defined.

(** The character for -7. *)
Lemma CharRemap_alphanumeric_minus_7 :
  alnum (CharRemap stock_config (-7))
  /\ CharRemap stock_config (- -7) = CharRemap stock_config (-7)
  /\ forall a b, 0 <= a < 62 -> 0 <= b < 62 ->
       CharRemap stock_config a = CharRemap stock_config b -> a = b.
Proof.
  apply (CharRemap_alphanumeric stock_config (-7)).
  vm_compute. split; reflexivity.
Defined.

(** The salts drawn from the random numbers 11, 12, 13, 14. *)
Lemma RandomSalt_salts_wellformed_boot :
  exists c0 c1 m0 m1 m2 m3,
    RandomSalt_salts stock_config (boot_state recovery_os)
    = Ret ([c0; c1], [m0; m1; m2; m3])
          (final (RandomSalt (boot_state recovery_os)))
    /\ alnum c0 /\ alnum c1
    /\ 1 <= m0 <= 255 /\ 1 <= m1 <= 255 /\ 1 <= m2 <= 255
    /\ 1 <= m3 <= 255.
Proof.
  apply (RandomSalt_salts_wellformed stock_config (boot_state recovery_os)).
  vm_compute. repeat constructor; discriminate.
Defined.

(** Backend 42 leaves an array that holds 42 and 43. *)
Lemma ShmemBackendArray_remove_42 :
  snd (ShmemBackendArrayRemove 42 two_backends)
  = [mkBackend 0 3735928559; mkBackend 43 7]
  /\ forall key,
       cancel_scan (snd (ShmemBackendArrayRemove 42 two_backends)) 42 key
       = [E_ereport DEBUG2 "bad pid in cancel request for process %d"].
Proof.
  split; [reflexivity|].
  destruct (ShmemBackendArray_remove 42 two_backends)
    as (_ & _ & _ & H & _).
  - discriminate.
  - apply H. vm_compute.
    repeat constructor; cbn; intuition discriminate.
Defined.

(** A cancel request for pid 0 with key 99, the key of the backend
    that held the second slot before. *)
Lemma cancel_request_pid_0_matches_empty_slot_99 :
  cancel_scan ([mkBackend 42 7] ++ mkBackend 0 99 :: []) 0 99
  = [E_ereport DEBUG2
       "processing cancel request: sending SIGINT to process %d";
     E_kill 0 SIGINT].
Proof.
  destruct (cancel_request_pid_0_matches_empty_slot [mkBackend 42 7] []
              (mkBackend 0 99) stock_config two_backends 99) as (H & _).
  - reflexivity.
  - intros b [<-|[]]. discriminate.
  - exact H.
Defined.

(** The course of events of the recovery scenario, from boot. *)
Lemma never_signals_a_process_group_recovery :
  pids_ok (final (run stock_config recovery_events (boot_state recovery_os)))
  /\ forall p sig,
       In (E_kill p sig)
          (added (boot_state recovery_os)
             (final (run stock_config recovery_events
                       (boot_state recovery_os)))) -> 0 < p.
Proof.
  apply (never_signals_a_process_group stock_config recovery_events
           (boot_state recovery_os)).
  unfold pids_ok. cbn. repeat split; try lia. constructor.
Defined.

(** Two switches with two blanks between them. *)
Lemma split_opts_arguments_C :
  split_opts isspace_C (list_byte_of_string "-c  geqo=off")
  = list_byte_of_string "-c"
    :: split_opts isspace_C (list_byte_of_string " geqo=off")
  /\ split_opts isspace_C (list_byte_of_string " geqo=off")
     = [list_byte_of_string "geqo=off"].
Proof.
  split; [|vm_compute; reflexivity].
  destruct (split_opts_arguments isspace_C (list_byte_of_string " geqo=off"))
    as (_ & _ & _ & _ & _ & H).
  destruct (H (list_byte_of_string "-c")) as [_ H2];
    [vm_compute; discriminate | reflexivity |].
  exact (H2 x20 eq_refl).
Defined.
